(** * claude-code-slack: a shallow embedding of the worker and the daemon

    The repository relays Slack commands to a local agent through a GitHub
    repository used as a mailbox.  Two processes are modelled:

    - the worker ([worker/main.py], [worker/job_handler.py],
      [worker/github_client.py]): signature verification, the webhook route
      and the dispatcher;
    - the daemon ([daemon/main.py]): the markup translator, thread context
      formatting, the task queue consumer and the poll loop.

    Python strings are sequences of Unicode code points, so [str] is
    [list N]; regular expressions are run by a small backtracking matcher
    that follows the priorities of Python's [re]; code that talks to the
    network, the clock or a subprocess is written in a free monad whose
    events are answered by an environment. *)

From Stdlib Require Import String Ascii DecimalString.
From Stdlib Require Import List NArith ZArith QArith Qabs Bool Arith Lia.
From Stdlib Require Import SpecFloat.
Import ListNotations.
Close Scope Q_scope.
Set Warnings "-register-all".
Local Open Scope list_scope.

(* ================================================================= *)
(** ** Python strings *)

Module Py.

Definition char := N.
Definition str := list char.
Definition bytes := list Byte.byte.

(** An ASCII literal as a [str]: below 128 a byte is its code point. *)
Definition lit (s : string) : str :=
  map N_of_ascii (list_ascii_of_string s).
Arguments lit s%_string.

(** The newline character as a string. *)
Definition nl : str := [10%N].

Definition str_eqb (a b : str) : bool :=
  if list_eq_dec N.eq_dec a b then true else false.

Definition nonempty {A} (l : list A) : bool :=
  match l with [] => false | _ :: _ => true end.

Definition between (lo hi c : N) : bool := (N.leb lo c && N.leb c hi)%bool.

(** [str.isspace] on one code point, which is also [\s] of a [str]
    pattern and what [str.strip()] removes. *)
Definition isspace (c : char) : bool :=
  (between 9 13 c || between 28 32 c || N.eqb c 133 || N.eqb c 160
   || N.eqb c 5760 || between 8192 8202 c || N.eqb c 8232 || N.eqb c 8233
   || N.eqb c 8239 || N.eqb c 8287 || N.eqb c 12288)%bool.

Fixpoint lstrip (s : str) : str :=
  match s with
  | c :: s' => if isspace c then lstrip s' else s
  | [] => []
  end.

Definition rstrip (s : str) : str := rev (lstrip (rev s)).

(** [s.strip()] *)
Definition strip (s : str) : str := rstrip (lstrip s).

(** [s.split(sep)] for a one-character separator: never the empty list. *)
Fixpoint split_on (sep : char) (s : str) : list str :=
  match s with
  | [] => [[]]
  | c :: s' =>
      if N.eqb c sep then [] :: split_on sep s'
      else match split_on sep s' with
           | p :: ps => (c :: p) :: ps
           | [] => [[c]]
           end
  end.

(** [sep.join(parts)] *)
Fixpoint join (sep : str) (parts : list str) : str :=
  match parts with
  | [] => []
  | [p] => p
  | p :: ps => p ++ sep ++ join sep ps
  end.

Fixpoint startswith (p s : str) : bool :=
  match p, s with
  | [], _ => true
  | a :: p', b :: s' => (N.eqb a b && startswith p' s')%bool
  | _ :: _, [] => false
  end.

(** [s.endswith(p)] *)
Definition endswith (s p : str) : bool := startswith (rev p) (rev s).

(** [p in s] *)
Fixpoint contains (p s : str) : bool :=
  (startswith p s || match s with [] => false | _ :: s' => contains p s' end)%bool.

(** [str(n)] of an [int] *)
Definition str_of_Z (z : Z) : str := lit (NilZero.string_of_int (Z.to_int z)).

(** ASCII case folding, the part of [str.lower] that does not need the
    Unicode case tables. *)
Definition ascii_lower (s : str) : str :=
  map (fun c => if between 65 90 c then (c + 32)%N else c) s.

End Py.
Import Py.

(* ================================================================= *)
(** ** The regular expressions of the code

    A pattern is a sequence of items.  Every quantifier the code uses
    ranges over a character class, so [Rep] carries the class, the bounds
    and whether it is greedy.  The matcher explores alternatives in the
    order Python's backtracking engine does: a greedy repetition tries one
    more character before it tries the rest of the pattern, a lazy one the
    other way round. *)

Module Re.

Inductive item : Type :=
| Chr (c : char)
| Rep (greedy : bool) (lo : nat) (hi : option nat) (cls : char -> bool)
| Open (g : nat)
| Close (g : nat)
| Bol
| Eol.

(** Captured groups, most recent first. *)
Definition captures := list (nat * str).

Fixpoint lookup {V} (g : nat) (l : list (nat * V)) : option V :=
  match l with
  | [] => None
  | (k, v) :: l' => if Nat.eqb k g then Some v else lookup g l'
  end.

(** [m.group(g)]; every group of the patterns below takes part in every
    match, so the default is never used. *)
Definition group (caps : captures) (g : nat) : str :=
  match lookup g caps with Some s => s | None => [] end.

Definition room (hi : option nat) : bool :=
  match hi with Some 0 => false | _ => true end.

(** [match_items items s bos n opens caps]: match [items] against a prefix
    of [s].  [n] counts the characters consumed since the match began,
    [bos] says whether the match began at the start of the subject,
    [opens] holds the groups that are open with the text that was left
    when they opened.  The result is the length of the match and its
    groups. *)
Fixpoint match_items (items : list item) (s : str) (bos : bool) (n : nat)
  (opens : list (nat * (nat * str))) (caps : captures) {struct items}
  : option (nat * captures) :=
  match items with
  | [] => Some (n, caps)
  | Chr c :: rest =>
      match s with
      | x :: s' => if N.eqb x c then match_items rest s' bos (S n) opens caps
                   else None
      | [] => None
      end
  | Rep greedy lo hi cls :: rest =>
      (fix rep (s : str) (n lo : nat) (hi : option nat) {struct s}
         : option (nat * captures) :=
         match s with
         | [] => if Nat.eqb lo 0 then match_items rest [] bos n opens caps
                 else None
         | x :: s' =>
             if greedy then
               match (if (cls x && room hi)%bool
                      then rep s' (S n) (pred lo) (option_map pred hi)
                      else None) with
               | Some r => Some r
               | None => if Nat.eqb lo 0
                         then match_items rest (x :: s') bos n opens caps
                         else None
               end
             else
               match (if Nat.eqb lo 0
                      then match_items rest (x :: s') bos n opens caps
                      else None) with
               | Some r => Some r
               | None => if (cls x && room hi)%bool
                         then rep s' (S n) (pred lo) (option_map pred hi)
                         else None
               end
         end) s n lo hi
  | Open g :: rest => match_items rest s bos n ((g, (n, s)) :: opens) caps
  | Close g :: rest =>
      match lookup g opens with
      | Some (n0, s0) =>
          match_items rest s bos n opens ((g, firstn (n - n0) s0) :: caps)
      | None => None
      end
  | Bol :: rest =>
      if (bos && Nat.eqb n 0)%bool then match_items rest s bos n opens caps
      else None
  | Eol :: rest =>
      match s with
      | [] | [10%N] => match_items rest s bos n opens caps
      | _ => None
      end
  end.

(** One attempt at the current position. *)
Definition match_at (items : list item) (s : str) (bos : bool)
  : option (nat * captures) :=
  match_items items s bos 0 [] [].

(** [re.match(pattern, s)]: one attempt, at the start of [s]. *)
Definition re_match (items : list item) (s : str) : option captures :=
  option_map snd (match_at items s true).

(** [re.sub(pattern, repl, s)]: the leftmost match is replaced and the
    scan goes on after it.  [skip] is the number of characters of the last
    match still to be passed over.  None of the patterns of the code
    matches the empty string. *)
Fixpoint sub_loop (items : list item) (repl : captures -> str) (s : str)
  (bos : bool) (skip : nat) : str :=
  match skip with
  | S k =>
      match s with
      | [] => []
      | _ :: s' => sub_loop items repl s' false k
      end
  | O =>
      match match_at items s bos with
      | Some (len, caps) =>
          match s with
          | [] => repl caps
          | x :: s' =>
              match len with
              | O => repl caps ++ x :: sub_loop items repl s' false 0
              | S k => repl caps ++ sub_loop items repl s' false k
              end
          end
      | None =>
          match s with
          | [] => []
          | x :: s' => x :: sub_loop items repl s' false 0
          end
      end
  end.

Definition re_sub (items : list item) (repl : captures -> str) (s : str) : str :=
  sub_loop items repl s true 0.

Definition cons_head (x : char) (l : list str) : list str :=
  match l with
  | p :: ps => (x :: p) :: ps
  | [] => [[x]]
  end.

(** [re.split(pattern, s)] for a pattern with one capturing group that
    does not match the empty string: the text before a match, the group,
    then the pieces of what follows. *)
Fixpoint split_loop (items : list item) (s : str) (bos : bool) (skip : nat)
  : list str :=
  match skip with
  | S k =>
      match s with
      | [] => [[]]
      | _ :: s' => split_loop items s' false k
      end
  | O =>
      match s with
      | [] => [[]]
      | x :: s' =>
          match match_at items s bos with
          | Some (S k, caps) => [] :: group caps 1 :: split_loop items s' false k
          | _ => cons_head x (split_loop items s' false 0)
          end
      end
  end.

Definition re_split (items : list item) (s : str) : list str :=
  split_loop items s true 0.

(** Character classes and literal runs. *)
Definition just (c : char) : char -> bool := N.eqb c.
Definition isnot (c : char) : char -> bool := fun x => negb (N.eqb c x).
Definition dot : char -> bool := isnot 10%N.         (* .  : all but newline *)
Definition any : char -> bool := fun _ => true.     (* [\s\S] *)
Definition upper_or_digit (c : char) : bool :=      (* [A-Z0-9] *)
  (between 65 90 c || between 48 57 c)%bool.
Definition chars (s : string) : list item := map Chr (lit s).
Arguments chars s%_string.

Definition plus (cls : char -> bool) : item := Rep true 1 None cls.
Definition star (cls : char -> bool) : item := Rep true 0 None cls.
Definition plus_lazy (cls : char -> bool) : item := Rep false 1 None cls.
Definition star_lazy (cls : char -> bool) : item := Rep false 0 None cls.

End Re.
Import Re.

(* ================================================================= *)
(** ** daemon/main.py: the markup translator *)

Module Markup.

Definition ch (a : ascii) : char := N_of_ascii a.
Arguments ch a%_char.

(** The bullet glyph U+2022. *)
Definition bullet_glyph : char := 8226%N.

(** [r"(```[\s\S]*?```)"] *)
Definition fence_re : list item :=
  [Open 1] ++ chars "```" ++ [star_lazy any] ++ chars "```" ++ [Close 1].

(** [r"^(#{1,6})\s+(.+)$"] *)
Definition header_re : list item :=
  [Bol; Open 1; Rep true 1 (Some 6) (just (ch "#")); Close 1; plus isspace;
   Open 2; plus dot; Close 2; Eol].

(** [r"^---+$"] *)
Definition rule_re : list item :=
  [Bol] ++ chars "--" ++ [plus (just (ch "-")); Eol].

(** [r"\*\*\*(.+?)\*\*\*"] *)
Definition bold_italic_re : list item :=
  chars "***" ++ [Open 1; plus_lazy dot; Close 1] ++ chars "***".

(** [r"\*\*(.+?)\*\*"] *)
Definition bold_re : list item :=
  chars "**" ++ [Open 1; plus_lazy dot; Close 1] ++ chars "**".

(** [r"\[([^\]]+)\]\(([^)]+)\)"] *)
Definition link_re : list item :=
  chars "[" ++ [Open 1; plus (isnot (ch "]")); Close 1] ++ chars "]("
  ++ [Open 2; plus (isnot (ch ")")); Close 2] ++ chars ")".

(** The image pattern: an exclamation mark, then the link pattern with a
    label that may be empty (a starred class where the link has a plus). *)
Definition image_re : list item :=
  chars "![" ++ [Open 1; star (isnot (ch "]")); Close 1] ++ chars "]("
  ++ [Open 2; plus (isnot (ch ")")); Close 2] ++ chars ")".

(** [r"~~(.+?)~~"] *)
Definition strike_re : list item :=
  chars "~~" ++ [Open 1; plus_lazy dot; Close 1] ++ chars "~~".

(** The bullet pattern: from the start of the line, group 1 is the leading
    whitespace (starred), then an asterisk, whitespace (plus), and group 2
    is the rest of the line (dot plus) up to the end. *)
Definition bullet_re : list item :=
  [Bol; Open 1; star isspace; Close 1; Chr (ch "*"); plus isspace;
   Open 2; plus dot; Close 2; Eol].

(** The body of [for line in lines]: what is appended to [result]. *)
Definition convert_line (line : str) : str :=
  match re_match header_re line with
  | Some m => lit "*" ++ group m 2 ++ lit "*"
  | None =>
      match re_match rule_re (strip line) with
      | Some _ => []
      | None =>
          let line := re_sub bold_italic_re
                        (fun m => lit "*_" ++ group m 1 ++ lit "_*") line in
          let line := re_sub bold_re
                        (fun m => lit "*" ++ group m 1 ++ lit "*") line in
          let line := re_sub link_re
                        (fun m => lit "<" ++ group m 2 ++ lit "|" ++ group m 1 ++ lit ">")
                        line in
          let line := re_sub image_re
                        (fun m => lit "<" ++ group m 2 ++ lit "|" ++ group m 1 ++ lit ">")
                        line in
          let line := re_sub strike_re
                        (fun m => lit "~" ++ group m 1 ++ lit "~") line in
          match re_match bullet_re line with
          | Some m => group m 1 ++ bullet_glyph :: lit " " ++ group m 2
          | None => line
          end
      end
  end.

(** A part outside the fences: split into lines, convert, join. *)
Definition convert_text (part : str) : str :=
  join nl (map convert_line (split_on 10%N part)).

(** [for i, part in enumerate(parts)]: odd parts are fenced code. *)
Fixpoint convert_parts (i : nat) (parts : list str) : list str :=
  match parts with
  | [] => []
  | part :: rest =>
      (if Nat.odd i then part else convert_text part)
        :: convert_parts (S i) rest
  end.

Definition markdown_to_slack (text : str) : str :=
  concat (convert_parts 0 (re_split fence_re text)).

(** *** Fenced regions

    What the fence pattern matches, written without the matcher: a fence,
    then the shortest text that is followed by a fence. *)

Definition FENCE : str := lit "```".

(** The distance from the start of [s] to the first fence in it. *)
Fixpoint close_at (s : str) : option nat :=
  if startswith FENCE s then Some 0
  else match s with
       | [] => None
       | _ :: s' => option_map S (close_at s')
       end.

(** The length of the fenced region that starts [s], when one does. *)
Definition fence_span (s : str) : option nat :=
  if startswith FENCE s
  then option_map (fun j => j + 6) (close_at (skipn 3 s))
  else None.

(** The parts [markdown_to_slack] works on: text, fenced region, text, ... *)
Definition pieces (text : str) : list str := re_split fence_re text.

(** [fenced text before region after]: [region] is one of the fenced
    regions of [text], paired from the left, with the text on its two
    sides. *)
Inductive fenced : str -> str -> str -> str -> Prop :=
| fenced_first text n :
    fence_span text = Some n ->
    fenced text [] (firstn n text) (skipn n text)
| fenced_next text n before region after :
    fence_span text = Some n ->
    fenced (skipn n text) before region after ->
    fenced text (firstn n text ++ before) region after
| fenced_skip x text before region after :
    fence_span (x :: text) = None ->
    fenced text before region after ->
    fenced (x :: text) (x :: before) region after.

End Markup.
Import Markup.

(* ================================================================= *)
(** ** Values, exceptions and effects *)

Module Eff.

(** What [json.loads] and [resp.json()] return.  A float is kept as a
    rational: the code only ever tests a number for truth. *)
Inductive json : Type :=
| JNull
| JBool (b : bool)
| JInt (z : Z)
| JReal (q : Q)
| JStr (s : str)
| JList (l : list json)
| JDict (d : list (str * json)).

Definition dict := list (str * json).

(** [bool(v)] *)
Definition truthy (v : json) : bool :=
  match v with
  | JNull => false
  | JBool b => b
  | JInt z => negb (Z.eqb z 0)
  | JReal q => negb (Z.eqb (Qnum q) 0)
  | JStr s => nonempty s
  | JList l => nonempty l
  | JDict d => nonempty d
  end.

Fixpoint dict_get (d : dict) (k : str) : option json :=
  match d with
  | [] => None
  | (k', v) :: d' => if str_eqb k' k then Some v else dict_get d' k
  end.

(** [d.get(k, default)] *)
Definition get_or (d : dict) (k : str) (default : json) : json :=
  match dict_get d k with Some v => v | None => default end.

(** [d[k] = v] *)
Fixpoint dict_set (d : dict) (k : str) (v : json) : dict :=
  match d with
  | [] => [(k, v)]
  | (k', v') :: d' =>
      if str_eqb k' k then (k, v) :: d' else (k', v') :: dict_set d' k v
  end.

Inductive exn_class : Type :=
| TypeError | AttributeError | KeyError | ValueError | JSONDecodeError
| UnicodeDecodeError | Base64Error | TimeoutExpired | FileNotFoundError
| TransportError.

(** An exception: its class and [str(e)].  All of them derive from
    [Exception]. *)
Record exn : Type := Exn { exn_cls : exn_class; exn_msg : str }.

Definition error (c : exn_class) : exn := Exn c [].

Inductive result (A : Type) : Type :=
| Ok (a : A)
| Err (e : exn).
Arguments Ok {A} a.
Arguments Err {A} e.

(** [v.get(k, default)]: only a dict has [get]. *)
Definition py_get (v : json) (k : str) (default : json) : result json :=
  match v with
  | JDict d => Ok (get_or d k default)
  | _ => Err (error AttributeError)
  end.

(** [v[k]] for a string key. *)
Definition subscript (v : json) (k : str) : result json :=
  match v with
  | JDict d => match dict_get d k with
               | Some x => Ok x
               | None => Err (error KeyError)
               end
  | _ => Err (error TypeError)
  end.

(** A value passed where the callee takes text only: the URL given to
    [httpx], which raises [TypeError] on any other type. *)
Definition as_str (v : json) : result str :=
  match v with
  | JStr s => Ok s
  | _ => Err (error TypeError)
  end.

(** [v[:n]]: text and lists can be sliced, [None], booleans and numbers
    cannot, and a dict takes the slice for a key it rejects or lacks
    ([TypeError] up to Python 3.11, [KeyError] from 3.12 on). *)
Definition slice (v : json) (n : nat) : result json :=
  match v with
  | JStr s => Ok (JStr (firstn n s))
  | JList l => Ok (JList (firstn n l))
  | _ => Err (error TypeError)
  end.

(** An HTTP answer: [resp.status_code], and the body when it is JSON
    ([resp.json()] raises otherwise). *)
Record response : Type := { status_code : nat; body : option json }.

(** [subprocess.run(..., capture_output=True, text=True)] *)
Record completed : Type := { returncode : Z; stdout : str; stderr : str }.

(** What [asyncio.create_task] is given in the worker. *)
Inductive job : Type :=
| DispatchJob (text : str) (user_id channel_id response_url thread_ts : json)
| EventJob (event : json).

(** The calls that leave the process, indexed by what they answer. *)
Inductive event : Type -> Type :=
| HttpGet (url : str) (headers : list (str * str)) (params : list (str * json))
  : event response
| HttpPost (url : str) (headers : list (str * str)) (payload : json) : event response
| HttpPut (url : str) (headers : list (str * str)) (payload : json) : event response
| HttpDelete (url : str) (headers : list (str * str)) (payload : json) : event response
| SubprocessRun (argv : list str) (cwd : str) (timeout : Z) : event completed
| Uuid4 : event str
| UtcNowIso : event str
| Sleep (seconds : Z) : event unit
| CreateTask (j : job) : event unit.

(** A computation: it returns, raises, or makes a call and goes on with
    the answer, which may itself be an exception (a transport error, a
    timeout). *)
Inductive prog (A : Type) : Type :=
| Ret (a : A)
| Raise (e : exn)
| Vis {X : Type} (ev : event X) (k : result X -> prog A).
Arguments Ret {A} a.
Arguments Raise {A} e.
Arguments Vis {A X} ev k.

Definition lift {A} (r : result A) : prog A :=
  match r with Ok a => Ret a | Err e => Raise e end.

Definition call {X} (ev : event X) : prog X := Vis ev lift.

Fixpoint bind {A B} (m : prog A) (f : A -> prog B) : prog B :=
  match m with
  | Ret a => f a
  | Raise e => Raise e
  | Vis ev k => Vis ev (fun r => bind (k r) f)
  end.

(** [try: m  except Exception as e: h e] *)
Fixpoint try_except {A} (m : prog A) (h : exn -> prog A) : prog A :=
  match m with
  | Ret a => Ret a
  | Raise e => h e
  | Vis ev k => Vis ev (fun r => try_except (k r) h)
  end.

Declare Scope prog_scope.
Delimit Scope prog_scope with prog.
Notation "x <- c1 ;; c2" := (bind c1 (fun x => c2))
  (at level 61, c1 at next level, right associativity) : prog_scope.
Notation "c1 ;; c2" := (bind c1 (fun _ => c2))
  (at level 61, right associativity) : prog_scope.

(** [for x in l: body x] *)
Fixpoint for_each {A} (l : list A) (body : A -> prog unit) : prog unit :=
  match l with
  | [] => Ret tt
  | x :: l' => bind (body x) (fun _ => for_each l' body)
  end.

(** [resp.json()] *)
Definition resp_json (resp : response) : prog json :=
  match body resp with
  | Some v => Ret v
  | None => Raise (error JSONDecodeError)
  end.

(** *** Running a computation against an environment *)

(** One call, as it is recorded in a trace. *)
Definition entry : Type := {X : Type & event X}.
Definition log {X} (ev : event X) : entry := existT _ X ev.

(** The environment answers each call and moves to its next state. *)
Definition handler (S : Type) : Type := forall X, event X -> S -> result X * S.

Record outcome (S A : Type) : Type :=
  { value : result A; final : S; trace : list entry }.
Arguments value {S A} o.
Arguments final {S A} o.
Arguments trace {S A} o.

Fixpoint run {S A} (h : handler S) (m : prog A) (s : S) : outcome S A :=
  match m with
  | Ret a => {| value := Ok a; final := s; trace := [] |}
  | Raise e => {| value := Err e; final := s; trace := [] |}
  | Vis ev k =>
      let (r, s') := h _ ev s in
      let o := run h (k r) s' in
      {| value := value o; final := final o; trace := log ev :: trace o |}
  end.

Definition count (p : entry -> bool) (t : list entry) : nat :=
  List.length (filter p t).

Definition is_post_to (url : str) (e : entry) : bool :=
  match projT2 e with
  | HttpPost u _ _ => str_eqb u url
  | _ => false
  end.

Definition is_get (e : entry) : bool :=
  match projT2 e with HttpGet _ _ _ => true | _ => false end.

Definition is_put (e : entry) : bool :=
  match projT2 e with HttpPut _ _ _ => true | _ => false end.

Definition is_delete_of (url : str) (e : entry) : bool :=
  match projT2 e with
  | HttpDelete u _ _ => str_eqb u url
  | _ => false
  end.

Definition is_create_task (e : entry) : bool :=
  match projT2 e with CreateTask _ => true | _ => false end.


(** The text of a message posted to Slack. *)
Definition posted_text (e : entry) : option str :=
  match projT2 e with
  | HttpPost _ _ (JDict d) =>
      match dict_get d (lit "text") with
      | Some (JStr t) => Some t
      | _ => None
      end
  | _ => None
  end.

(** A post whose text is longer than [limit]. *)
Definition oversized (limit : nat) (e : entry) : bool :=
  match posted_text e with
  | Some t => Nat.ltb limit (List.length t)
  | None => false
  end.

(** [emits P n m]: on every run of [m] that returns, exactly [n] of its
    calls satisfy [P]; on a run that raises, at most [n]. *)
Fixpoint emits {A} (P : entry -> bool) (n : nat) (m : prog A) : Prop :=
  match m with
  | Ret _ => n = 0
  | Raise _ => True
  | Vis ev k =>
      if P (log ev)
      then match n with
           | S n' => forall r, emits P n' (k r)
           | O => False
           end
      else forall r, emits P n (k r)
  end.

(** [returns Q m]: every value [m] returns satisfies [Q]. *)
Fixpoint returns {A} (Q : A -> Prop) (m : prog A) : Prop :=
  match m with
  | Ret a => Q a
  | Raise _ => True
  | Vis ev k => forall r, returns Q (k r)
  end.

End Eff.
Import Eff.
Local Open Scope prog_scope.

(* ================================================================= *)
(** ** Mentions

    Both processes strip bot mentions with the same expression. *)

Module Mention.

(** [r"<@[A-Z0-9]+>\s*"] *)
Definition mention_re : list item :=
  chars "<@" ++ [plus upper_or_digit] ++ chars ">" ++ [star isspace].

(** [re.sub(r"<@[A-Z0-9]+>\s*", "", text).strip()] *)
Definition strip_mentions (text : str) : str :=
  strip (re_sub mention_re (fun _ => []) text).

End Mention.
Import Mention.

(* ================================================================= *)
(** ** daemon/config.py and daemon/main.py *)

Module Daemon.

(** [config.py]: the values read from the environment at start-up.
    [TASKS_PATH] is a constant of the module. *)
Record config : Type :=
  { GITHUB_TOKEN : str;
    GITHUB_REPO : str;
    GITHUB_BRANCH : str;
    WORKSPACE_DIR : str;
    CLAUDE_BIN : str;
    CLAUDE_TIMEOUT : Z;
    SLACK_BOT_TOKEN : str;
    POLL_INTERVAL : Z }.

Definition TASKS_PATH : str := lit "tasks".
Definition GITHUB_API : str := lit "https://api.github.com".

(** The delivery budget, the truncation marker and the size limit of a
    Slack message named in the comment of the truncation step. *)
Definition BUDGET : nat := 3900.
Definition MARKER : str := nl ++ lit "...(truncated)".
Definition SLACK_LIMIT : nat := 4000.

Definition HEADER : str := lit "Previous conversation in this thread:".

(** The body of the loop of [format_thread_context]: the lines one
    message appends.  [msg.get] needs a dict and [re.sub] a string. *)
Definition context_line (msg : json) : result (list str) :=
  match msg with
  | JDict d =>
      match get_or d (lit "text") (JStr []) with
      | JStr text =>
          let text := strip_mentions text in
          if nonempty text then
            if truthy (get_or d (lit "bot_id") JNull)
            then Ok [lit "Bot: " ++ text]
            else if negb (truthy (get_or d (lit "subtype") JNull))
                 then Ok [lit "User: " ++ text]
                 else Ok []
          else Ok []
      | _ => Err (error TypeError)
      end
  | _ => Err (error AttributeError)
  end.

(** [for msg in msgs], in order; the first exception ends the loop. *)
Fixpoint context_lines (msgs : list json) : result (list str) :=
  match msgs with
  | [] => Ok []
  | msg :: rest =>
      match context_line msg with
      | Err e => Err e
      | Ok here =>
          match context_lines rest with
          | Err e => Err e
          | Ok more => Ok (here ++ more)
          end
      end
  end.

Definition format_thread_context (messages : list json) : result str :=
  if Nat.leb (List.length messages) 1 then Ok []
  else
    match context_lines (removelast messages) with
    | Err e => Err e
    | Ok more =>
        let lines := HEADER :: more in
        if Nat.leb (List.length lines) 1 then Ok []
        else Ok (join nl lines ++ nl)
    end.

(** A line that carries a role label. *)
Definition role_labelled (line : str) : bool :=
  (startswith (lit "Bot: ") line || startswith (lit "User: ") line)%bool.




(** The truncation step of [process_task]. *)
Definition truncate_output (output : str) : str :=
  if Nat.ltb BUDGET (List.length output)
  then firstn BUDGET output ++ MARKER
  else output.

Definition PROMPT_PREFIX : str :=
  lit "You are responding to a Slack command. "
  ++ lit "Keep your response concise " ++ [8212%N]
  ++ lit " it will be posted to a Slack channel. "
  ++ lit "Format for Slack mrkdwn: use *bold* (single asterisk), _italic_, "
  ++ lit "`code`, and <url|text> for links. No markdown headings." ++ nl ++ nl
  ++ lit "User request: ".

Section WithConfig.

Variable cfg : config.

(** The decoders of the standard library that [read_task] goes through:
    [base64.b64decode], [bytes.decode("utf-8")] and [json.loads]; [None]
    is the exception each of them raises on input it rejects. *)
Variable b64decode : str -> option bytes.
Variable decode_utf8 : bytes -> option str.
Variable json_loads : str -> option json.

(** [str(v)] for a value that is not text: what an f-string inserts for a
    number, a list and the like. *)
Variable py_str : json -> str.

(** [f"{v}"] *)
Definition format_value (v : json) : str :=
  match v with
  | JStr s => s
  | _ => py_str v
  end.

Definition github_headers : list (str * str) :=
  [(lit "Authorization", lit "Bearer " ++ GITHUB_TOKEN cfg);
   (lit "Accept", lit "application/vnd.github.v3+json");
   (lit "X-GitHub-Api-Version", lit "2022-11-28")].

Definition contents_url (path : str) : str :=
  GITHUB_API ++ lit "/repos/" ++ GITHUB_REPO cfg ++ lit "/contents/" ++ path.

(** [item["name"].endswith(".json")] *)
Definition is_json_file (item : json) : result bool :=
  match subscript item (lit "name") with
  | Err e => Err e
  | Ok (JStr name) => Ok (endswith name (lit ".json"))
  | Ok _ => Err (error AttributeError)
  end.

(** The list comprehension of [list_pending_tasks]. *)
Fixpoint json_files (items : list json) : result (list json) :=
  match items with
  | [] => Ok []
  | item :: rest =>
      match is_json_file item with
      | Err e => Err e
      | Ok keep =>
          match json_files rest with
          | Err e => Err e
          | Ok l => Ok (if keep then item :: l else l)
          end
      end
  end.

Definition list_pending_tasks : prog (list json) :=
  resp <- call (HttpGet (contents_url TASKS_PATH) github_headers
                  [(lit "ref", JStr (GITHUB_BRANCH cfg))]) ;;
  if Nat.eqb (status_code resp) 404 then Ret []
  else if negb (Nat.eqb (status_code resp) 200) then Ret []
  else
    items <- resp_json resp ;;
    match items with
    | JList l => lift (json_files l)
    | _ => Ret []
    end.

(** The decoding steps of [read_task] after [resp.json()]. *)
Definition decode_task (data : json) (path : json) : result dict :=
  match subscript data (lit "content") with
  | Err e => Err e
  | Ok (JStr b64) =>
      match b64decode b64 with
      | None => Err (error Base64Error)
      | Some raw =>
          match decode_utf8 raw with
          | None => Err (error UnicodeDecodeError)
          | Some content =>
              match json_loads content with
              | None => Err (error JSONDecodeError)
              | Some task =>
                  match subscript data (lit "sha") with
                  | Err e => Err e
                  | Ok sha =>
                      match task with
                      | JDict t =>
                          Ok (dict_set (dict_set t (lit "_sha") sha)
                                (lit "_path") path)
                      | _ => Err (error TypeError)
                      end
                  end
              end
          end
      end
  | Ok _ => Err (error TypeError)
  end.

Definition read_task (path : json) : prog (option dict) :=
  resp <- call (HttpGet (contents_url (format_value path)) github_headers []) ;;
  if negb (Nat.eqb (status_code resp) 200) then Ret None
  else
    data <- resp_json resp ;;
    task <- lift (decode_task data path) ;;
    Ret (Some task).

Definition delete_task (path sha : json) : prog unit :=
  let payload :=
    JDict [(lit "message", JStr (lit "Task completed: " ++ format_value path));
           (lit "sha", sha);
           (lit "branch", JStr (GITHUB_BRANCH cfg))] in
  _ <- call (HttpDelete (contents_url (format_value path)) github_headers payload) ;;
  Ret tt.

(** [run_claude]: the prompt is appended to text, which only text allows;
    the CLI is run in the workspace; a timeout and a missing binary become
    the text of the answer, any other exception goes on. *)
Definition run_claude (prompt : json) (context : str) : prog str :=
  match prompt with
  | JStr prompt =>
      let full_prompt :=
        if nonempty context
        then PROMPT_PREFIX ++ context ++ nl ++ lit "Latest request: " ++ prompt
        else PROMPT_PREFIX ++ prompt in
      try_except
        (r <- call (SubprocessRun [CLAUDE_BIN cfg; lit "-p"; full_prompt]
                      (WORKSPACE_DIR cfg) (CLAUDE_TIMEOUT cfg)) ;;
         if Z.eqb (returncode r) 0 then Ret (strip (stdout r))
         else Ret (lit "Error: Claude Code returned exit code "
                   ++ str_of_Z (returncode r) ++ nl ++ firstn 500 (stderr r)))
        (fun e =>
           match exn_cls e with
           | TimeoutExpired =>
               Ret (lit "Error: Claude Code timed out ("
                    ++ str_of_Z (CLAUDE_TIMEOUT cfg) ++ lit "s limit)")
           | FileNotFoundError =>
               Ret (lit "Error: Claude Code CLI not found. Is it installed and in PATH?")
           | _ => Raise e
           end)
  | _ => Raise (error TypeError)
  end.

Definition SLACK_POST_MESSAGE : str := lit "https://slack.com/api/chat.postMessage".
Definition SLACK_REPLIES : str := lit "https://slack.com/api/conversations.replies".

Definition slack_headers : list (str * str) :=
  [(lit "Authorization", lit "Bearer " ++ SLACK_BOT_TOKEN cfg)].

Definition post_to_slack (channel : json) (text : str) (thread_ts : json)
  : prog unit :=
  if negb (nonempty (SLACK_BOT_TOKEN cfg)) then Ret tt
  else
    let payload :=
      [(lit "channel", channel); (lit "text", JStr text)]
      ++ (if truthy thread_ts then [(lit "thread_ts", thread_ts)] else []) in
    resp <- call (HttpPost SLACK_POST_MESSAGE slack_headers (JDict payload)) ;;
    data <- resp_json resp ;;
    _ <- lift (py_get data (lit "ok") JNull) ;;
    Ret tt.

Definition respond_via_url (response_url : json) (text : str) : prog unit :=
  url <- lift (as_str response_url) ;;
  _ <- call (HttpPost url []
               (JDict [(lit "response_type", JStr (lit "in_channel"));
                       (lit "text", JStr text)])) ;;
  Ret tt.

Definition fetch_thread_history (channel thread_ts : json) : prog json :=
  if negb (nonempty (SLACK_BOT_TOKEN cfg)) then Ret (JList [])
  else
    resp <- call (HttpGet SLACK_REPLIES slack_headers
                    [(lit "channel", channel); (lit "ts", thread_ts)]) ;;
    data <- resp_json resp ;;
    ok <- lift (py_get data (lit "ok") JNull) ;;
    if truthy ok then lift (py_get data (lit "messages") (JList []))
    else Ret (JList []).

(** [_run_git]: every exception becomes the pair [(1, str(e))]. *)
Definition _run_git (args : list str) : prog (Z * str) :=
  try_except
    (r <- call (SubprocessRun (lit "git" :: args) (WORKSPACE_DIR cfg) 30) ;;
     Ret (returncode r, strip (stdout r ++ stderr r)))
    (fun e => Ret (1%Z, exn_msg e)).

Definition sync_workspace_to_github : prog unit :=
  r <- _run_git [lit "add"; lit "-A"] ;;
  if negb (Z.eqb (fst r) 0) then Ret tt
  else
    r <- _run_git [lit "diff"; lit "--cached"; lit "--quiet"] ;;
    if Z.eqb (fst r) 0 then Ret tt
    else
      r <- _run_git [lit "commit"; lit "-m";
                     lit "auto: sync workspace changes from Slack"] ;;
      if negb (Z.eqb (fst r) 0) then Ret tt
      else
        r <- _run_git [lit "push"; lit "origin"; GITHUB_BRANCH cfg] ;;
        if negb (Z.eqb (fst r) 0) then
          _ <- _run_git [lit "pull"; lit "--rebase"; lit "origin"; GITHUB_BRANCH cfg] ;;
          _ <- _run_git [lit "push"; lit "origin"; GITHUB_BRANCH cfg] ;;
          Ret tt
        else Ret tt.

Definition git_pull : prog unit :=
  _ <- _run_git [lit "pull"; lit "--rebase"; lit "origin"; GITHUB_BRANCH cfg] ;;
  Ret tt.

(** [task.get(key, "")] *)
Definition field (task : dict) (key : string) : json :=
  get_or task (lit key) (JStr []).

(** The acknowledgement and the result go the same way: the callback URL
    when the task has one, else the channel. *)
Definition deliver (response_url channel_id thread_ts : json) (text : str)
  : prog unit :=
  if truthy response_url then respond_via_url response_url text
  else if truthy channel_id then post_to_slack channel_id text thread_ts
  else Ret tt.

(** [format_thread_context(messages)] on what [fetch_thread_history]
    returned.  A value that is false, or of length at most one, is no
    context; a list is formatted; a number has no length, the characters
    of a longer text have no [get], and a dict cannot be sliced. *)
Definition thread_context (messages : json) : prog str :=
  match messages with
  | JList l => lift (format_thread_context l)
  | JStr s =>
      if Nat.leb (List.length s) 1 then Ret [] else Raise (error AttributeError)
  | JDict d =>
      if Nat.leb (List.length d) 1 then Ret [] else Raise (error TypeError)
  | v => if truthy v then Raise (error TypeError) else Ret []
  end.

(** [process_task].  Of the log lines only the first is kept, for the
    slice of the prompt it evaluates; the task id is used in log lines
    alone. *)
Definition process_task (task : dict) : prog unit :=
  let prompt := field task "prompt" in
  let channel_id := field task "channel_id" in
  let response_url := field task "response_url" in
  let thread_ts := field task "thread_ts" in
  _ <- lift (slice prompt 60) ;;
  shown <- lift (slice prompt 80) ;;
  let ack_text := lit "Processing: `" ++ format_value shown ++ lit "`..." in
  deliver response_url channel_id thread_ts ack_text ;;
  context <- (if (truthy thread_ts && truthy channel_id)%bool
              then messages <- fetch_thread_history channel_id thread_ts ;;
                   thread_context messages
              else Ret []) ;;
  output <- run_claude prompt context ;;
  let output := markdown_to_slack output in
  let output := truncate_output output in
  deliver response_url channel_id thread_ts output ;;
  path <- lift (subscript (JDict task) (lit "_path")) ;;
  sha <- lift (subscript (JDict task) (lit "_sha")) ;;
  delete_task path sha ;;
  sync_workspace_to_github.

(** The body of [for item in pending]. *)
Definition poll_item (item : json) : prog unit :=
  path <- lift (subscript item (lit "path")) ;;
  task <- read_task path ;;
  match task with
  | Some t => if nonempty t then process_task t else Ret tt
  | None => Ret tt
  end.

(** One turn of [while True] in [poll_loop]. *)
Definition poll_iteration : prog unit :=
  try_except
    (pending <- list_pending_tasks ;;
     (if nonempty pending then git_pull else Ret tt) ;;
     for_each pending poll_item)
    (fun _ => Ret tt) ;;
  call (Sleep (POLL_INTERVAL cfg)).

(** The first [n] turns of [poll_loop]. *)
Fixpoint poll_loop (n : nat) : prog unit :=
  match n with
  | O => Ret tt
  | S n' => poll_iteration ;; poll_loop n'
  end.

End WithConfig.

End Daemon.

(* ================================================================= *)
(** ** worker/github_client.py, worker/job_handler.py, worker/main.py *)

Module Worker.

(** A Python [float] is a double: an IEEE 754 binary64 number, with 53
    bits of precision and the exponents below 1024.  [float(timestamp)]
    and [time.time()] are such numbers, and their difference is the
    rounded one. *)
Definition pyfloat : Type := spec_float.

Definition PREC : Z := 53.
Definition EMAX : Z := 1024.

(** [float(z)] of an [int], rounded to the nearest double. *)
Definition float_of_int (z : Z) : pyfloat := binary_normalize PREC EMAX z 0 false.

(** [a - b] on doubles *)
Definition float_sub (a b : pyfloat) : pyfloat := SFsub PREC EMAX a b.

(** [x > z] for a double and an [int] that is a double too.  Every
    comparison with not-a-number is false. *)
Definition float_gt_int (x : pyfloat) (z : Z) : bool :=
  match SFcompare x (float_of_int z) with
  | Some Gt => true
  | _ => false
  end.

(** [abs(time.time() - t) > 300] *)
Definition stale (now t : pyfloat) : bool :=
  float_gt_int (SFabs (float_sub now t)) 300.

(** A finite double is a whole multiple of the smallest positive one, which
    is 2 to the power -1074: [units x] is that multiple. *)
Definition units (x : pyfloat) : Z :=
  match x with
  | S754_finite s m e => (if s then Z.neg m else Z.pos m) * 2 ^ (e + 1074)
  | _ => 0
  end%Z.

(** How far apart two finite doubles are, as numbers. *)
Definition seconds_apart (a b : pyfloat) : Q :=
  Z.abs (units a - units b) # (2 ^ 1074).

(** A double that is finite (zero included) and in the format. *)
Definition is_double (x : pyfloat) : bool :=
  match x with
  | S754_zero _ => true
  | S754_finite _ _ _ => valid_binary PREC EMAX x
  | _ => false
  end.

(** A mantissa that has lost a non-zero bit in a shift to the right. *)
Definition sticky (r : shr_record) : bool := (shr_r r || shr_s r)%bool.

Definition is_ascii (s : str) : bool := forallb (fun c => N.ltb c 128) s.

(** [hmac.compare_digest] on two [str]: both must be ASCII. *)
Definition compare_digest (a b : str) : result bool :=
  if (is_ascii a && is_ascii b)%bool then Ok (str_eqb a b)
  else Err (error TypeError).

Record GitHubClient : Type := { token : str; repo : str; branch : str }.

Record JobHandler : Type := { github : GitHubClient; slack_bot_token : str }.

(** A request as [slack_events] reads it: the body and three headers. *)
Record request : Type :=
  { req_body : bytes;
    x_slack_request_timestamp : option str;
    x_slack_signature : option str;
    content_type : option str }.

Inductive reply : Type :=
| TextReply (status : nat) (content : str)
| JsonReply (content : json).

Definition OK_REPLY : reply := JsonReply (JDict [(lit "ok", JBool true)]).

Definition GITHUB_API : str := lit "https://api.github.com".
Definition SLACK_POST_MESSAGE : str := lit "https://slack.com/api/chat.postMessage".
Definition FORM_ENCODED : str := lit "application/x-www-form-urlencoded".

(** [v == s] for a string literal [s] *)
Definition is_str (v : json) (s : str) : bool :=
  match v with JStr x => str_eqb x s | _ => false end.

Definition header (h : option str) : str :=
  match h with Some v => v | None => [] end.

Definition _handle_help : str :=
  lit "*Claude Code Slack*" ++ nl ++ nl
  ++ lit "Send any message and it will be processed by Claude Code "
  ++ lit "running in your workspace." ++ nl ++ nl
  ++ lit "*Built-in commands:*" ++ nl
  ++ lit "`help` " ++ [8212%N] ++ lit " This message" ++ nl
  ++ lit "`status` " ++ [8212%N] ++ lit " Check if the bot is running" ++ nl ++ nl
  ++ lit "*Examples:*" ++ nl
  ++ [8226%N] ++ lit " `What files are in the src/ directory?`" ++ nl
  ++ [8226%N] ++ lit " `Summarize the README`" ++ nl
  ++ [8226%N] ++ lit " `Run the tests and tell me what failed`" ++ nl.

Section WithLibrary.

(** The library functions the worker calls: [str.lower], [float],
    [str.encode()] and [bytes.decode("utf-8")], [hmac.new(key, msg,
    hashlib.sha256).hexdigest()], [json.loads] on the request body,
    [urllib.parse.parse_qs], [json.dumps(task, indent=2)] and
    [base64.b64encode(content.encode("utf-8")).decode("ascii")].  [None]
    is the exception raised on input the function rejects.  The strings
    that are encoded here are decoded text, a parsed number and
    configuration, which [encode] accepts. *)
Variable str_lower : str -> str.
Variable float_of_str : str -> option pyfloat.
Variable encode_utf8 : str -> bytes.
Variable decode_utf8 : bytes -> option str.
Variable hmac_sha256_hexdigest : bytes -> bytes -> str.
Variable json_loads : bytes -> option json.
Variable parse_qs : str -> list (str * list str).
Variable json_dumps : json -> str.
Variable b64encode : str -> str.

(** [SLACK_SIGNING_SECRET], read from the environment at start-up. *)
Variable SLACK_SIGNING_SECRET : str.

(** [now] is the value of [time.time()]. *)
Definition verify_slack_signature (now : pyfloat) (body : bytes)
  (timestamp signature : str) : result bool :=
  if negb (nonempty SLACK_SIGNING_SECRET) then Ok true
  else
    match float_of_str timestamp with
    | None => Ok false
    | Some t =>
        if stale now t then Ok false
        else
          match decode_utf8 body with
          | None => Err (error UnicodeDecodeError)
          | Some text =>
              let base := lit "v0:" ++ timestamp ++ lit ":" ++ text in
              let expected :=
                lit "v0=" ++ hmac_sha256_hexdigest
                               (encode_utf8 SLACK_SIGNING_SECRET)
                               (encode_utf8 base) in
              compare_digest expected signature
          end
    end.

(** The signature Slack sends: the digest of the bytes of the timestamp
    and of the raw body. *)
Definition slack_signature (timestamp : str) (body : bytes) : str :=
  lit "v0=" ++ hmac_sha256_hexdigest (encode_utf8 SLACK_SIGNING_SECRET)
                 (encode_utf8 (lit "v0:") ++ encode_utf8 timestamp
                  ++ encode_utf8 (lit ":") ++ body).

(** *** github_client.py *)

Definition _headers (self : GitHubClient) : list (str * str) :=
  [(lit "Accept", lit "application/vnd.github.v3+json");
   (lit "X-GitHub-Api-Version", lit "2022-11-28")]
  ++ (if nonempty (token self)
      then [(lit "Authorization", lit "Bearer " ++ token self)] else []).

Definition contents_url (self : GitHubClient) (path : str) : str :=
  GITHUB_API ++ lit "/repos/" ++ repo self ++ lit "/contents/" ++ path.

Definition _get_file_sha (self : GitHubClient) (path : str) : prog json :=
  resp <- call (HttpGet (contents_url self path) (_headers self)
                  [(lit "ref", JStr (branch self))]) ;;
  if Nat.eqb (status_code resp) 200 then
    data <- resp_json resp ;;
    lift (py_get data (lit "sha") JNull)
  else Ret JNull.

Definition write_file (self : GitHubClient) (path content message : str)
  : prog bool :=
  sha <- _get_file_sha self path ;;
  let payload :=
    [(lit "message", JStr message);
     (lit "content", JStr (b64encode content));
     (lit "branch", JStr (branch self))]
    ++ (if truthy sha then [(lit "sha", sha)] else []) in
  resp <- call (HttpPut (contents_url self path) (_headers self) (JDict payload)) ;;
  Ret (Nat.eqb (status_code resp) 200 || Nat.eqb (status_code resp) 201)%bool.

(** *** job_handler.py *)

Definition _respond (self : JobHandler) (channel_id : json) (text : str)
  (response_url thread_ts : json) : prog unit :=
  if truthy response_url then
    url <- lift (as_str response_url) ;;
    _ <- call (HttpPost url []
                 (JDict [(lit "response_type", JStr (lit "in_channel"));
                         (lit "text", JStr text)])) ;;
    Ret tt
  else if (truthy channel_id && nonempty (slack_bot_token self))%bool then
    let payload :=
      [(lit "channel", channel_id); (lit "text", JStr text)]
      ++ (if truthy thread_ts then [(lit "thread_ts", thread_ts)] else []) in
    resp <- call (HttpPost SLACK_POST_MESSAGE
                    [(lit "Authorization", lit "Bearer " ++ slack_bot_token self)]
                    (JDict payload)) ;;
    data <- resp_json resp ;;
    _ <- lift (py_get data (lit "ok") JNull) ;;
    Ret tt
  else Ret tt.

Definition _dispatch_to_daemon (self : JobHandler) (text : str)
  (user_id channel_id response_url thread_ts : json) : prog unit :=
  uuid <- call Uuid4 ;;
  let task_id := firstn 8 uuid in
  created_at <- call UtcNowIso ;;
  let task :=
    JDict [(lit "task_id", JStr task_id);
           (lit "prompt", JStr text);
           (lit "requested_by", user_id);
           (lit "channel_id", channel_id);
           (lit "thread_ts", thread_ts);
           (lit "response_url", response_url);
           (lit "created_at", JStr created_at)] in
  let task_path := lit "tasks/" ++ task_id ++ lit ".json" in
  let task_json := json_dumps task in
  let commit_msg := lit "Task " ++ task_id ++ lit ": " ++ firstn 50 text in
  success <- write_file (github self) task_path task_json commit_msg ;;
  if success then Ret tt
  else _respond self channel_id
         (lit "Failed to dispatch task. Check GitHub token permissions.")
         response_url thread_ts.

Definition one_of (t : str) (l : list str) : bool := existsb (str_eqb t) l.


Definition dispatch (self : JobHandler) (text : str)
  (user_id channel_id response_url thread_ts : json) : prog unit :=
  let text_lower := strip (str_lower text) in
  if one_of text_lower [lit "help"; []] then
    _respond self channel_id _handle_help response_url thread_ts
  else if one_of text_lower [lit "status"; lit "ping"] then
    _respond self channel_id
      (lit "Bot is running. Daemon connectivity: checking via GitHub...")
      response_url thread_ts
  else _dispatch_to_daemon self text user_id channel_id response_url thread_ts.

(** *** main.py *)

(** [(d.get("text", "") or "").strip()] *)
Definition text_of (d : dict) : result str :=
  let v := get_or d (lit "text") (JStr []) in
  if truthy v then
    match v with
    | JStr s => Ok (strip s)
    | _ => Err (error AttributeError)
    end
  else Ok [].

Definition handle_slash_command (payload : dict) : prog reply :=
  text <- lift (text_of payload) ;;
  let user_id := get_or payload (lit "user_id") (JStr (lit "unknown")) in
  let channel_id := get_or payload (lit "channel_id") (JStr []) in
  let response_url := get_or payload (lit "response_url") (JStr []) in
  call (CreateTask (DispatchJob text user_id channel_id response_url (JStr []))) ;;
  Ret (JsonReply
         (JDict [(lit "response_type", JStr (lit "ephemeral"));
                 (lit "text",
                  JStr (lit "Got it: `"
                        ++ (if nonempty text then text else lit "help")
                        ++ lit "`" ++ nl ++ lit "Working on it..."))])).

Definition handle_event (self : JobHandler) (event : json) : prog unit :=
  match event with
  | JDict d =>
      text <- lift (text_of d) ;;
      let user_id := get_or d (lit "user") (JStr (lit "unknown")) in
      let channel_id := get_or d (lit "channel") (JStr []) in
      let thread_ts :=
        if truthy (get_or d (lit "thread_ts") JNull)
        then get_or d (lit "thread_ts") JNull
        else get_or d (lit "ts") (JStr []) in
      let text := strip_mentions text in
      dispatch self text user_id channel_id (JStr []) thread_ts
  | _ => Raise (error AttributeError)
  end.

(** [{k: v[0] if len(v) == 1 else v for k, v in form.items()}] *)
Definition form_payload (form : list (str * list str)) : dict :=
  map (fun kv => (fst kv, match snd kv with
                          | [x] => JStr x
                          | v => JList (map JStr v)
                          end)) form.

(** [slack_events]; [now] is the value [time.time()] has when the
    signature is verified. *)
Definition slack_events (now : pyfloat) (req : request) : prog reply :=
  let timestamp := header (x_slack_request_timestamp req) in
  let signature := header (x_slack_signature req) in
  ok <- lift (verify_slack_signature now (req_body req) timestamp signature) ;;
  if negb ok then Ret (TextReply 401 (lit "Invalid signature"))
  else if contains FORM_ENCODED (header (content_type req)) then
    match decode_utf8 (req_body req) with
    | None => Raise (error UnicodeDecodeError)
    | Some text => handle_slash_command (form_payload (parse_qs text))
    end
  else
    match json_loads (req_body req) with
    | None => Raise (error JSONDecodeError)
    | Some payload =>
        type <- lift (py_get payload (lit "type") JNull) ;;
        if is_str type (lit "url_verification") then
          challenge <- lift (subscript payload (lit "challenge")) ;;
          Ret (JsonReply (JDict [(lit "challenge", challenge)]))
        else if is_str type (lit "event_callback") then
          event <- lift (py_get payload (lit "event") (JDict [])) ;;
          bot_id <- lift (py_get event (lit "bot_id") JNull) ;;
          subtype <- lift (py_get event (lit "subtype") JNull) ;;
          if (truthy bot_id || is_str subtype (lit "bot_message"))%bool
          then Ret OK_REPLY
          else call (CreateTask (EventJob event)) ;; Ret OK_REPLY
        else Ret OK_REPLY
    end.

(** An event-callback payload whose event comes from a bot. *)
Definition bot_originated (payload : json) : Prop :=
  exists d event,
    payload = JDict d
    /\ get_or d (lit "type") JNull = JStr (lit "event_callback")
    /\ get_or d (lit "event") (JDict []) = JDict event
    /\ (truthy (get_or event (lit "bot_id") JNull) = true
        \/ get_or event (lit "subtype") JNull = JStr (lit "bot_message")).

(** What a task created by [asyncio.create_task] runs. *)
Definition background (self : JobHandler) (j : job) : prog unit :=
  match j with
  | DispatchJob text user_id channel_id response_url thread_ts =>
      dispatch self text user_id channel_id response_url thread_ts
  | EventJob event => handle_event self event
  end.

End WithLibrary.

End Worker.

(* ================================================================= *)
(** ** Environments

    [quiet] answers every call with success.  [with_store] puts the tasks
    directory of the GitHub repository in front of another environment: it
    answers the contents API from a store, following the contract of the
    remote file store (listing a directory gives its entries, or 404 when
    there is none; reading a file gives its content and revision, or 404;
    deleting needs the current revision), and hands every other call on.
    The store changes through the contents API only: what a git push of
    the workspace does to the repository is not part of it. *)

Module Env.

Import Daemon.

Definition ok_response : response :=
  {| status_code := 200; body := Some (JDict [(lit "ok", JBool true)]) |}.

Definition quiet : handler unit :=
  fun X ev s =>
    match ev in event X return result X * unit with
    | HttpGet _ _ _ => (Ok ok_response, s)
    | HttpPost _ _ _ => (Ok ok_response, s)
    | HttpPut _ _ _ => (Ok ok_response, s)
    | HttpDelete _ _ _ => (Ok ok_response, s)
    | SubprocessRun _ _ _ =>
        (Ok {| returncode := 0; stdout := lit "done"; stderr := [] |}, s)
    | Uuid4 => (Ok (lit "3f2b8c1e-5a7d-4e21-9c3b-7d1f0a2b4c6d"), s)
    | UtcNowIso => (Ok (lit "2024-05-01T12:00:00+00:00"), s)
    | Sleep _ => (Ok tt, s)
    | CreateTask _ => (Ok tt, s)
    end.

(** A file of the tasks directory: its revision and its content as the
    contents API returns it (base64 text). *)
Record file : Type := { file_sha : str; file_content : str }.

(** The tasks directory: file name to file, in listing order. *)
Definition store := list (str * file).

Fixpoint find_file (name : str) (st : store) : option file :=
  match st with
  | [] => None
  | (n, f) :: st' => if str_eqb n name then Some f else find_file name st'
  end.

Fixpoint remove_file (name : str) (st : store) : store :=
  match st with
  | [] => []
  | (n, f) :: st' =>
      if str_eqb n name then remove_file name st'
      else (n, f) :: remove_file name st'
  end.

Fixpoint strip_prefix (p s : str) : option str :=
  match p, s with
  | [], _ => Some s
  | a :: p', b :: s' => if N.eqb a b then strip_prefix p' s' else None
  | _ :: _, [] => None
  end.

Definition task_path (name : str) : str := TASKS_PATH ++ lit "/" ++ name.

Definition listing_entry (nf : str * file) : json :=
  JDict [(lit "name", JStr (fst nf));
         (lit "path", JStr (task_path (fst nf)));
         (lit "sha", JStr (file_sha (snd nf)));
         (lit "type", JStr (lit "file"))].

Definition file_entry (name : str) (f : file) : json :=
  JDict [(lit "name", JStr name);
         (lit "path", JStr (task_path name));
         (lit "sha", JStr (file_sha f));
         (lit "content", JStr (file_content f));
         (lit "encoding", JStr (lit "base64"))].

Definition not_found : response :=
  {| status_code := 404;
     body := Some (JDict [(lit "message", JStr (lit "Not Found"))]) |}.

Definition conflict : response :=
  {| status_code := 409;
     body := Some (JDict [(lit "message", JStr (lit "does not match"))]) |}.

(** GET on a path below the repository root. *)
Definition answer_get (path : str) (st : store) : response :=
  if str_eqb path TASKS_PATH then
    match st with
    | [] => not_found
    | _ => {| status_code := 200; body := Some (JList (map listing_entry st)) |}
    end
  else
    match strip_prefix (task_path []) path with
    | Some name =>
        match find_file name st with
        | Some f => {| status_code := 200; body := Some (file_entry name f) |}
        | None => not_found
        end
    | None => not_found
    end.

(** DELETE: the file goes when the revision sent is the current one. *)
Definition answer_delete (path : str) (payload : json) (st : store)
  : response * store :=
  match strip_prefix (task_path []) path with
  | Some name =>
      match find_file name st with
      | Some f =>
          match payload with
          | JDict d =>
              match dict_get d (lit "sha") with
              | Some (JStr sha) =>
                  if str_eqb sha (file_sha f)
                  then (ok_response, remove_file name st)
                  else (conflict, st)
              | _ => (conflict, st)
              end
          | _ => (conflict, st)
          end
      | None => (not_found, st)
      end
  | None => (not_found, st)
  end.

Section WithStore.

Variable cfg : config.
Variable S : Type.
Variable rest : handler S.

Definition with_store : handler (store * S) :=
  fun X ev ss =>
    let pass := let (r, s') := rest X ev (snd ss) in (r, (fst ss, s')) in
    match ev in event X return (result X * (store * S)) -> result X * (store * S) with
    | HttpGet url _ _ =>
        fun pass =>
          match strip_prefix (contents_url cfg []) url with
          | Some path => (Ok (answer_get path (fst ss)), ss)
          | None => pass
          end
    | HttpDelete url _ payload =>
        fun pass =>
          match strip_prefix (contents_url cfg []) url with
          | Some path =>
              let (resp, st') := answer_delete path payload (fst ss) in
              (Ok resp, (st', snd ss))
          | None => pass
          end
    | _ => fun pass => pass
    end pass.

(** [keeps name f m]: run against the store, [m] leaves the file [name]
    in place and sends no DELETE for it. *)
Definition keeps (name : str) (f : file) {A} (m : prog A) : Prop :=
  forall st s,
    find_file name st = Some f ->
    find_file name (fst (final (run with_store m (st, s)))) = Some f
    /\ count (is_delete_of (contents_url cfg (task_path name)))
         (trace (run with_store m (st, s))) = 0.

End WithStore.

(** *** Sample library functions

    The theorems below hold for every behaviour of the library functions
    they are stated over.  The examples need particular ones.  The
    decoders are the library functions restricted to the inputs the
    examples use, and reject every other input; the encoders and the
    digest, on whose value no example depends, are constants. *)

Definition ascii_bytes (s : str) : bytes :=
  map (fun c => match Byte.of_N (c mod 256) with Some b => b | None => Byte.x00 end) s.

(** UTF-8 decoding of ASCII bytes. *)
Definition sample_decode_utf8 (b : bytes) : option str :=
  if forallb (fun x => N.ltb (Byte.to_N x) 128) b
  then Some (map Byte.to_N b) else None.

(** base64 of the two file contents used below: an opening brace alone,
    and the empty object. *)
Definition sample_b64decode (s : str) : option bytes :=
  if str_eqb s (lit "ew==") then Some (ascii_bytes (lit "{"))
  else if str_eqb s (lit "e30=") then Some (ascii_bytes (lit "{}"))
  else None.

Definition sample_json_loads (s : str) : option json :=
  if str_eqb s (lit "{}") then Some (JDict []) else None.

(** [str] of the values that print without quotes; the examples format
    no other. *)
Definition sample_str (v : json) : str :=
  match v with
  | JNull => lit "None"
  | JBool true => lit "True"
  | JBool false => lit "False"
  | JInt z => str_of_Z z
  | JStr s => s
  | _ => []
  end.

Definition sample_config : config :=
  {| GITHUB_TOKEN := lit "ghp_token";
     GITHUB_REPO := lit "octo/tasks";
     GITHUB_BRANCH := lit "main";
     WORKSPACE_DIR := lit "/srv/workspace";
     CLAUDE_BIN := lit "claude";
     CLAUDE_TIMEOUT := 300;
     SLACK_BOT_TOKEN := lit "xoxb-token";
     POLL_INTERVAL := 5 |}.

Definition sample_url : str := lit "https://hooks.slack.com/commands/T1/2/abc".

(** A task as the worker writes it for a slash command, after [read_task]
    has added the revision and the path. *)
Definition sample_task : dict :=
  [(lit "task_id", JStr (lit "3f2b8c1e"));
   (lit "prompt", JStr (lit "Summarize the README"));
   (lit "requested_by", JStr (lit "U123"));
   (lit "channel_id", JStr (lit "C456"));
   (lit "thread_ts", JStr []);
   (lit "response_url", JStr sample_url);
   (lit "created_at", JStr (lit "2024-05-01T12:00:00+00:00"));
   (lit "_sha", JStr (lit "9b2d"));
   (lit "_path", JStr (lit "tasks/3f2b8c1e.json"))].

(** A tasks directory with one file whose content is an opening brace. *)
Definition broken_file : file :=
  {| file_sha := lit "77aa"; file_content := lit "ew==" |}.
Definition sample_store : store := [(lit "bad.json", broken_file)].

(** A thread: a bot message, a human message, the current request. *)
Definition sample_thread : list json :=
  [JDict [(lit "text", JStr (lit "Build finished")); (lit "bot_id", JStr (lit "B01"))];
   JDict [(lit "text", JStr (lit "<@U999> and the tests?")); (lit "user", JStr (lit "U123"))];
   JDict [(lit "text", JStr (lit "<@U999> rerun them")); (lit "user", JStr (lit "U123"))]].

(** The worker's library: decimal digits for [float], a constant in the
    place of the HMAC-SHA256 digest, and a JSON decoder for one event. *)
Fixpoint digits_value (s : str) (acc : N) : option N :=
  match s with
  | [] => Some acc
  | c :: s' => if between 48 57 c then digits_value s' (acc * 10 + (c - 48))%N
               else None
  end.

Definition sample_float (s : str) : option Worker.pyfloat :=
  match s with
  | [] => None
  | _ => match digits_value s 0 with
         | Some n => Some (Worker.float_of_int (Z.of_N n))
         | None => None
         end
  end.



Definition sample_hmac (key msg : bytes) : str :=
  lit "5d41402abc4b2a76b9719d911017c592e3b0c44298fc1c149afbf4c8996fb924".

Definition bot_event : json :=
  JDict [(lit "type", JStr (lit "event_callback"));
         (lit "event", JDict [(lit "type", JStr (lit "message"));
                              (lit "text", JStr (lit "done"));
                              (lit "bot_id", JStr (lit "B01"))])].

Definition bot_event_body : bytes := ascii_bytes (lit "bot-event").

Definition sample_json_loads_bytes (b : bytes) : option json :=
  if list_eq_dec Byte.byte_eq_dec b bot_event_body then Some bot_event else None.

Definition sample_parse_qs (s : str) : list (str * list str) := [].
Definition sample_json_dumps (v : json) : str := lit "{}".
Definition sample_b64encode (s : str) : str := lit "e30=".

Definition sample_secret : str := lit "8f742231b10e8888abcd99yyyzzz85a5".
Definition sample_now : Worker.pyfloat := Worker.float_of_int 1531420618.
Definition sample_body : bytes :=
  ascii_bytes (lit "token=xyz&command=%2Fclaude&text=help").

Definition bot_request : Worker.request :=
  {| Worker.req_body := bot_event_body;
     Worker.x_slack_request_timestamp := Some (lit "1531420618");
     Worker.x_slack_signature := None;
     Worker.content_type := Some (lit "application/json") |}.

Definition sample_handler : Worker.JobHandler :=
  {| Worker.github := {| Worker.token := lit "ghp_token";
                         Worker.repo := lit "octo/tasks";
                         Worker.branch := lit "main" |};
     Worker.slack_bot_token := lit "xoxb-token" |}.

End Env.

(* ================================================================= *)
(** ** Observations on the calls of a computation *)

Module Calls.

Definition is_post (e : entry) : bool :=
  match projT2 e with HttpPost _ _ _ => true | _ => false end.

Definition is_delete (e : entry) : bool :=
  match projT2 e with HttpDelete _ _ _ => true | _ => false end.

Definition is_sleep (e : entry) : bool :=
  match projT2 e with Sleep _ => true | _ => false end.

Definition is_subprocess (e : entry) : bool :=
  match projT2 e with SubprocessRun _ _ _ => true | _ => false end.

(** A git command run in [cwd] with the timeout of [_run_git]. *)
Definition is_git (cwd : str) (e : entry) : bool :=
  match projT2 e with
  | SubprocessRun (prog :: _) c t =>
      (str_eqb prog (lit "git") && str_eqb c cwd && Z.eqb t 30)%bool
  | _ => false
  end.

(** The agent's command line: the binary, [-p] and the prompt. *)
Definition is_agent_run (e : entry) : bool :=
  match projT2 e with
  | SubprocessRun [_; flag; _] _ _ => str_eqb flag (lit "-p")
  | _ => false
  end.

(** [git push ...] *)
Definition is_push (e : entry) : bool :=
  match projT2 e with
  | SubprocessRun (_ :: cmd :: _) _ _ => str_eqb cmd (lit "push")
  | _ => false
  end.

(** The URL and the payload of a DELETE. *)
Definition deleted (e : entry) : option (str * json) :=
  match projT2 e with
  | HttpDelete u _ p => Some (u, p)
  | _ => None
  end.

(** The URL and the payload of a POST. *)
Definition posted (e : entry) : option (str * json) :=
  match projT2 e with
  | HttpPost u _ p => Some (u, p)
  | _ => None
  end.

(** The URL and the payload of a PUT. *)
Definition put (e : entry) : option (str * json) :=
  match projT2 e with
  | HttpPut u _ p => Some (u, p)
  | _ => None
  end.

(** A POST to another URL than [url]. *)
Definition is_post_elsewhere (url : str) (e : entry) : bool :=
  (is_post e && negb (is_post_to url e))%bool.

(** [at_most P n m]: no run of [m] makes more than [n] calls that satisfy
    [P]. *)
Fixpoint at_most {A} (P : entry -> bool) (n : nat) (m : prog A) : Prop :=
  match m with
  | Ret _ | Raise _ => True
  | Vis ev k =>
      if P (log ev)
      then match n with
           | S n' => forall r, at_most P n' (k r)
           | O => False
           end
      else forall r, at_most P n (k r)
  end.

(** [after P Q m]: in every run of [m], each call made after a call that
    satisfies [P] satisfies [Q]. *)
Fixpoint after {A} (P Q : entry -> bool) (m : prog A) : Prop :=
  match m with
  | Ret _ | Raise _ => True
  | Vis ev k =>
      if P (log ev)
      then forall r, emits (fun e => negb (Q e)) 0 (k r)
      else forall r, after P Q (k r)
  end.

(** [every Q m]: each call of every run of [m] satisfies [Q]. *)
Fixpoint every {A} (Q : entry -> Prop) (m : prog A) : Prop :=
  match m with
  | Ret _ | Raise _ => True
  | Vis ev k => Q (log ev) /\ forall r, every Q (k r)
  end.

(** [safe m]: no run of [m] raises. *)
Fixpoint safe {A} (m : prog A) : Prop :=
  match m with
  | Ret _ => True
  | Raise _ => False
  | Vis ev k => forall r, safe (k r)
  end.

(** One call with the answer it got. *)
Definition exchange : Type := {X : Type & (event X * result X)%type}.

Definition answered {X} (ev : event X) (r : result X) : exchange :=
  existT _ X (ev, r).

(** The call of an exchange. *)
Definition asked (x : exchange) : entry := log (fst (projT2 x)).

(** The calls of a run with their answers, in order. *)
Fixpoint history {S A} (h : handler S) (m : prog A) (s : S) : list exchange :=
  match m with
  | Vis ev k => let (r, s') := h _ ev s in answered ev r :: history h (k r) s'
  | _ => []
  end.

(** The answer to a run of the agent. *)
Definition agent_answer (x : exchange) : option (result completed) :=
  match fst (projT2 x) in event X return result X -> option (result completed) with
  | SubprocessRun [_; flag; _] _ _ =>
      fun r => if str_eqb flag (lit "-p") then Some r else None
  | _ => fun _ => None
  end (snd (projT2 x)).

(** The answers of the exchanges that [f] picks. *)
Definition answers {B} (f : exchange -> option B) (H : list exchange) : list B :=
  flat_map (fun x => match f x with Some b => [b] | None => [] end) H.

(** What [run_claude] makes of the answer of the subprocess: the output
    of the agent, stripped, when it exits with status 0. *)
Definition agent_reply (cfg : Daemon.config) (r : result completed) : result str :=
  match r with
  | Ok c =>
      if Z.eqb (returncode c) 0 then Ok (strip (stdout c))
      else Ok (lit "Error: Claude Code returned exit code "
               ++ str_of_Z (returncode c) ++ nl ++ firstn 500 (stderr c))
  | Err e =>
      match exn_cls e with
      | TimeoutExpired =>
          Ok (lit "Error: Claude Code timed out ("
              ++ str_of_Z (Daemon.CLAUDE_TIMEOUT cfg) ++ lit "s limit)")
      | FileNotFoundError =>
          Ok (lit "Error: Claude Code CLI not found. Is it installed and in PATH?")
      | _ => Err e
      end
  end.

End Calls.

(* ================================================================= *)
(** ** More sample data *)

Module Samples.

Import Daemon Env.

(** The daemon configured without a Slack bot token. *)
Definition tokenless_config : config :=
  {| GITHUB_TOKEN := lit "ghp_token";
     GITHUB_REPO := lit "octo/tasks";
     GITHUB_BRANCH := lit "main";
     WORKSPACE_DIR := lit "/srv/workspace";
     CLAUDE_BIN := lit "claude";
     CLAUDE_TIMEOUT := 300;
     SLACK_BOT_TOKEN := [];
     POLL_INTERVAL := 5 |}.

(** A task as the worker writes it for a mention in a channel: it has a
    thread but no callback URL. *)
Definition event_task : dict :=
  [(lit "task_id", JStr (lit "7c1d9e02"));
   (lit "prompt", JStr (lit "Run the tests"));
   (lit "requested_by", JStr (lit "U123"));
   (lit "channel_id", JStr (lit "C456"));
   (lit "thread_ts", JStr (lit "1714564800.000100"));
   (lit "response_url", JStr []);
   (lit "created_at", JStr (lit "2024-05-01T12:00:00+00:00"));
   (lit "_sha", JStr (lit "41c0"));
   (lit "_path", JStr (lit "tasks/7c1d9e02.json"))].

(** A task with a channel and neither a thread nor a callback URL. *)
Definition channel_task : dict :=
  [(lit "task_id", JStr (lit "b8e44a10"));
   (lit "prompt", JStr (lit "List the open branches"));
   (lit "requested_by", JStr (lit "U123"));
   (lit "channel_id", JStr (lit "C456"));
   (lit "thread_ts", JStr []);
   (lit "response_url", JStr []);
   (lit "created_at", JStr (lit "2024-05-01T12:00:00+00:00"));
   (lit "_sha", JStr (lit "0d3f"));
   (lit "_path", JStr (lit "tasks/b8e44a10.json"))].

(** An answer of the agent that is longer than the budget and becomes
    shorter than it when translated: 3897 letters in bold. *)
Definition long_output : str := lit "**" ++ repeat 97%N 3897 ++ lit "**".

(** An environment in which the agent gives that answer. *)
Definition long_answer : handler unit :=
  fun X ev s =>
    match ev in event X return result X * unit with
    | SubprocessRun _ _ _ =>
        (Ok {| returncode := 0; stdout := long_output; stderr := [] |}, s)
    | ev' => quiet _ ev' s
    end.

(** An environment in which every subprocess runs into its timeout. *)
Definition timing_out : handler unit :=
  fun X ev s =>
    match ev in event X return result X * unit with
    | SubprocessRun _ _ _ => (Err (Exn TimeoutExpired (lit "timed out")), s)
    | ev' => quiet _ ev' s
    end.

(** A tasks directory in which a file that is not JSON is listed before
    a well-formed task. *)
Definition blocked_store : store :=
  [(lit "bad.json", broken_file);
   (lit "ok.json", {| file_sha := lit "52e1"; file_content := lit "e30=" |})].

(** [float] that also knows the spelling of not-a-number. *)
Definition sample_float_nan (s : str) : option Worker.pyfloat :=
  if str_eqb s (lit "nan") then Some S754_nan else sample_float s.

(** The handshake request of the Events API and a JSON decoder for it. *)
Definition challenge_body : bytes := ascii_bytes (lit "challenge").

Definition challenge_payload : json :=
  JDict [(lit "token", JStr (lit "Jhj5dZrVaK7ZwHHjRyZWjbDl"));
         (lit "challenge", JStr (lit "3eZbrw1aBm2rZgRNFdxV2595E9CY3gmdALWMmHkvFXO7tYXAYM8P"));
         (lit "type", JStr (lit "url_verification"))].

Definition sample_json_loads_challenge (b : bytes) : option json :=
  if list_eq_dec Byte.byte_eq_dec b challenge_body then Some challenge_payload else None.

Definition challenge_request : Worker.request :=
  {| Worker.req_body := challenge_body;
     Worker.x_slack_request_timestamp := Some (lit "1531420618");
     Worker.x_slack_signature := None;
     Worker.content_type := Some (lit "application/json") |}.

End Samples.

(* ================================================================= *)
(** ** Characters the patterns look for *)

Module Plain.

(** The characters one of which every pattern of the translator has to
    find: the number sign, the asterisk, the hyphen, the opening square
    bracket, the tilde and the backtick. *)
Definition markup_char (c : char) : bool :=
  existsb (N.eqb c) (lit "#*-[~`").

(** Text in which no such character occurs. *)
Definition plain (text : str) : bool :=
  forallb (fun c => negb (markup_char c)) text.

(** [needs cls it]: the item cannot match without consuming a character
    of the class [cls]. *)
Definition needs (cls : char -> bool) (it : item) : Prop :=
  match it with
  | Chr c => cls c = true
  | Rep _ lo _ k => lo <> 0 /\ forall x, k x = true -> cls x = true
  | _ => False
  end.

(** One line: no newline in it. *)
Definition one_line (s : str) : bool := forallb dot s.

(** Whitespace within a line: spaces, tabs and the like, no newline. *)
Definition blank (c : char) : bool := (isspace c && dot c)%bool.

(** No backtick in it. *)
Definition no_backtick (s : str) : bool := forallb (fun c => negb (N.eqb c 96)) s.

End Plain.

(* ================================================================= *)
(** * Properties *)

Import Daemon Worker Env.

(** ** Strings *)

Lemma str_eqb_refl (a : str) : str_eqb a a = true.
Proof. unfold str_eqb. destruct (list_eq_dec N.eq_dec a a); congruence. Qed.

Lemma str_eqb_eq (a b : str) : str_eqb a b = true <-> a = b.
Proof.
  unfold str_eqb. destruct (list_eq_dec N.eq_dec a b); split; congruence.
Qed.

Lemma str_eqb_neq (a b : str) : str_eqb a b = false <-> a <> b.
Proof.
  unfold str_eqb. destruct (list_eq_dec N.eq_dec a b); split; congruence.
Qed.

Lemma nonempty_true {A} (l : list A) : nonempty l = true <-> l <> [].
Proof. destruct l; simpl; split; congruence. Qed.

(** ** The markup translator on the six examples *)

(** C5: the translator maps double-asterisk bold to single-asterisk bold,
    triple asterisks to the combined form, an inline link to the
    angle-bracket form, double tildes to single tildes, a level-two heading
    to bold text, and an asterisk bullet to the bullet glyph. *)
Theorem C5_markdown_examples :
  markdown_to_slack (lit "**bold**") = lit "*bold*"
  /\ markdown_to_slack (lit "***both***") = lit "*_both_*"
  /\ markdown_to_slack (lit "[a](http://x)") = lit "<http://x|a>"
  /\ markdown_to_slack (lit "~~s~~") = lit "~s~"
  /\ markdown_to_slack (lit "## Title") = lit "*Title*"
  /\ markdown_to_slack (lit "* item") = bullet_glyph :: lit " item".
Proof. repeat split; vm_compute; reflexivity. Qed.

(** ** The fence pattern

    The matcher, run on the fence pattern, finds what [fence_span]
    describes. *)

Lemma fence_tail (s : str) bos n n0 s0 :
  match_items (chars "```" ++ [Close 1]) s bos n [(1, (n0, s0))] []
  = if startswith FENCE s then Some (n + 3, [(1, firstn (n + 3 - n0) s0)]) else None.
Proof.
  destruct s as [|a [|b [|c s]]]; cbn -[N.eqb firstn Nat.sub];
    rewrite ?(N.eqb_sym 96%N);
    repeat match goal with
           | |- context [N.eqb ?x 96%N] => destruct (N.eqb x 96%N)
           end; cbn -[firstn Nat.sub]; try reflexivity.
  replace (S (S (S n))) with (n + 3) by lia. reflexivity.
Qed.

Lemma lazy_scan (s : str) bos n n0 s0 :
  match_items (star_lazy any :: chars "```" ++ [Close 1]) s bos n [(1, (n0, s0))] []
  = match close_at s with
    | Some j => Some (n + j + 3, [(1, firstn (n + j + 3 - n0) s0)])
    | None => None
    end.
Proof.
  revert n. induction s as [|x s IH]; intros n.
  - reflexivity.
  - change (match_items (star_lazy any :: chars "```" ++ [Close 1]) (x :: s) bos n
              [(1, (n0, s0))] [])
      with (match match_items (chars "```" ++ [Close 1]) (x :: s) bos n [(1, (n0, s0))] [] with
            | Some r => Some r
            | None => match_items (star_lazy any :: chars "```" ++ [Close 1]) s bos (S n)
                        [(1, (n0, s0))] []
            end).
    rewrite fence_tail, IH.
    cbn [close_at]. destruct (startswith FENCE (x :: s)).
    + replace (n + 0 + 3) with (n + 3) by lia. reflexivity.
    + destruct (close_at s) as [j|]; cbn [option_map]; [| reflexivity].
      replace (S n + j + 3) with (n + S j + 3) by lia. reflexivity.
Qed.


Lemma match_items_open g rest s bos n opens caps :
  match_items (Open g :: rest) s bos n opens caps
  = match_items rest s bos n ((g, (n, s)) :: opens) caps.
Proof. reflexivity. Qed.

Lemma match_items_chr c rest s bos n opens caps :
  match_items (Chr c :: rest) s bos n opens caps
  = match s with
    | x :: s' => if N.eqb x c then match_items rest s' bos (S n) opens caps else None
    | [] => None
    end.
Proof. reflexivity. Qed.

Lemma startswith_fence (s : str) :
  startswith FENCE s = true <-> exists s', s = FENCE ++ s'.
Proof.
  split.
  - destruct s as [|a [|b [|c s]]]; cbn -[N.eqb]; intros H;
      rewrite ?andb_false_r in H; try discriminate.
    rewrite andb_true_r in H. apply andb_prop in H as [Ha H].
    apply andb_prop in H as [Hb Hc].
    apply N.eqb_eq in Ha, Hb, Hc. subst. now exists s.
  - intros [s' ->]. reflexivity.
Qed.

Lemma fence_match_at (s : str) bos :
  match_at fence_re s bos
  = match fence_span s with
    | Some n => Some (n, [(1, firstn n s)])
    | None => None
    end.
Proof.
  unfold match_at, fence_span.
  change fence_re with
    (Open 1 :: Chr 96%N :: Chr 96%N :: Chr 96%N
       :: star_lazy any :: chars "```" ++ [Close 1]).
  rewrite match_items_open.
  destruct (startswith FENCE s) eqn:E.
  - apply startswith_fence in E as [s' ->].
    change (FENCE ++ s') with (96%N :: 96%N :: 96%N :: s').
    rewrite !match_items_chr. rewrite N.eqb_refl.
    rewrite lazy_scan. cbn [skipn].
    destruct (close_at s') as [j|]; cbn [option_map]; [| reflexivity].
    replace (3 + j + 3 - 0) with (j + 6) by lia.
    replace (3 + j + 3) with (j + 6) by lia. reflexivity.
  - destruct s as [|a [|b [|c s]]]; rewrite ?match_items_chr; try reflexivity.
    + destruct (N.eqb a 96); reflexivity.
    + destruct (N.eqb a 96); [| reflexivity].
      destruct (N.eqb b 96); reflexivity.
    + cbn -[N.eqb] in E. rewrite !(N.eqb_sym 96%N), andb_true_r in E.
      destruct (N.eqb a 96); [| reflexivity].
      destruct (N.eqb b 96); [| reflexivity].
      destruct (N.eqb c 96); [discriminate | reflexivity].
Qed.

Lemma startswith_fence_app (u v : str) :
  3 <= List.length u -> startswith FENCE (u ++ v) = startswith FENCE u.
Proof.
  destruct u as [|a [|b [|c u]]]; cbn [List.length]; try lia. reflexivity.
Qed.

Lemma close_at_bound (s : str) (j : nat) :
  close_at s = Some j -> j + 3 <= List.length s.
Proof.
  revert j. induction s as [|x s IH]; intros j; cbn [close_at].
  - discriminate.
  - destruct (startswith FENCE (x :: s)) eqn:E.
    + intros [= <-]. apply startswith_fence in E as [s' E]. rewrite E.
      rewrite length_app. cbn. lia.
    + destruct (close_at s) as [j'|]; [| discriminate].
      intros [= <-]. specialize (IH j' eq_refl). cbn [List.length]. lia.
Qed.

Lemma close_at_found (s : str) (j : nat) :
  close_at s = Some j -> exists rest, skipn j s = FENCE ++ rest.
Proof.
  revert j. induction s as [|x s IH]; intros j; cbn [close_at].
  - discriminate.
  - destruct (startswith FENCE (x :: s)) eqn:E.
    + intros [= <-]. apply startswith_fence in E. exact E.
    + destruct (close_at s) as [j'|]; [| discriminate].
      intros [= <-]. exact (IH j' eq_refl).
Qed.

Lemma close_at_app (u v : str) (j : nat) :
  close_at u = Some j -> close_at (u ++ v) = Some j.
Proof.
  revert j. induction u as [|x u IH]; intros j; cbn [close_at].
  - discriminate.
  - destruct (startswith FENCE (x :: u)) eqn:E.
    + intros [= <-]. apply startswith_fence in E as [s' E].
      rewrite E, <- app_assoc. reflexivity.
    + destruct (close_at u) as [j'|] eqn:Hu; [| discriminate].
      intros [= <-]. pose proof (close_at_bound _ _ Hu) as Hb.
      change ((x :: u) ++ v) with (x :: u ++ v). cbn [close_at].
      change (x :: u ++ v) with ((x :: u) ++ v).
      rewrite startswith_fence_app, E by (cbn [List.length]; lia).
      rewrite (IH j' eq_refl). reflexivity.
Qed.

Lemma close_at_firstn (s : str) (j : nat) :
  close_at s = Some j -> close_at (firstn (j + 3) s) = Some j.
Proof.
  revert j. induction s as [|x s IH]; intros j; cbn [close_at].
  - discriminate.
  - destruct (startswith FENCE (x :: s)) eqn:E.
    + intros [= <-]. apply startswith_fence in E as [s' E]. rewrite E. reflexivity.
    + destruct (close_at s) as [j'|] eqn:Hs; [| discriminate].
      intros [= <-]. pose proof (close_at_bound _ _ Hs) as Hb.
      change (S j' + 3) with (S (j' + 3)). cbn [firstn close_at].
      rewrite (IH j' eq_refl). cbn [option_map].
      assert (H : startswith FENCE ((x :: firstn (j' + 3) s) ++ skipn (j' + 3) s)
                  = startswith FENCE (x :: firstn (j' + 3) s)).
      { apply startswith_fence_app. cbn [List.length]. rewrite length_firstn. lia. }
      rewrite <- app_comm_cons, firstn_skipn in H. rewrite <- H, E. reflexivity.
Qed.

Lemma fence_span_bound (s : str) (n : nat) :
  fence_span s = Some n -> 6 <= n <= List.length s.
Proof.
  unfold fence_span. destruct (startswith FENCE s) eqn:E; [| discriminate].
  apply startswith_fence in E as [s' ->].
  change (skipn 3 (FENCE ++ s')) with s'.
  destruct (close_at s') as [j|] eqn:Hj; [| discriminate].
  intros [= <-]. apply close_at_bound in Hj. rewrite length_app. cbn. lia.
Qed.

Lemma fence_span_shape (s : str) (n : nat) :
  fence_span s = Some n -> exists body, firstn n s = FENCE ++ body ++ FENCE.
Proof.
  unfold fence_span. destruct (startswith FENCE s) eqn:E; [| discriminate].
  apply startswith_fence in E as [s' ->].
  change (skipn 3 (FENCE ++ s')) with s'.
  destruct (close_at s') as [j|] eqn:Hj; [| discriminate].
  intros [= <-]. exists (firstn j s').
  destruct (close_at_found _ _ Hj) as [rest Hrest].
  pose proof (close_at_bound _ _ Hj) as Hb.
  replace (j + 6) with (3 + (j + 3)) by lia.
  change (firstn (3 + (j + 3)) (FENCE ++ s')) with (FENCE ++ firstn (j + 3) s').
  f_equal. rewrite <- (firstn_skipn j s') at 1. rewrite Hrest.
  rewrite firstn_app, length_firstn.
  replace (Nat.min j (List.length s')) with j by lia.
  replace (j + 3 - j) with 3 by lia.
  rewrite firstn_all2 by (rewrite length_firstn; lia).
  reflexivity.
Qed.

Lemma fence_span_app (u v : str) (n : nat) :
  fence_span u = Some n -> fence_span (u ++ v) = Some n.
Proof.
  unfold fence_span. destruct (startswith FENCE u) eqn:E; [| discriminate].
  apply startswith_fence in E as [s' ->].
  rewrite <- app_assoc.
  change (skipn 3 (FENCE ++ s')) with s'.
  change (skipn 3 (FENCE ++ s' ++ v)) with (s' ++ v).
  change (startswith FENCE (FENCE ++ s' ++ v)) with true. cbv iota.
  destruct (close_at s') as [j|] eqn:Hj; [| discriminate].
  intros [= <-]. rewrite (close_at_app _ v _ Hj). reflexivity.
Qed.

Lemma fence_span_firstn (s : str) (n : nat) :
  fence_span s = Some n -> fence_span (firstn n s) = Some n.
Proof.
  unfold fence_span. destruct (startswith FENCE s) eqn:E; [| discriminate].
  apply startswith_fence in E as [s' ->].
  change (skipn 3 (FENCE ++ s')) with s'.
  destruct (close_at s') as [j|] eqn:Hj; [| discriminate].
  intros [= <-].
  replace (j + 6) with (3 + (j + 3)) by lia.
  change (firstn (3 + (j + 3)) (FENCE ++ s')) with (FENCE ++ firstn (j + 3) s').
  change (startswith FENCE (FENCE ++ firstn (j + 3) s')) with true. cbv iota.
  change (skipn 3 (FENCE ++ firstn (j + 3) s')) with (firstn (j + 3) s').
  rewrite (close_at_firstn _ _ Hj). cbn [option_map]. f_equal. lia.
Qed.

(** The split, unfolded one character. *)
Lemma split_loop_cons items x s bos :
  split_loop items (x :: s) bos 0
  = match match_at items (x :: s) bos with
    | Some (S k, caps) => [] :: group caps 1 :: split_loop items s false k
    | _ => cons_head x (split_loop items s false 0)
    end.
Proof. reflexivity. Qed.

Lemma split_loop_bos (s : str) (b b' : bool) (k : nat) :
  split_loop fence_re s b k = split_loop fence_re s b' k.
Proof.
  destruct k as [|k]; [| destruct s; reflexivity].
  destruct s as [|x s]; [reflexivity |].
  rewrite !split_loop_cons, !fence_match_at. reflexivity.
Qed.

Lemma split_loop_skip (k : nat) (s : str) (b : bool) :
  k <= List.length s ->
  split_loop fence_re s b k = split_loop fence_re (skipn k s) false 0.
Proof.
  revert s b. induction k as [|k IH]; intros s b Hk.
  - apply split_loop_bos.
  - destruct s as [|x s]; cbn [List.length] in Hk; [lia |].
    cbn [split_loop skipn]. apply IH. lia.
Qed.

Lemma pieces_nil : pieces [] = [[]].
Proof. reflexivity. Qed.

Lemma pieces_match (s : str) (n : nat) :
  fence_span s = Some n ->
  pieces s = [] :: firstn n s :: pieces (skipn n s).
Proof.
  intros H. pose proof (fence_span_bound _ _ H) as [Hlo Hhi].
  destruct s as [|x s]; cbn [List.length] in Hhi; [lia |].
  unfold pieces, re_split. rewrite split_loop_cons, fence_match_at, H.
  destruct n as [|k]; [lia |].
  cbn [group lookup Nat.eqb]. do 2 f_equal.
  rewrite split_loop_skip by lia. apply split_loop_bos.
Qed.

Lemma pieces_nomatch (x : char) (s : str) :
  fence_span (x :: s) = None ->
  pieces (x :: s) = cons_head x (pieces s).
Proof.
  intros H. unfold pieces, re_split.
  rewrite split_loop_cons, fence_match_at, H. f_equal. apply split_loop_bos.
Qed.

Lemma pieces_nonempty (s : str) : pieces s <> [].
Proof.
  destruct s as [|x s]; [discriminate |].
  destruct (fence_span (x :: s)) as [n|] eqn:E.
  - rewrite (pieces_match _ _ E). discriminate.
  - rewrite (pieces_nomatch _ _ E). destruct (pieces s); discriminate.
Qed.

Lemma fenced_pieces text before region after :
  fenced text before region after ->
  text = before ++ region ++ after
  /\ (exists body, region = FENCE ++ body ++ FENCE)
  /\ pieces text = pieces before ++ region :: pieces after
  /\ Nat.odd (List.length (pieces before)) = true.
Proof.
  induction 1 as [text n H | text n before region after H _ IH
                 | x text before region after H _ IH].
  - split; [symmetry; apply firstn_skipn |].
    split; [exact (fence_span_shape _ _ H) |].
    split; [exact (pieces_match _ _ H) | reflexivity].
  - destruct IH as (Htext & Hshape & Hp & Hodd).
    split.
    { rewrite <- app_assoc, <- Htext. symmetry. apply firstn_skipn. }
    split; [exact Hshape |].
    pose proof (fence_span_bound _ _ H) as [Hlo Hhi].
    assert (Hb : pieces (firstn n text ++ before)
                 = [] :: firstn n text :: pieces before).
    { rewrite (pieces_match _ n).
      - rewrite firstn_app, firstn_firstn, length_firstn.
        replace (Nat.min n n) with n by lia.
        replace (Nat.min n (List.length text)) with n by lia.
        replace (n - n) with 0 by lia. cbn [firstn]. rewrite app_nil_r.
        rewrite skipn_app, length_firstn.
        replace (Nat.min n (List.length text)) with n by lia.
        replace (n - n) with 0 by lia.
        rewrite skipn_all2 by (rewrite length_firstn; lia). reflexivity.
      - apply fence_span_app, fence_span_firstn. exact H. }
    split.
    + rewrite (pieces_match _ _ H), Hp, Hb. reflexivity.
    + rewrite Hb. cbn [List.length]. rewrite Nat.odd_succ, Nat.even_succ. exact Hodd.
  - destruct IH as (Htext & Hshape & Hp & Hodd).
    split; [rewrite Htext; reflexivity |].
    split; [exact Hshape |].
    assert (Hb : pieces (x :: before) = cons_head x (pieces before)).
    { apply pieces_nomatch.
      destruct (fence_span (x :: before)) as [n|] eqn:E; [| reflexivity].
      apply (fence_span_app _ (region ++ after)) in E.
      rewrite <- app_comm_cons, <- Htext in E. congruence. }
    split.
    + rewrite (pieces_nomatch _ _ H), Hp, Hb.
      pose proof (pieces_nonempty before).
      destruct (pieces before); [congruence | reflexivity].
    + rewrite Hb. pose proof (pieces_nonempty before).
      destruct (pieces before); [congruence | exact Hodd].
Qed.

(** Every odd piece of the split is a fenced region. *)
Lemma odd_piece_fenced (text : str) (k : nat) (region : str) :
  nth_error (pieces text) (2 * k + 1) = Some region ->
  exists before after, fenced text before region after.
Proof.
  remember (List.length text) as len eqn:Hlen.
  revert text Hlen k region.
  induction len as [len IH] using lt_wf_ind. intros text Hlen k region Hnth.
  destruct text as [|x text].
  - rewrite pieces_nil in Hnth. replace (2 * k + 1) with (S (2 * k)) in Hnth by lia.
    cbn [nth_error] in Hnth. rewrite nth_error_nil in Hnth. discriminate.
  - destruct (fence_span (x :: text)) as [n|] eqn:E.
    + pose proof (fence_span_bound _ _ E) as [Hlo Hhi].
      rewrite (pieces_match _ _ E) in Hnth.
      destruct k as [|k].
      * cbn in Hnth. injection Hnth as <-. eexists _, _. apply fenced_first. exact E.
      * replace (2 * S k + 1) with (S (S (2 * k + 1))) in Hnth by lia.
        cbn [nth_error] in Hnth.
        destruct (IH (List.length (skipn n (x :: text)))) with
          (text := skipn n (x :: text)) (k := k) (region := region)
          as (before & after & Hf); [rewrite length_skipn; lia | reflexivity | exact Hnth |].
        eexists _, _. eapply fenced_next; eassumption.
    + rewrite (pieces_nomatch _ _ E) in Hnth.
      assert (Hnth' : nth_error (pieces text) (2 * k + 1) = Some region).
      { pose proof (pieces_nonempty text).
        destruct (pieces text) as [|p ps]; [congruence |].
        replace (2 * k + 1) with (S (2 * k)) in * by lia. exact Hnth. }
      destruct (IH (List.length text)) with (text := text) (k := k) (region := region)
        as (before & after & Hf); [subst len; cbn; lia | reflexivity | exact Hnth' |].
      eexists _, _. eapply fenced_skip; eassumption.
Qed.

Lemma convert_parts_parity (i j : nat) (l : list str) :
  Nat.odd i = Nat.odd j -> convert_parts i l = convert_parts j l.
Proof.
  revert i j. induction l as [|p l IH]; intros i j H; [reflexivity |].
  cbn [convert_parts]. rewrite H. f_equal. apply IH.
  rewrite !Nat.odd_succ, <- !Nat.negb_odd, H. reflexivity.
Qed.

Lemma convert_parts_app (i : nat) (a b : list str) :
  convert_parts i (a ++ b) = convert_parts i a ++ convert_parts (i + List.length a) b.
Proof.
  revert i. induction a as [|p a IH]; intros i; cbn [convert_parts app List.length].
  - rewrite Nat.add_0_r. reflexivity.
  - rewrite IH. do 2 f_equal. f_equal. lia.
Qed.

(** C1: every fenced code region of the input, that is every odd part of
    the split on the fence pattern, is delimited by triple backticks and
    stands unchanged in the output, between the translation of the text
    before it and the translation of the text after it. *)
Theorem C1_fenced_code_is_preserved (text : str) (k : nat) (region : str) :
  nth_error (re_split fence_re text) (2 * k + 1) = Some region ->
  exists before body after,
    text = before ++ region ++ after
    /\ region = FENCE ++ body ++ FENCE
    /\ markdown_to_slack text
       = markdown_to_slack before ++ region ++ markdown_to_slack after.
Proof.
  intros Hnth. destruct (odd_piece_fenced _ _ _ Hnth) as (before & after & Hf).
  destruct (fenced_pieces _ _ _ _ Hf) as (Htext & [body Hbody] & Hp & Hodd).
  exists before, body, after. split; [exact Htext |]. split; [exact Hbody |].
  unfold markdown_to_slack. fold (pieces text) (pieces before) (pieces after).
  rewrite Hp, convert_parts_app, concat_app. f_equal.
  cbn [convert_parts Nat.add]. rewrite Hodd. cbn [concat]. f_equal. f_equal.
  apply convert_parts_parity.
  rewrite Nat.odd_succ, <- Nat.negb_odd, Hodd. reflexivity.
Qed.

Lemma C1_fenced_code_witness :
  exists before body after,
    lit "# Use ```**kwargs``` for **options**"
    = before ++ lit "```**kwargs```" ++ after
    /\ lit "```**kwargs```" = FENCE ++ body ++ FENCE
    /\ markdown_to_slack (lit "# Use ```**kwargs``` for **options**")
       = markdown_to_slack before ++ lit "```**kwargs```" ++ markdown_to_slack after.
Proof.
  apply (C1_fenced_code_is_preserved
           (lit "# Use ```**kwargs``` for **options**") 0 (lit "```**kwargs```")).
  vm_compute. reflexivity.
Defined.

(** ** Thread context *)






(** ** Doubles

    The difference of two doubles is rounded to the nearest double, ties
    to even.  Rounding never crosses a number of the format: a difference
    of 301 or more stays above 300, and one of at most 300 stays at most
    300.  In between the outcome depends on the rounding. *)

Section Doubles.

Local Open Scope Z_scope.

Lemma digits2_pos_bounds (p : positive) :
  2 ^ (Z.pos (digits2_pos p) - 1) <= Z.pos p < 2 ^ Z.pos (digits2_pos p).
Proof.
  induction p as [p IH | p IH |]; cbn [digits2_pos]; rewrite ?Pos2Z.inj_succ.
  - replace (Z.succ (Z.pos (digits2_pos p)) - 1) with (Z.succ (Z.pos (digits2_pos p) - 1)) by lia.
    rewrite !Z.pow_succ_r by lia. lia.
  - replace (Z.succ (Z.pos (digits2_pos p)) - 1) with (Z.succ (Z.pos (digits2_pos p) - 1)) by lia.
    rewrite !Z.pow_succ_r by lia. lia.
  - cbn. lia.
Qed.

Lemma digits2_pos_unique (p : positive) (d : Z) :
  2 ^ (d - 1) <= Z.pos p < 2 ^ d -> 0 < d -> Z.pos (digits2_pos p) = d.
Proof.
  intros [Hlo Hhi] Hd. pose proof (digits2_pos_bounds p) as [Hlo' Hhi'].
  assert (H1 : d - 1 < Z.pos (digits2_pos p)).
  { apply (Z.pow_lt_mono_r_iff 2); lia. }
  assert (H2 : Z.pos (digits2_pos p) - 1 < d).
  { apply (Z.pow_lt_mono_r_iff 2); lia. }
  lia.
Qed.

Lemma iter_xO (m p : positive) : Z.pos (Pos.iter xO m p) = Z.pos m * 2 ^ Z.pos p.
Proof.
  induction p as [|p IH] using Pos.peano_ind.
  - cbn. lia.
  - rewrite Pos.iter_succ, Pos2Z.inj_succ, Z.pow_succ_r by lia.
    rewrite Pos2Z.inj_xO, IH. lia.
Qed.

Lemma shr_1_m (r : shr_record) :
  0 <= shr_m r -> shr_m (shr_1 r) = shr_m r / 2 /\ 0 <= shr_m (shr_1 r).
Proof.
  destruct r as [m b s]. cbn [shr_m]. intros Hm.
  destruct m as [|p|p]; [cbn; split; [reflexivity | lia] | | lia].
  destruct p as [p|p|]; cbn [shr_1 shr_m].
  - split; [| lia]. rewrite Pos2Z.inj_xI.
    apply (Z.div_unique _ _ _ 1); lia.
  - split; [| lia]. rewrite Pos2Z.inj_xO.
    apply (Z.div_unique _ _ _ 0); lia.
  - split; [reflexivity | lia].
Qed.

Lemma iter_shr_m (n : positive) (r : shr_record) :
  0 <= shr_m r ->
  shr_m (iter_pos shr_1 n r) = shr_m r / 2 ^ Z.pos n /\ 0 <= shr_m (iter_pos shr_1 n r).
Proof.
  revert r. induction n as [n IH | n IH |]; intros r Hr; cbn [iter_pos].
  - destruct (shr_1_m r Hr) as [E1 P1].
    assert (Hp : 0 < 2 ^ Z.pos n) by (apply Z.pow_pos_nonneg; lia).
    destruct (IH _ P1) as [E2 P2]. destruct (IH _ P2) as [E3 P3].
    split; [| exact P3]. rewrite E3, E2, E1.
    rewrite !Z.div_div by lia. f_equal.
    replace (Z.pos n~1) with (Z.pos n + Z.pos n + 1) by lia.
    rewrite !Z.pow_add_r by lia. change (2 ^ 1) with 2. ring.
  - destruct (IH _ Hr) as [E2 P2]. destruct (IH _ P2) as [E3 P3].
    assert (Hp : 0 < 2 ^ Z.pos n) by (apply Z.pow_pos_nonneg; lia).
    split; [| exact P3]. rewrite E3, E2.
    rewrite !Z.div_div by lia. f_equal.
    replace (Z.pos n~0) with (Z.pos n + Z.pos n) by lia.
    rewrite Z.pow_add_r by lia. reflexivity.
  - destruct (shr_1_m r Hr) as [E1 P1]. split; [| exact P1]. rewrite E1. reflexivity.
Qed.

Lemma round_nearest_even_bounds (m : Z) (l : location) :
  m <= round_nearest_even m l <= m + 1.
Proof.
  destruct l as [|[| |]]; cbn [round_nearest_even]; try lia.
  destruct (Z.even m); lia.
Qed.

Lemma float_300 : float_of_int 300 = S754_finite false 5277655813324800 (-44).
Proof. reflexivity. Qed.

Lemma above_300 (m : positive) (e : Z) :
  -44 <= e -> (e = -44 -> 301 * 2 ^ 44 <= Z.pos m) ->
  float_gt_int (S754_finite false m e) 300 = true.
Proof.
  intros He Hm. unfold float_gt_int. rewrite float_300. cbn [SFcompare].
  destruct (Z.compare_spec e (-44)) as [Heq | Hlt | Hgt]; [| lia | reflexivity].
  specialize (Hm Heq).
  assert (H : (5277655813324800 < m)%positive).
  { apply Pos2Z.pos_lt_pos. change (2 ^ 44) with 17592186044416 in Hm. lia. }
  apply Pos.compare_gt_iff in H. rewrite Pos.compare_cont_spec, H. reflexivity.
Qed.

Lemma above_300_rounded (s : bool) (m : Z) (e : Z) :
  0 < m -> -44 <= e -> (e = -44 -> 301 * 2 ^ 44 <= m) ->
  float_gt_int
    (SFabs match m with
           | Z0 => S754_zero s
           | Zpos q => if e <=? EMAX - PREC then S754_finite s q e else S754_infinity s
           | Zneg _ => S754_nan
           end) 300 = true.
Proof.
  intros Hm He Hbig. destruct m as [|q|q]; try lia.
  destruct (e <=? EMAX - PREC); cbn [SFabs]; [| reflexivity].
  apply above_300; assumption.
Qed.

Lemma fexp_normal (x : Z) : -1021 <= x -> fexp PREC EMAX x = x - 53.
Proof. intros H. unfold fexp, emin, PREC, EMAX. lia. Qed.

Lemma pow_cancel (a b k : Z) : 0 <= k -> a * 2 ^ k <= b * 2 ^ k -> a <= b.
Proof.
  intros Hk H. apply (Z.mul_le_mono_pos_r _ _ (2 ^ k)); [apply Z.pow_pos_nonneg; lia | exact H].
Qed.

Lemma round_far (s : bool) (M : positive) (ez : Z) :
  -1074 <= ez ->
  301 * 2 ^ 1074 <= Z.pos M * 2 ^ (ez + 1074) ->
  float_gt_int (SFabs (binary_round PREC EMAX s M ez)) 300 = true.
Proof.
  intros Hez Hfar.
  pose proof (digits2_pos_bounds M) as [Hlo Hhi].
  set (d := Z.pos (digits2_pos M)) in *.
  assert (Hd : 9 <= d + ez).
  { assert (Hp : 0 < 2 ^ (ez + 1074)) by (apply Z.pow_pos_nonneg; lia).
    assert (H : 2 ^ (8 + 1074) < 2 ^ (d + ez + 1074)).
    { replace (d + ez + 1074) with (d + (ez + 1074)) by lia.
      rewrite !Z.pow_add_r by lia. change (2 ^ 8) with 256.
      assert (H1 : Z.pos M * 2 ^ (ez + 1074) < 2 ^ d * 2 ^ (ez + 1074)).
      { apply Z.mul_lt_mono_pos_r; assumption. }
      assert (H2 : 256 * 2 ^ 1074 < 301 * 2 ^ 1074).
      { apply Z.mul_lt_mono_pos_r; [apply Z.pow_pos_nonneg |]; lia. }
      lia. }
    apply Z.pow_lt_mono_r_iff in H; lia. }
  unfold binary_round. fold d. rewrite (fexp_normal (d + ez)) by lia.
  unfold shl_align.
  destruct (d + ez - 53 - ez) as [|p|p] eqn:Hshift.
  - (* the mantissa has 53 bits *)
    unfold binary_round_aux, shr_fexp. cbn [Zdigits2]. fold d.
    rewrite (fexp_normal (d + ez)) by lia.
    replace (d + ez - 53 - ez) with 0 by lia.
    cbn [shr shr_record_of_loc loc_of_shr_record shr_m round_nearest_even Zdigits2].
    fold d. rewrite (fexp_normal (d + ez)) by lia.
    replace (d + ez - 53 - ez) with 0 by lia.
    cbn [shr shr_record_of_loc shr_m].
    apply (above_300_rounded s (Z.pos M) ez); [lia | lia |].
    intros ->. apply (pow_cancel _ _ 1030); [lia |].
    rewrite <- Z.mul_assoc, <- Z.pow_add_r by lia. exact Hfar.
  - (* more than 53 bits: the mantissa is shifted right and rounded *)
    assert (Hp : 0 < 2 ^ Z.pos p) by (apply Z.pow_pos_nonneg; lia).
    unfold binary_round_aux, shr_fexp. cbn [Zdigits2]. fold d.
    rewrite (fexp_normal (d + ez)) by lia. rewrite Hshift.
    cbn [shr shr_record_of_loc].
    destruct (iter_shr_m p {| shr_m := Z.pos M; shr_r := false; shr_s := false |})
      as [Hm1 _]; [cbn; lia |].
    cbn [shr_m] in Hm1.
    set (r1 := iter_pos shr_1 p _) in *.
    assert (Hd53 : d = 53 + Z.pos p) by lia.
    assert (Hm1lo : 2 ^ 52 <= shr_m r1).
    { rewrite Hm1. apply Z.div_le_lower_bound; [exact Hp |].
      rewrite Z.mul_comm, <- Z.pow_add_r by lia.
      replace (52 + Z.pos p) with (d - 1) by lia. exact Hlo. }
    assert (Hm1hi : shr_m r1 < 2 ^ 53).
    { rewrite Hm1. apply Z.div_lt_upper_bound; [exact Hp |].
      rewrite Z.mul_comm, <- Z.pow_add_r by lia.
      replace (53 + Z.pos p) with d by lia. exact Hhi. }
    pose proof (round_nearest_even_bounds (shr_m r1) (loc_of_shr_record r1)) as Hm2.
    set (m2 := round_nearest_even (shr_m r1) (loc_of_shr_record r1)) in *.
    assert (Hbig : ez + Z.pos p = -44 -> 301 * 2 ^ 44 <= m2).
    { intros He. apply Z.le_trans with (shr_m r1); [| lia].
      rewrite Hm1. apply Z.div_le_lower_bound; [exact Hp |].
      apply (pow_cancel _ _ (ez + 1074)); [lia |].
      rewrite (Z.mul_comm (2 ^ Z.pos p)), <- !Z.mul_assoc, <- !Z.pow_add_r by lia.
      replace (44 + (Z.pos p + (ez + 1074))) with 1074 by lia. exact Hfar. }
    destruct m2 as [|q|q] eqn:Eq2; [change (2 ^ 52) with 4503599627370496 in Hm1lo; lia | |
                                    change (2 ^ 52) with 4503599627370496 in Hm1lo; lia].
    cbn [Zdigits2].
    destruct (Z.eq_dec (Z.pos q) (2 ^ 53)) as [Htop | Hbelow].
    + (* rounding up gave one bit more *)
      assert (Hq : q = 9007199254740992%positive).
      { apply Pos2Z.inj. rewrite Htop. reflexivity. }
      subst q. change (Z.pos (digits2_pos 9007199254740992)) with 54.
      rewrite (fexp_normal (54 + (ez + Z.pos p))) by lia.
      replace (54 + (ez + Z.pos p) - 53 - (ez + Z.pos p)) with 1 by lia.
      cbn [shr iter_pos shr_1 shr_m].
      apply (above_300_rounded s (Z.pos 4503599627370496) (ez + Z.pos p + 1)); lia.
    + assert (Hdq : Z.pos (digits2_pos q) = 53).
      { apply digits2_pos_unique; [| lia]. change (53 - 1) with 52. lia. }
      rewrite Hdq. rewrite (fexp_normal (53 + (ez + Z.pos p))) by lia.
      replace (53 + (ez + Z.pos p) - 53 - (ez + Z.pos p)) with 0 by lia.
      cbn [shr shr_m].
      apply (above_300_rounded s (Z.pos q) (ez + Z.pos p)); [lia | lia | exact Hbig].
  - (* fewer than 53 bits: the mantissa is shifted left *)
    assert (Hp : 0 < 2 ^ Z.pos p) by (apply Z.pow_pos_nonneg; lia).
    assert (Hd53 : d = 53 - Z.pos p) by lia.
    assert (Hdz : Z.pos (digits2_pos (Pos.iter xO M p)) = 53).
    { apply digits2_pos_unique; [| lia]. rewrite iter_xO. split.
      - replace (53 - 1) with (d - 1 + Z.pos p) by lia.
        rewrite Z.pow_add_r by lia. apply Z.mul_le_mono_nonneg_r; lia.
      - replace 53 with (d + Z.pos p) by lia.
        rewrite Z.pow_add_r by lia. apply Z.mul_lt_mono_pos_r; lia. }
    unfold binary_round_aux, shr_fexp. cbn [Zdigits2]. rewrite Hdz.
    rewrite (fexp_normal (53 + (d + ez - 53))) by lia.
    replace (53 + (d + ez - 53) - 53 - (d + ez - 53)) with 0 by lia.
    cbn [shr shr_record_of_loc loc_of_shr_record shr_m round_nearest_even Zdigits2].
    rewrite Hdz. rewrite (fexp_normal (53 + (d + ez - 53))) by lia.
    replace (53 + (d + ez - 53) - 53 - (d + ez - 53)) with 0 by lia.
    cbn [shr shr_record_of_loc shr_m].
    apply (above_300_rounded s (Z.pos (Pos.iter xO M p)) (d + ez - 53)); [lia | lia |].
    intros He. rewrite iter_xO. apply (pow_cancel _ _ 1030); [lia |].
    rewrite <- !Z.mul_assoc, <- !Z.pow_add_r by lia.
    replace (Z.pos p + 1030) with (ez + 1074) by lia. exact Hfar.
Qed.

Lemma canonical_exponent (m : positive) (e : Z) :
  canonical_mantissa PREC EMAX m e = true ->
  e = Z.max (Z.pos (digits2_pos m) + e - 53) (-1074).
Proof.
  unfold canonical_mantissa, fexp, emin, PREC, EMAX. intros H.
  apply Z.eqb_eq in H. lia.
Qed.

Lemma valid_exponent (s : bool) (m : positive) (e : Z) :
  valid_binary PREC EMAX (S754_finite s m e) = true ->
  canonical_mantissa PREC EMAX m e = true /\ -1074 <= e.
Proof.
  cbn [valid_binary]. unfold bounded. intros H. apply andb_prop in H as [H _].
  split; [exact H |]. apply canonical_exponent in H. lia.
Qed.

(** A double of the format that is 301 or more is above 300. *)
Lemma canonical_far (m : positive) (e : Z) :
  canonical_mantissa PREC EMAX m e = true ->
  301 * 2 ^ 1074 <= Z.pos m * 2 ^ (e + 1074) ->
  float_gt_int (S754_finite false m e) 300 = true.
Proof.
  intros Hc Hfar. pose proof (canonical_exponent m e Hc) as He.
  pose proof (digits2_pos_bounds m) as [Hlo Hhi].
  set (d := Z.pos (digits2_pos m)) in *.
  assert (Hez : -1074 <= e) by lia.
  assert (Hd : 9 <= d + e).
  { assert (Hp : 0 < 2 ^ (e + 1074)) by (apply Z.pow_pos_nonneg; lia).
    assert (H : 2 ^ (8 + 1074) < 2 ^ (d + e + 1074)).
    { replace (d + e + 1074) with (d + (e + 1074)) by lia.
      rewrite !Z.pow_add_r by lia. change (2 ^ 8) with 256.
      assert (H1 : Z.pos m * 2 ^ (e + 1074) < 2 ^ d * 2 ^ (e + 1074)).
      { apply Z.mul_lt_mono_pos_r; assumption. }
      assert (H2 : 256 * 2 ^ 1074 < 301 * 2 ^ 1074).
      { apply Z.mul_lt_mono_pos_r; [apply Z.pow_pos_nonneg |]; lia. }
      lia. }
    apply Z.pow_lt_mono_r_iff in H; lia. }
  apply above_300; [lia |].
  intros ->. apply (pow_cancel _ _ 1030); [lia |].
  rewrite <- Z.mul_assoc, <- Z.pow_add_r by lia. exact Hfar.
Qed.

Lemma shl_align_value (m : positive) (e e' : Z) :
  e' <= e -> Z.pos (fst (shl_align m e e')) = Z.pos m * 2 ^ (e - e').
Proof.
  intros Hle. unfold shl_align.
  destruct (e' - e) as [|p|p] eqn:E; cbn [fst].
  - replace (e - e') with 0 by lia. cbn. lia.
  - lia.
  - rewrite iter_xO. replace (e - e') with (Z.pos p) by lia. reflexivity.
Qed.

Lemma units_finite (s : bool) (m : positive) (e e' : Z) :
  -1074 <= e' -> e' <= e ->
  units (S754_finite s m e)
  = cond_Zopp s (Z.pos (fst (shl_align m e e'))) * 2 ^ (e' + 1074).
Proof.
  intros H1 H2. cbn [units]. rewrite shl_align_value by exact H2.
  replace (e + 1074) with (e - e' + (e' + 1074)) by lia.
  rewrite Z.pow_add_r by lia. destruct s; cbn [cond_Zopp]; lia.
Qed.

Lemma apart_units (a b : pyfloat) :
  (301 <= seconds_apart a b)%Q -> 301 * 2 ^ 1074 <= Z.abs (units a - units b).
Proof.
  unfold seconds_apart, Qle. cbn [Qnum Qden inject_Z]. intros H.
  rewrite Pos2Z.inj_pow in H. lia.
Qed.

(** Two doubles of the format that are 301 seconds or more apart are
    stale: rounding the difference cannot bring it down to 300. *)
Lemma stale_far_apart (now t : pyfloat) :
  is_double now = true -> is_double t = true ->
  (301 <= seconds_apart now t)%Q ->
  stale now t = true.
Proof.
  intros Hnow Ht Hfar. apply apart_units in Hfar.
  assert (Hpos : 0 < 301 * 2 ^ 1074).
  { apply Z.mul_pos_pos; [lia | apply Z.pow_pos_nonneg; lia]. }
  destruct now as [sa | sa | | sa ma ea]; try discriminate;
    destruct t as [sb | sb | | sb mb eb]; try discriminate;
    cbn [is_double] in Hnow, Ht.
  - cbn [units] in Hfar. cbn in Hfar. lia.
  - apply valid_exponent in Ht as [Hc He].
    unfold stale, float_sub. cbn [SFsub SFabs].
    apply canonical_far; [exact Hc |].
    cbn [units] in Hfar.
    assert (Hp : 0 < 2 ^ (eb + 1074)) by (apply Z.pow_pos_nonneg; lia).
    destruct sb; lia.
  - apply valid_exponent in Hnow as [Hc He].
    unfold stale, float_sub. cbn [SFsub SFabs].
    apply canonical_far; [exact Hc |].
    cbn [units] in Hfar.
    assert (Hp : 0 < 2 ^ (ea + 1074)) by (apply Z.pow_pos_nonneg; lia).
    destruct sa; lia.
  - apply valid_exponent in Hnow as [_ Hea]. apply valid_exponent in Ht as [_ Heb].
    unfold stale, float_sub. cbn [SFsub].
    set (ez := Z.min ea eb) in *.
    rewrite (units_finite sa ma ea ez), (units_finite sb mb eb ez) in Hfar by lia.
    rewrite <- Z.mul_sub_distr_r in Hfar.
    set (D := cond_Zopp sa (Z.pos (fst (shl_align ma ea ez)))
              - cond_Zopp sb (Z.pos (fst (shl_align mb eb ez)))) in *.
    assert (Hp : 0 < 2 ^ (ez + 1074)) by (apply Z.pow_pos_nonneg; lia).
    rewrite Z.abs_mul, (Z.abs_eq (2 ^ (ez + 1074))) in Hfar by lia.
    destruct D as [|M|M]; cbn [binary_normalize Z.abs] in *.
    + lia.
    + apply round_far; [lia | exact Hfar].
    + apply round_far; [lia | exact Hfar].
Qed.

Lemma shr_1_sticky (r : shr_record) :
  0 <= shr_m r -> sticky (shr_1 r) = true ->
  sticky r = true \/ shr_m r mod 2 <> 0.
Proof.
  destruct r as [m b s]. unfold sticky. cbn [shr_m shr_r shr_s]. intros Hm.
  destruct m as [|p|p]; [| | lia].
  - cbn. intros H. left. exact H.
  - destruct p as [p|p|]; cbn [shr_1 shr_r shr_s].
    + intros _. right. rewrite Pos2Z.inj_xI.
      rewrite Z.add_comm, Z.mul_comm, Z.mod_add by lia. cbn. lia.
    + intros H. left. exact H.
    + intros _. right. cbn. lia.
Qed.

Lemma mod_pow_split (m a b : Z) :
  0 <= a -> 0 <= b ->
  m mod 2 ^ (a + b) = 0 -> m mod 2 ^ a = 0 /\ (m / 2 ^ a) mod 2 ^ b = 0.
Proof.
  intros Ha Hb H.
  assert (Hpa : 0 < 2 ^ a) by (apply Z.pow_pos_nonneg; lia).
  assert (Hpb : 0 < 2 ^ b) by (apply Z.pow_pos_nonneg; lia).
  rewrite Z.pow_add_r in H by lia.
  apply Z.mod_divide in H; [| lia]. destruct H as [q Hq].
  split.
  - apply Z.mod_divide; [lia |]. exists (q * 2 ^ b). lia.
  - apply Z.mod_divide; [lia |]. exists q.
    replace m with (q * 2 ^ b * 2 ^ a) by lia. rewrite Z.div_mul by lia. reflexivity.
Qed.

Lemma iter_sticky (n : positive) (r : shr_record) :
  0 <= shr_m r -> sticky (iter_pos shr_1 n r) = true ->
  sticky r = true \/ shr_m r mod 2 ^ Z.pos n <> 0.
Proof.
  revert r. induction n as [n IH | n IH |]; intros r Hr; cbn [iter_pos].
  - destruct (shr_1_m r Hr) as [E1 P1].
    destruct (iter_shr_m n _ P1) as [E2 P2].
    intros H. apply IH in H; [| exact P2].
    assert (Hsplit : shr_m r mod 2 ^ Z.pos n~1 = 0 ->
                     shr_m r mod 2 = 0 /\ (shr_m r / 2) mod 2 ^ Z.pos n = 0
                     /\ (shr_m r / 2 / 2 ^ Z.pos n) mod 2 ^ Z.pos n = 0).
    { intros H0. replace (Z.pos n~1) with (1 + (Z.pos n + Z.pos n)) in H0 by lia.
      apply mod_pow_split in H0 as [Ha Hb]; [| lia | lia].
      change (2 ^ 1) with 2 in Ha, Hb.
      apply mod_pow_split in Hb as [Hb Hc]; [| lia | lia]. auto. }
    destruct H as [H | H].
    + apply IH in H; [| exact P1]. destruct H as [H | H].
      * apply shr_1_sticky in H; [| exact Hr]. destruct H as [H | H]; [left; exact H |].
        right. intros H0. apply Hsplit in H0. tauto.
      * right. intros H0. apply Hsplit in H0. rewrite E1 in H. tauto.
    + right. intros H0. apply Hsplit in H0. rewrite E2, E1 in H. tauto.
  - destruct (iter_shr_m n _ Hr) as [E2 P2].
    intros H. apply IH in H; [| exact P2].
    assert (Hsplit : shr_m r mod 2 ^ Z.pos n~0 = 0 ->
                     shr_m r mod 2 ^ Z.pos n = 0
                     /\ (shr_m r / 2 ^ Z.pos n) mod 2 ^ Z.pos n = 0).
    { intros H0. replace (Z.pos n~0) with (Z.pos n + Z.pos n) in H0 by lia.
      apply mod_pow_split in H0; [exact H0 | lia | lia]. }
    destruct H as [H | H].
    + apply IH in H; [| exact Hr]. destruct H as [H | H]; [left; exact H |].
      right. intros H0. apply Hsplit in H0. tauto.
    + right. intros H0. apply Hsplit in H0. rewrite E2 in H. tauto.
  - intros H. apply shr_1_sticky in H; [| exact Hr]. exact H.
Qed.

Lemma round_exact (r : shr_record) :
  sticky r = false -> round_nearest_even (shr_m r) (loc_of_shr_record r) = shr_m r.
Proof.
  destruct r as [m [|] [|]]; cbn; try discriminate. reflexivity.
Qed.

Lemma within_300 (m : positive) (e : Z) :
  e <= -44 -> (e = -44 -> Z.pos m <= 300 * 2 ^ 44) ->
  float_gt_int (S754_finite false m e) 300 = false.
Proof.
  intros He Hm. unfold float_gt_int. rewrite float_300. cbn [SFcompare].
  destruct (Z.compare_spec e (-44)) as [Heq | Hlt | Hgt]; [| reflexivity | lia].
  specialize (Hm Heq). rewrite Pos.compare_cont_spec, Pos2Z.inj_compare.
  change (2 ^ 44) with 17592186044416 in Hm.
  destruct (Z.compare_spec (Z.pos m) (Z.pos 5277655813324800)); try reflexivity.
  lia.
Qed.

Lemma within_300_rounded (s : bool) (m : Z) (e : Z) :
  0 <= m -> e <= -44 -> (e = -44 -> m <= 300 * 2 ^ 44) ->
  float_gt_int
    (SFabs match m with
           | Z0 => S754_zero s
           | Zpos q => if e <=? EMAX - PREC then S754_finite s q e else S754_infinity s
           | Zneg _ => S754_nan
           end) 300 = false.
Proof.
  intros Hm He Hbig. destruct m as [|q|q]; try lia.
  - reflexivity.
  - replace (e <=? EMAX - PREC) with true
      by (symmetry; apply Z.leb_le; unfold EMAX, PREC; lia).
    cbn [SFabs]. apply within_300; assumption.
Qed.

Lemma fexp_eq (x : Z) : fexp PREC EMAX x = Z.max (x - 53) (-1074).
Proof. reflexivity. Qed.

Lemma digits_upper (M : positive) (ez : Z) :
  -1074 <= ez ->
  Z.pos M * 2 ^ (ez + 1074) <= 300 * 2 ^ 1074 ->
  Z.pos (digits2_pos M) + ez <= 9.
Proof.
  intros Hez Hnear. pose proof (digits2_pos_bounds M) as [Hlo _].
  set (d := Z.pos (digits2_pos M)) in *.
  assert (Hp : 0 < 2 ^ (ez + 1074)) by (apply Z.pow_pos_nonneg; lia).
  assert (H : 2 ^ (d - 1 + (ez + 1074)) < 2 ^ (9 + 1074)).
  { rewrite !Z.pow_add_r by lia. change (2 ^ 9) with 512.
    assert (H1 : 2 ^ (d - 1) * 2 ^ (ez + 1074) <= Z.pos M * 2 ^ (ez + 1074)).
    { apply Z.mul_le_mono_nonneg_r; lia. }
    assert (H2 : 300 * 2 ^ 1074 < 512 * 2 ^ 1074).
    { apply Z.mul_lt_mono_pos_r; [apply Z.pow_pos_nonneg |]; lia. }
    lia. }
  apply Z.pow_lt_mono_r_iff in H; lia.
Qed.

Lemma round_near (s : bool) (M : positive) (ez : Z) :
  -1074 <= ez ->
  Z.pos M * 2 ^ (ez + 1074) <= 300 * 2 ^ 1074 ->
  float_gt_int (SFabs (binary_round PREC EMAX s M ez)) 300 = false.
Proof.
  intros Hez Hnear.
  pose proof (digits_upper M ez Hez Hnear) as Hd.
  pose proof (digits2_pos_bounds M) as [Hlo Hhi].
  set (d := Z.pos (digits2_pos M)) in *.
  unfold binary_round. fold d. rewrite fexp_eq.
  set (fe := Z.max (d + ez - 53) (-1074)).
  assert (Hfe : fe <= -44 /\ -1074 <= fe) by (unfold fe; lia).
  unfold shl_align.
  destruct (fe - ez) as [|p|p] eqn:Hshift.
  - (* the mantissa is kept *)
    unfold binary_round_aux, shr_fexp. cbn [Zdigits2]. fold d.
    rewrite fexp_eq. fold fe. rewrite Hshift.
    cbn [shr shr_record_of_loc loc_of_shr_record shr_m round_nearest_even Zdigits2].
    fold d. rewrite fexp_eq. fold fe. rewrite Hshift.
    cbn [shr shr_record_of_loc shr_m].
    apply (within_300_rounded s (Z.pos M) ez); [lia | lia |].
    intros He. apply (pow_cancel _ _ 1030); [lia |].
    rewrite <- Z.mul_assoc, <- Z.pow_add_r by lia.
    replace (ez + 1074) with 1030 in Hnear by lia. exact Hnear.
  - (* the mantissa is shifted right and rounded *)
    assert (Hp : 0 < 2 ^ Z.pos p) by (apply Z.pow_pos_nonneg; lia).
    assert (Hnormal : fe = d + ez - 53) by (unfold fe in *; lia).
    assert (Hd53 : d = 53 + Z.pos p) by lia.
    unfold binary_round_aux, shr_fexp. cbn [Zdigits2]. fold d.
    rewrite fexp_eq. fold fe. rewrite Hshift.
    cbn [shr shr_record_of_loc].
    pose (r0 := {| shr_m := Z.pos M; shr_r := false; shr_s := false |}).
    fold r0.
    destruct (iter_shr_m p r0) as [Hm1 _]; [cbn; lia |].
    pose proof (iter_sticky p r0) as Hsticky.
    cbn [shr_m r0] in Hm1.
    set (r1 := iter_pos shr_1 p r0) in *.
    assert (Hm1lo : 2 ^ 52 <= shr_m r1).
    { rewrite Hm1. apply Z.div_le_lower_bound; [exact Hp |].
      rewrite Z.mul_comm, <- Z.pow_add_r by lia.
      replace (52 + Z.pos p) with (d - 1) by lia. exact Hlo. }
    assert (Hm1hi : shr_m r1 < 2 ^ 53).
    { rewrite Hm1. apply Z.div_lt_upper_bound; [exact Hp |].
      rewrite Z.mul_comm, <- Z.pow_add_r by lia.
      replace (53 + Z.pos p) with d by lia. exact Hhi. }
    pose proof (round_nearest_even_bounds (shr_m r1) (loc_of_shr_record r1)) as Hm2.
    assert (HM : Z.pos M <= 300 * 2 ^ (- fe) * 2 ^ Z.pos p).
    { apply (pow_cancel _ _ (ez + 1074)); [lia |].
      rewrite <- !Z.mul_assoc, <- !Z.pow_add_r by lia.
      replace (- fe + (Z.pos p + (ez + 1074))) with 1074 by lia. exact Hnear. }
    assert (Hbound : round_nearest_even (shr_m r1) (loc_of_shr_record r1)
                     <= 300 * 2 ^ (- fe)).
    { assert (Hdiv : shr_m r1 <= 300 * 2 ^ (- fe)).
      { rewrite Hm1. apply Z.div_le_upper_bound; [exact Hp |].
        rewrite Z.mul_comm. exact HM. }
      destruct (sticky r1) eqn:Est.
      - destruct (Hsticky ltac:(cbn; lia) eq_refl) as [Hs | Hrem]; [discriminate |].
        cbn [shr_m r0] in Hrem.
        pose proof (Z.div_mod (Z.pos M) (2 ^ Z.pos p) ltac:(lia)) as Hdm.
        pose proof (Z.mod_pos_bound (Z.pos M) (2 ^ Z.pos p) Hp) as Hmb.
        rewrite <- Hm1 in Hdm.
        assert (Hlt : shr_m r1 < 300 * 2 ^ (- fe)).
        { apply Z.nle_gt. intros Hge.
          assert (H3 : 300 * 2 ^ (- fe) * 2 ^ Z.pos p <= shr_m r1 * 2 ^ Z.pos p).
          { apply Z.mul_le_mono_nonneg_r; lia. }
          lia. }
        lia.
      - rewrite round_exact by exact Est. exact Hdiv. }
    set (m2 := round_nearest_even (shr_m r1) (loc_of_shr_record r1)) in *.
    destruct m2 as [|q|q] eqn:Eq2; [change (2 ^ 52) with 4503599627370496 in Hm1lo; lia | |
                                    change (2 ^ 52) with 4503599627370496 in Hm1lo; lia].
    cbn [Zdigits2].
    replace (ez + Z.pos p) with fe by lia.
    destruct (Z.eq_dec (Z.pos q) (2 ^ 53)) as [Htop | Hbelow].
    + (* rounding up gave one bit more *)
      assert (Hq : q = 9007199254740992%positive).
      { apply Pos2Z.inj. rewrite Htop. reflexivity. }
      assert (Hfe45 : fe <= -45).
      { destruct (Z.eq_dec fe (-44)) as [E | E]; [| lia].
        rewrite E, Htop in Hbound. exfalso. revert Hbound. clear. cbn. lia. }
      subst q. change (Z.pos (digits2_pos 9007199254740992)) with 54.
      rewrite fexp_eq.
      replace (Z.max (54 + fe - 53) (-1074) - fe) with 1 by lia.
      cbn [shr iter_pos shr_1 shr_m].
      apply (within_300_rounded s (Z.pos 4503599627370496) (fe + 1)); [lia | lia |].
      intros _. cbn. lia.
    + assert (Hdq : Z.pos (digits2_pos q) = 53).
      { apply digits2_pos_unique; [| lia]. change (53 - 1) with 52. lia. }
      rewrite Hdq, fexp_eq.
      replace (Z.max (53 + fe - 53) (-1074) - fe) with 0 by lia.
      cbn [shr shr_m].
      apply (within_300_rounded s (Z.pos q) fe); [lia | lia |].
      intros He. rewrite He in Hbound. exact Hbound.
  - (* the mantissa is shifted left *)
    assert (Hp : 0 < 2 ^ Z.pos p) by (apply Z.pow_pos_nonneg; lia).
    assert (Hdz : Z.pos (digits2_pos (Pos.iter xO M p)) = d + Z.pos p).
    { apply digits2_pos_unique; [| lia]. rewrite iter_xO. split.
      - replace (d + Z.pos p - 1) with (d - 1 + Z.pos p) by lia.
        rewrite Z.pow_add_r by lia. apply Z.mul_le_mono_nonneg_r; lia.
      - rewrite Z.pow_add_r by lia. apply Z.mul_lt_mono_pos_r; lia. }
    unfold binary_round_aux, shr_fexp. cbn [Zdigits2]. rewrite Hdz, fexp_eq.
    replace (Z.max (d + Z.pos p + fe - 53) (-1074) - fe) with 0 by (unfold fe in *; lia).
    cbn [shr shr_record_of_loc loc_of_shr_record shr_m round_nearest_even Zdigits2].
    rewrite Hdz, fexp_eq.
    replace (Z.max (d + Z.pos p + fe - 53) (-1074) - fe) with 0 by (unfold fe in *; lia).
    cbn [shr shr_record_of_loc shr_m].
    apply (within_300_rounded s (Z.pos (Pos.iter xO M p)) fe); [lia | lia |].
    intros He. rewrite iter_xO. apply (pow_cancel _ _ 1030); [lia |].
    rewrite <- !Z.mul_assoc, <- !Z.pow_add_r by lia.
    replace (Z.pos p + 1030) with (ez + 1074) by lia. exact Hnear.
Qed.

Lemma canonical_near (m : positive) (e : Z) :
  canonical_mantissa PREC EMAX m e = true ->
  Z.pos m * 2 ^ (e + 1074) <= 300 * 2 ^ 1074 ->
  float_gt_int (S754_finite false m e) 300 = false.
Proof.
  intros Hc Hnear. pose proof (canonical_exponent m e Hc) as He.
  assert (Hez : -1074 <= e) by lia.
  pose proof (digits_upper m e Hez Hnear) as Hd.
  apply within_300; [lia |].
  intros E. apply (pow_cancel _ _ 1030); [lia |].
  rewrite <- Z.mul_assoc, <- Z.pow_add_r by lia.
  replace (e + 1074) with 1030 in Hnear by lia. exact Hnear.
Qed.

Lemma near_units (a b : pyfloat) :
  (seconds_apart a b <= 300)%Q -> Z.abs (units a - units b) <= 300 * 2 ^ 1074.
Proof.
  unfold seconds_apart, Qle. cbn [Qnum Qden inject_Z]. intros H.
  rewrite Pos2Z.inj_pow in H. lia.
Qed.

(** Two doubles of the format that are at most 300 seconds apart are not
    stale: rounding the difference cannot bring it above 300. *)
Lemma stale_near_apart (now t : pyfloat) :
  is_double now = true -> is_double t = true ->
  (seconds_apart now t <= 300)%Q ->
  stale now t = false.
Proof.
  intros Hnow Ht Hnear. apply near_units in Hnear.
  destruct now as [sa | sa | | sa ma ea]; try discriminate;
    destruct t as [sb | sb | | sb mb eb]; try discriminate;
    cbn [is_double] in Hnow, Ht.
  - destruct sa, sb; reflexivity.
  - apply valid_exponent in Ht as [Hc He].
    unfold stale, float_sub. cbn [SFsub SFabs].
    apply canonical_near; [exact Hc |].
    cbn [units] in Hnear.
    assert (Hp : 0 < 2 ^ (eb + 1074)) by (apply Z.pow_pos_nonneg; lia).
    destruct sb; lia.
  - apply valid_exponent in Hnow as [Hc He].
    unfold stale, float_sub. cbn [SFsub SFabs].
    apply canonical_near; [exact Hc |].
    cbn [units] in Hnear.
    assert (Hp : 0 < 2 ^ (ea + 1074)) by (apply Z.pow_pos_nonneg; lia).
    destruct sa; lia.
  - apply valid_exponent in Hnow as [_ Hea]. apply valid_exponent in Ht as [_ Heb].
    unfold stale, float_sub. cbn [SFsub].
    set (ez := Z.min ea eb) in *.
    rewrite (units_finite sa ma ea ez), (units_finite sb mb eb ez) in Hnear by lia.
    rewrite <- Z.mul_sub_distr_r in Hnear.
    set (D := cond_Zopp sa (Z.pos (fst (shl_align ma ea ez)))
              - cond_Zopp sb (Z.pos (fst (shl_align mb eb ez)))) in *.
    assert (Hp : 0 < 2 ^ (ez + 1074)) by (apply Z.pow_pos_nonneg; lia).
    rewrite Z.abs_mul, (Z.abs_eq (2 ^ (ez + 1074))) in Hnear by lia.
    destruct D as [|M|M]; cbn [binary_normalize Z.abs] in *.
    + reflexivity.
    + apply round_near; [lia | exact Hnear].
    + apply round_near; [lia | exact Hnear].
Qed.

End Doubles.

(** The replay test is passed by every timestamp within 300 seconds and
    failed by every timestamp 301 seconds or more away. *)
Lemma stale_if_far (now t : pyfloat) :
  stale now t = true
  \/ (is_double now = true /\ is_double t = true /\ (301 <= seconds_apart now t)%Q) ->
  stale now t = true.
Proof. intros [H | (Hn & Ht & H)]; [exact H | exact (stale_far_apart now t Hn Ht H)]. Qed.

Lemma fresh_if_near (now t : pyfloat) :
  stale now t = false
  \/ (is_double now = true /\ is_double t = true /\ (seconds_apart now t <= 300)%Q) ->
  stale now t = false.
Proof. intros [H | (Hn & Ht & H)]; [exact H | exact (stale_near_apart now t Hn Ht H)]. Qed.

(** ** Signature verification *)

Section VerifySignature.

Variable float_of_str : str -> option pyfloat.
Variable encode_utf8 : str -> bytes.
Variable decode_utf8 : bytes -> option str.
Variable hmac_sha256_hexdigest : bytes -> bytes -> str.

(** C9: with no signing secret configured every request is accepted,
    whatever its body, timestamp and signature. *)
Theorem C9_unset_secret_accepts_everything
  (now : pyfloat) (body : bytes) (timestamp signature : str) :
  verify_slack_signature float_of_str encode_utf8 decode_utf8
    hmac_sha256_hexdigest [] now body timestamp signature = Ok true.
Proof. reflexivity. Qed.

Variable secret : str.
Hypothesis secret_set : secret <> [].

(** What the codec and the digest of the library guarantee. *)
Hypothesis encode_app :
  forall a b, encode_utf8 (a ++ b) = encode_utf8 a ++ encode_utf8 b.
Hypothesis encode_decode :
  forall b s, decode_utf8 b = Some s -> encode_utf8 s = b.
Hypothesis hexdigest_ascii :
  forall k m, is_ascii (hmac_sha256_hexdigest k m) = true.

Local Abbreviation verify :=
  (verify_slack_signature float_of_str encode_utf8 decode_utf8
     hmac_sha256_hexdigest secret).
Local Abbreviation signed :=
  (slack_signature encode_utf8 hmac_sha256_hexdigest secret).

Lemma is_ascii_app (a b : str) : is_ascii (a ++ b) = (is_ascii a && is_ascii b)%bool.
Proof. apply forallb_app. Qed.


End VerifySignature.

(** The sample codec and digest satisfy what [VerifySignature] assumes. *)
Lemma ascii_bytes_app (a b : str) : ascii_bytes (a ++ b) = ascii_bytes a ++ ascii_bytes b.
Proof. apply map_app. Qed.

Lemma ascii_bytes_decode (b : bytes) (s : str) :
  sample_decode_utf8 b = Some s -> ascii_bytes s = b.
Proof.
  unfold sample_decode_utf8, ascii_bytes.
  destruct (forallb _ b); [| discriminate].
  intros H. injection H as <-. rewrite map_map.
  rewrite <- (map_id b) at 2. apply map_ext. intros x.
  rewrite N.mod_small, Byte.of_to_N; [reflexivity |].
  pose proof (Byte.to_N_bounded x). lia.
Qed.

Lemma sample_hmac_ascii (k m : bytes) : is_ascii (sample_hmac k m) = true.
Proof. reflexivity. Qed.

Lemma sample_secret_set : sample_secret <> [].
Proof. discriminate. Qed.



(** ** Counting calls *)

Section Emits.

Context {A : Type} (P : entry -> bool).

Lemma emits_lift (r : result A) : emits P 0 (lift r).
Proof. destruct r; simpl; auto. Qed.

Lemma emits_call_0 (ev : event A) : P (log ev) = false -> emits P 0 (call ev).
Proof. intros H. simpl. rewrite H. intros r. apply emits_lift. Qed.

Lemma emits_call_1 (ev : event A) : P (log ev) = true -> emits P 1 (call ev).
Proof. intros H. simpl. rewrite H. intros r. apply emits_lift. Qed.

Lemma emits_bind {B} (a b : nat) (m : prog A) (f : A -> prog B) :
  emits P a m -> (forall x, emits P b (f x)) -> emits P (a + b) (bind m f).
Proof.
  revert a. induction m as [x | e | X ev k IH]; intros a Hm Hf; simpl in *.
  - subst a. apply Hf.
  - exact I.
  - destruct (P (log ev)).
    + destruct a as [|a]; [contradiction |]. intros r. apply IH; auto.
    + intros r. apply IH; auto.
Qed.

Lemma emits_bind_0 {B} (m : prog A) (f : A -> prog B) :
  emits P 0 m -> (forall x, emits P 0 (f x)) -> emits P 0 (bind m f).
Proof. apply (emits_bind 0 0). Qed.

Lemma emits_bind_returns {B} (Q : A -> Prop) (m : prog A) (f : A -> prog B) :
  emits P 0 m -> returns Q m -> (forall x, Q x -> emits P 0 (f x)) ->
  emits P 0 (bind m f).
Proof.
  induction m as [x | e | X ev k IH]; intros Hm Hq Hf; simpl in *.
  - apply Hf, Hq.
  - exact I.
  - destruct (P (log ev)); [contradiction |]. intros r. apply IH; auto.
Qed.

Lemma emits_try_0 (m : prog A) (h : exn -> prog A) :
  emits P 0 m -> (forall e, emits P 0 (h e)) -> emits P 0 (try_except m h).
Proof.
  induction m as [x | e | X ev k IH]; intros Hm Hh; simpl in *.
  - exact Hm.
  - apply Hh.
  - destruct (P (log ev)); [contradiction |]. intros r. apply IH; auto.
Qed.

Lemma count_cons (e : entry) (t : list entry) :
  count P (e :: t) = (if P e then 1 else 0) + count P t.
Proof. unfold count. simpl. destruct (P e); reflexivity. Qed.

Lemma count_app (a b : list entry) : count P (a ++ b) = count P a + count P b.
Proof. unfold count. rewrite filter_app, length_app. reflexivity. Qed.

Lemma emits_run {S} (h : handler S) (n : nat) (m : prog A) (s : S) :
  emits P n m ->
  count P (trace (run h m s)) <= n
  /\ (forall a, value (run h m s) = Ok a -> count P (trace (run h m s)) = n).
Proof.
  revert n s. induction m as [x | e | X ev k IH]; intros n s Hm; simpl in *.
  - subst n. split; [apply Nat.le_refl | reflexivity].
  - split; [apply Nat.le_0_l | discriminate].
  - destruct (h X ev s) as [r s']. simpl. rewrite count_cons.
    destruct (P (log ev)).
    + destruct n as [|n]; [contradiction |].
      destruct (IH r n s' (Hm r)) as [Hle Heq]. split; [lia |].
      intros a Ha. rewrite (Heq a Ha). reflexivity.
    + destruct (IH r n s' (Hm r)) as [Hle Heq]. split; [lia |].
      intros a Ha. rewrite (Heq a Ha). reflexivity.
Qed.

Lemma emits_never {S} (h : handler S) (m : prog A) (s : S) :
  emits P 0 m -> count P (trace (run h m s)) = 0.
Proof. intros H. destruct (emits_run h 0 m s H). lia. Qed.

End Emits.


Lemma emits_resp_json P resp : emits P 0 (resp_json resp).
Proof. unfold resp_json. destruct (body resp); simpl; auto. Qed.

Lemma emits_for_each {A} P (l : list A) (body : A -> prog unit) :
  (forall x, emits P 0 (body x)) -> emits P 0 (for_each l body).
Proof.
  intros H. induction l as [|x l IH]; simpl; [reflexivity |].
  apply emits_bind_0; auto.
Qed.

(** One step in the decomposition of a goal [emits P 0 m] along [m]. *)
Ltac emits_step :=
  first
    [ exact I
    | reflexivity
    | apply emits_lift
    | apply emits_resp_json
    | apply emits_call_0; reflexivity
    | apply emits_bind_0; [| intro]
    | apply emits_try_0; [| intro]
    | match goal with
      | |- emits _ 0 (if ?b then _ else _) => destruct b
      | |- emits _ 0 (match ?x with _ => _ end) => destruct x
      end ].

Ltac emits_zero := repeat emits_step.

(** The parts of the daemon that neither post nor delete. *)
Section DaemonEmits.

Variable cfg : config.
Variable b64decode : str -> option bytes.
Variable decode_utf8 : bytes -> option str.
Variable json_loads : str -> option json.
Variable py_str : json -> str.

Variable P : entry -> bool.
Hypothesis P_get : forall u h p, P (log (HttpGet u h p)) = false.
Hypothesis P_run : forall a c t, P (log (SubprocessRun a c t)) = false.

Lemma emits_run_git args : emits P 0 (_run_git cfg args).
Proof. unfold _run_git. repeat first [apply emits_call_0, P_run | emits_step]. Qed.

Ltac quiet_step :=
  first [ apply emits_run_git | apply emits_call_0, P_get
        | apply emits_call_0, P_run | emits_step ].

Lemma emits_sync : emits P 0 (sync_workspace_to_github cfg).
Proof. unfold sync_workspace_to_github. repeat quiet_step. Qed.

Lemma emits_git_pull : emits P 0 (git_pull cfg).
Proof. unfold git_pull. repeat quiet_step. Qed.

Lemma emits_run_claude prompt context : emits P 0 (run_claude cfg prompt context).
Proof. unfold run_claude. repeat quiet_step. Qed.

Lemma emits_fetch_thread_history channel ts :
  emits P 0 (fetch_thread_history cfg channel ts).
Proof. unfold fetch_thread_history. repeat quiet_step. Qed.

Lemma emits_thread_context messages : emits P 0 (thread_context messages).
Proof. unfold thread_context. repeat quiet_step. Qed.

Lemma emits_context thread_ts channel_id :
  emits P 0 (if (truthy thread_ts && truthy channel_id)%bool
             then bind (fetch_thread_history cfg channel_id thread_ts) thread_context
             else Ret []).
Proof.
  destruct (truthy thread_ts && truthy channel_id)%bool; [| reflexivity].
  apply emits_bind_0; [apply emits_fetch_thread_history | intro].
  apply emits_thread_context.
Qed.

Lemma emits_list_pending : emits P 0 (list_pending_tasks cfg).
Proof. unfold list_pending_tasks. repeat quiet_step. Qed.

Lemma emits_read_task path :
  emits P 0 (read_task cfg b64decode decode_utf8 json_loads py_str path).
Proof. unfold read_task. repeat quiet_step. Qed.

Hypothesis P_delete : forall u h p, P (log (HttpDelete u h p)) = false.

(** What [process_task] does once the result is delivered. *)
Lemma emits_completion (task : dict) :
  emits P 0 (path <- lift (subscript (JDict task) (lit "_path")) ;;
             sha <- lift (subscript (JDict task) (lit "_sha")) ;;
             delete_task cfg py_str path sha ;;
             sync_workspace_to_github cfg).
Proof.
  do 2 (apply emits_bind_0; [apply emits_lift | intro]).
  apply emits_bind_0; [| intro; apply emits_sync].
  unfold delete_task. apply emits_bind_0; [| intro; reflexivity].
  apply emits_call_0, P_delete.
Qed.

Hypothesis P_post : forall u h p, P (log (HttpPost u h p)) = false.

Lemma emits_deliver response_url channel_id thread_ts text :
  emits P 0 (deliver cfg response_url channel_id thread_ts text).
Proof.
  unfold deliver, respond_via_url, post_to_slack.
  repeat first [apply emits_call_0, P_post | quiet_step].
Qed.

End DaemonEmits.

(** ** Truncation *)

Lemma MARKER_length : List.length MARKER = 15.
Proof. reflexivity. Qed.

Lemma truncate_output_length (output : str) :
  List.length (truncate_output output) <= SLACK_LIMIT.
Proof.
  unfold truncate_output.
  destruct (Nat.ltb_spec BUDGET (List.length output)) as [Hlong | Hshort].
  - rewrite length_app, length_firstn, MARKER_length.
    unfold BUDGET, SLACK_LIMIT in *. lia.
  - unfold BUDGET, SLACK_LIMIT in *. lia.
Qed.

(** A text within the limit is delivered by a post within the limit. *)
Lemma deliver_within (cfg : config) (response_url channel_id thread_ts : json)
  (text : str) :
  List.length text <= SLACK_LIMIT ->
  emits (oversized SLACK_LIMIT) 0 (deliver cfg response_url channel_id thread_ts text).
Proof.
  intros Hlen. apply Nat.ltb_ge in Hlen.
  unfold deliver, respond_via_url, post_to_slack.
  destruct (truthy response_url).
  - apply emits_bind_0; [apply emits_lift | intros url].
    apply emits_bind_0; [| intro; reflexivity].
    apply emits_call_0. unfold oversized, posted_text. cbn [log projT2].
    change (dict_get _ (lit "text")) with (Some (JStr text)). exact Hlen.
  - destruct (truthy channel_id); [| reflexivity].
    destruct (negb (nonempty (SLACK_BOT_TOKEN cfg))); [reflexivity |].
    apply emits_bind_0; [| intro; emits_zero].
    apply emits_call_0. unfold oversized, posted_text. cbn [log projT2 app].
    replace (dict_get _ (lit "text")) with (Some (JStr text)); [exact Hlen |].
    cbn [dict_get]. change (str_eqb (lit "channel") (lit "text")) with false.
    cbv iota. rewrite str_eqb_refl. reflexivity.
Qed.

(** The acknowledgement quotes at most 80 characters of a prompt that is
    text, and the result has gone through the truncation step. *)
Lemma process_task_within_limit (cfg : config) (py_str : json -> str)
  (task : dict) (prompt : str) :
  get_or task (lit "prompt") (JStr []) = JStr prompt ->
  emits (oversized SLACK_LIMIT) 0 (process_task cfg py_str task).
Proof.
  intros Hprompt. unfold process_task, field. rewrite Hprompt.
  cbn [slice lift bind format_value].
  apply emits_bind_0.
  { apply deliver_within. rewrite !length_app, length_firstn.
    change (List.length (lit "Processing: `")) with 13.
    change (List.length (lit "`...")) with 4. unfold SLACK_LIMIT. lia. }
  intros _. apply emits_bind_0; [apply emits_context; reflexivity | intros context].
  apply emits_bind_0; [apply emits_run_claude; reflexivity | intros output].
  apply emits_bind_0; [apply deliver_within, truncate_output_length | intros _].
  apply emits_completion; reflexivity.
Qed.

(** ** The callback URL *)

Section Callback.

Variable cfg : config.
Variable url : str.
Hypothesis url_set : url <> [].

Variable py_str : json -> str.

Lemma deliver_posts_once channel_id thread_ts text :
  emits (is_post_to url) 1 (deliver cfg (JStr url) channel_id thread_ts text).
Proof.
  unfold deliver. apply nonempty_true in url_set. cbn [truthy]. rewrite url_set.
  unfold respond_via_url. cbn [as_str lift bind].
  apply (emits_bind _ 1 0); [| intro; reflexivity].
  apply emits_call_1. unfold is_post_to. simpl. apply str_eqb_refl.
Qed.

Lemma process_task_posts_twice (task : dict) :
  get_or task (lit "response_url") (JStr []) = JStr url ->
  emits (is_post_to url) 2 (process_task cfg py_str task).
Proof.
  intros Hurl. unfold process_task, field. rewrite Hurl.
  destruct (slice (get_or task (lit "prompt") _) 60) as [logged | e]; [| exact I].
  destruct (slice (get_or task (lit "prompt") _) 80) as [shown | e]; [| exact I].
  cbn [lift bind].
  apply (emits_bind _ 1 1); [apply deliver_posts_once | intros _].
  apply (emits_bind _ 0 1); [apply emits_context; reflexivity | intros context].
  apply (emits_bind _ 0 1); [apply emits_run_claude; reflexivity | intros output].
  apply (emits_bind _ 1 0); [apply deliver_posts_once | intros _].
  apply emits_completion; reflexivity.
Qed.

End Callback.

(** ** The dispatcher *)

Lemma respond_emits (P : entry -> bool) self channel_id text response_url thread_ts :
  (forall u h p, P (log (HttpPost u h p)) = false) ->
  emits P 0 (_respond self channel_id text response_url thread_ts).
Proof.
  intros P_post. unfold _respond.
  repeat first [apply emits_call_0, P_post | emits_step].
Qed.







(** ** Bot events *)

Section BotEvents.

Variable float_of_str : str -> option pyfloat.
Variable encode_utf8 : str -> bytes.
Variable decode_utf8 : bytes -> option str.
Variable hmac_sha256_hexdigest : bytes -> bytes -> str.
Variable json_loads : bytes -> option json.
Variable parse_qs : str -> list (str * list str).
Variable secret : str.

Local Abbreviation verify :=
  (verify_slack_signature float_of_str encode_utf8 decode_utf8
     hmac_sha256_hexdigest secret).
Local Abbreviation events :=
  (slack_events float_of_str encode_utf8 decode_utf8
     hmac_sha256_hexdigest json_loads parse_qs secret).

(** C10: a JSON event-callback payload whose event carries a truthy bot_id
    or the subtype bot_message never starts a dispatch, and once the
    signature is verified the answer is the ok response. *)
Theorem C10_bot_events_are_ignored (now : pyfloat) (req : request) (payload : json) :
  contains FORM_ENCODED (header (content_type req)) = false ->
  json_loads (req_body req) = Some payload ->
  bot_originated payload ->
  (forall (S : Type) (h : handler S) (s : S),
     count is_create_task (trace (run h (events now req) s)) = 0)
  /\ (verify now (req_body req) (header (x_slack_request_timestamp req))
        (header (x_slack_signature req)) = Ok true ->
      events now req = Ret OK_REPLY).
Proof.
  intros Hform Hjson (d & event & -> & Htype & Hevent & Hbot).
  assert (Hreply : forall ok,
             verify now (req_body req) (header (x_slack_request_timestamp req))
               (header (x_slack_signature req)) = Ok ok ->
             events now req
             = if ok then Ret OK_REPLY else Ret (TextReply 401 (lit "Invalid signature"))).
  { intros ok Hok. unfold slack_events. rewrite Hok.
    destruct ok; cbn [lift bind negb]; [| reflexivity].
    rewrite Hform, Hjson. cbn [py_get lift bind]. rewrite Htype, Hevent.
    cbn [is_str]. change (str_eqb (lit "event_callback") (lit "url_verification")) with false.
    rewrite str_eqb_refl. cbn [py_get lift bind].
    destruct Hbot as [Hbot | Hbot]; rewrite Hbot; [reflexivity |].
    cbn [is_str]. rewrite str_eqb_refl, orb_true_r. reflexivity. }
  split.
  - intros S h s.
    destruct (verify now (req_body req) (header (x_slack_request_timestamp req))
                (header (x_slack_signature req))) as [ok | e] eqn:Hv.
    + rewrite (Hreply ok eq_refl). destruct ok; reflexivity.
    + unfold slack_events. rewrite Hv. reflexivity.
  - intros Hv. exact (Hreply true Hv).
Qed.

End BotEvents.

Lemma C10_bot_events_witness :
  slack_events sample_float ascii_bytes sample_decode_utf8 sample_hmac
    sample_json_loads_bytes sample_parse_qs [] sample_now bot_request
  = Ret OK_REPLY.
Proof.
  apply (proj2 (C10_bot_events_are_ignored sample_float ascii_bytes sample_decode_utf8
                  sample_hmac sample_json_loads_bytes sample_parse_qs []
                  sample_now bot_request bot_event
                  eq_refl eq_refl
                  (ex_intro _ _ (ex_intro _ _
                     (conj eq_refl (conj eq_refl (conj eq_refl (or_introl eq_refl)))))))).
  reflexivity.
Defined.

(** ** Runs of composed computations *)

Lemma run_bind {S A B} (h : handler S) (m : prog A) (f : A -> prog B) (s : S) :
  run h (bind m f) s
  = match value (run h m s) with
    | Ok a =>
        {| value := value (run h (f a) (final (run h m s)));
           final := final (run h (f a) (final (run h m s)));
           trace := trace (run h m s) ++ trace (run h (f a) (final (run h m s))) |}
    | Err e =>
        {| value := Err e; final := final (run h m s); trace := trace (run h m s) |}
    end.
Proof.
  revert s. induction m as [x | e | X ev k IH]; intros s; cbn [bind run].
  - cbn [value final trace app]. destruct (run h (f x) s); reflexivity.
  - reflexivity.
  - destruct (h X ev s) as [r s']. rewrite IH. cbn [value final trace].
    destruct (value (run h (k r) s')); reflexivity.
Qed.

Lemma run_call {S X} (h : handler S) (ev : event X) (s : S) :
  run h (call ev) s
  = {| value := fst (h X ev s); final := snd (h X ev s); trace := [log ev] |}.
Proof.
  unfold call. cbn [run]. destruct (h X ev s) as [r s']. destruct r; reflexivity.
Qed.

(** A handler that only logs the exception hides it and changes neither
    the final state nor the trace. *)
Lemma run_try_final {S A} (h : handler S) (m : prog A) (a : A) (s : S) :
  final (run h (try_except m (fun _ => Ret a)) s) = final (run h m s)
  /\ trace (run h (try_except m (fun _ => Ret a)) s) = trace (run h m s)
  /\ exists x, value (run h (try_except m (fun _ => Ret a)) s) = Ok x.
Proof.
  revert s. induction m as [x | e | X ev k IH]; intros s; cbn [try_except run].
  - repeat split. eexists; reflexivity.
  - repeat split. eexists; reflexivity.
  - destruct (h X ev s) as [r s']. cbn [final value trace].
    destruct (IH r s') as (Hf & Ht & Hv). rewrite Ht. auto.
Qed.

Lemma returns_bind {A B} (Q : B -> Prop) (m : prog A) (f : A -> prog B) :
  (forall x, returns Q (f x)) -> returns Q (bind m f).
Proof.
  intros Hf. induction m as [x | e | X ev k IH]; simpl; auto.
Qed.

(** ** The store *)

Lemma strip_prefix_some (p s r : str) : strip_prefix p s = Some r -> s = p ++ r.
Proof.
  revert s. induction p as [|a p IH]; intros s; cbn [strip_prefix].
  - intros [= <-]. reflexivity.
  - destruct s as [|b s]; [discriminate |].
    destruct (N.eqb_spec a b) as [<- |]; [| discriminate].
    intros H. rewrite (IH _ H). reflexivity.
Qed.

Lemma strip_prefix_app (p r : str) : strip_prefix p (p ++ r) = Some r.
Proof.
  induction p as [|a p IH]; cbn [strip_prefix app]; [reflexivity |].
  rewrite N.eqb_refl. exact IH.
Qed.

Lemma find_remove_other (name name' : str) (st : store) :
  name' <> name -> find_file name (remove_file name' st) = find_file name st.
Proof.
  intros Hne. induction st as [|[n f] st IH]; cbn [remove_file find_file]; [reflexivity |].
  destruct (str_eqb n name') eqn:E1.
  - apply str_eqb_eq in E1. subst n.
    apply str_eqb_neq in Hne. rewrite Hne. exact IH.
  - cbn [find_file]. rewrite IH. reflexivity.
Qed.

Lemma find_file_In (name : str) (f : file) (st : store) :
  find_file name st = Some f -> In (name, f) st.
Proof.
  induction st as [|[n g] st IH]; cbn [find_file]; [discriminate |].
  destruct (str_eqb n name) eqn:E.
  - apply str_eqb_eq in E. intros [= ->]. left. congruence.
  - intros H. right. auto.
Qed.

Lemma dict_get_set_same (d : dict) (k : str) (v : json) :
  dict_get (dict_set d k v) k = Some v.
Proof.
  induction d as [|[k' v'] d IH]; cbn [dict_set dict_get].
  - rewrite str_eqb_refl. reflexivity.
  - destruct (str_eqb k' k) eqn:E; cbn [dict_get].
    + rewrite str_eqb_refl. reflexivity.
    + rewrite E. exact IH.
Qed.

Lemma contents_url_inj (cfg : config) (p q : str) :
  Daemon.contents_url cfg p = Daemon.contents_url cfg q -> p = q.
Proof.
  unfold Daemon.contents_url. rewrite !app_assoc. apply app_inv_head.
Qed.

Lemma strip_contents_url (cfg : config) (p : str) :
  strip_prefix (Daemon.contents_url cfg []) (Daemon.contents_url cfg p) = Some p.
Proof.
  unfold Daemon.contents_url. rewrite app_nil_r, !app_assoc. apply strip_prefix_app.
Qed.

Section Malformed.

Variable cfg : config.
Variable b64decode : str -> option bytes.
Variable decode_utf8 : bytes -> option str.
Variable json_loads : str -> option json.
Variable py_str : json -> str.
Variable S : Type.
Variable rest : handler S.

Variable name : str.
Variable f : file.

Local Abbreviation env := (with_store cfg S rest).
Local Abbreviation url := (Daemon.contents_url cfg (task_path name)).
Local Abbreviation read := (read_task cfg b64decode decode_utf8 json_loads py_str).
Local Abbreviation shown := (format_value py_str).
Local Abbreviation kept := (keeps cfg S rest name f).

(** A computation that never deletes the file leaves it in the store. *)
Lemma store_frame {A} (m : prog A) (st : store) (s : S) :
  emits (is_delete_of url) 0 m ->
  find_file name (fst (final (run env m (st, s)))) = find_file name st.
Proof.
  revert st s. induction m as [x | e | X ev k IH]; intros st s Hm; [reflexivity .. |].
  cbn [emits] in Hm. cbn [run].
  destruct (env X ev (st, s)) as [r [st' s']] eqn:Henv. cbn [final].
  assert (Hst : find_file name st' = find_file name st).
  { unfold with_store in Henv. cbn [fst snd] in Henv.
    destruct ev as [u hs ps | u hs pl | u hs pl | u hs pl | argv cwd tmo | | | secs | j];
      try (destruct (rest _ _ s); injection Henv as _ <- _; reflexivity).
    - destruct (strip_prefix (Daemon.contents_url cfg []) u);
        [| destruct (rest _ _ s)]; injection Henv as _ <- _; reflexivity.
    - destruct (strip_prefix (Daemon.contents_url cfg []) u) as [path |] eqn:Hpre;
        [| destruct (rest _ _ s); injection Henv as _ <- _; reflexivity].
      destruct (answer_delete path pl st) as [resp st''] eqn:Hdel.
      injection Henv as _ <- _.
      unfold answer_delete in Hdel.
      destruct (strip_prefix (task_path []) path) as [name' |] eqn:Hname;
        [| injection Hdel as _ <-; reflexivity].
      destruct (find_file name' st) as [g |]; [| injection Hdel as _ <-; reflexivity].
      destruct pl as [| | | | | | d]; try (injection Hdel as _ <-; reflexivity).
      destruct (dict_get d (lit "sha")) as [[| | | | sha | |] |];
        try (injection Hdel as _ <-; reflexivity).
      destruct (str_eqb sha (file_sha g)); injection Hdel as _ <-; [| reflexivity].
      apply find_remove_other. intros ->.
      apply strip_prefix_some in Hpre, Hname.
      unfold is_delete_of in Hm. cbn [projT2 log] in Hm.
      assert (Hu : u = url).
      { rewrite Hpre, Hname. unfold Daemon.contents_url, task_path.
        rewrite !app_nil_r, <- !app_assoc. reflexivity. }
      rewrite Hu, str_eqb_refl in Hm. exact Hm. }
  rewrite <- Hst. apply IH.
  destruct (is_delete_of url (log ev)); [contradiction | apply Hm].
Qed.

Lemma keeps_quiet {A} (m : prog A) : emits (is_delete_of url) 0 m -> kept m.
Proof.
  intros Hm st s Hst. split; [rewrite store_frame; assumption |].
  apply emits_never. exact Hm.
Qed.

Lemma keeps_raise {A} (e : exn) : kept (@Raise A e).
Proof. intros st s Hst. split; [exact Hst | reflexivity]. Qed.

Lemma keeps_bind {A B} (m : prog A) (k : A -> prog B) :
  kept m -> (forall x, kept (k x)) -> kept (bind m k).
Proof.
  intros Hm Hk st s Hst. rewrite run_bind.
  destruct (Hm st s Hst) as [Hfile Hcount].
  destruct (value (run env m (st, s))) as [a | e]; cbn [final trace]; [| auto].
  destruct (final (run env m (st, s))) as [st' s'].
  destruct (Hk a st' s' Hfile) as [Hfile' Hcount'].
  split; [exact Hfile' |]. rewrite count_app, Hcount, Hcount'. reflexivity.
Qed.

Lemma keeps_try {A} (m : prog A) (a : A) :
  kept m -> kept (try_except m (fun _ => Ret a)).
Proof.
  intros Hm st s Hst.
  destruct (run_try_final env m a (st, s)) as (Hf & Ht & _).
  rewrite Hf, Ht. auto.
Qed.

Lemma keeps_for_each {A} (l : list A) (body : A -> prog unit) :
  (forall x, kept (body x)) -> kept (for_each l body).
Proof.
  intros Hb. induction l as [|x l IH]; cbn [for_each].
  - intros st s Hst. split; [exact Hst | reflexivity].
  - apply keeps_bind; auto.
Qed.

(** The content of the file decodes to text that is not JSON. *)
Hypothesis malformed : exists raw content,
    b64decode (file_content f) = Some raw
    /\ decode_utf8 raw = Some content
    /\ json_loads content = None.

Lemma env_get_file (st : store) (s : S) hs ps :
  find_file name st = Some f ->
  env _ (HttpGet url hs ps) (st, s)
  = (Ok {| status_code := 200; body := Some (file_entry name f) |}, (st, s)).
Proof.
  intros Hst. unfold with_store. cbn [fst snd].
  rewrite strip_contents_url. unfold answer_get.
  replace (str_eqb (task_path name) TASKS_PATH) with false.
  2:{ symmetry. apply str_eqb_neq. unfold task_path. intros H.
      apply (f_equal (@List.length _)) in H. rewrite length_app in H.
      cbn in H. lia. }
  change (strip_prefix (task_path []) (task_path name)) with (Some name).
  cbv iota. rewrite Hst. reflexivity.
Qed.

Lemma decode_malformed (p : json) :
  decode_task b64decode decode_utf8 json_loads (file_entry name f) p
  = Err (error JSONDecodeError).
Proof.
  destruct malformed as (raw & content & Hb & Hu & Hj).
  unfold decode_task, file_entry.
  change (subscript _ (lit "content")) with (Ok (JStr (file_content f))).
  cbv iota. rewrite Hb, Hu, Hj. reflexivity.
Qed.

(** Reading the malformed file raises, and the store is as before. *)
Lemma read_malformed (p : json) (st : store) (s : S) :
  shown p = task_path name ->
  find_file name st = Some f ->
  run env (read p) (st, s)
  = {| value := Err (error JSONDecodeError);
       final := (st, s);
       trace := [log (HttpGet url (Daemon.github_headers cfg) [])] |}.
Proof.
  intros Hp Hst. unfold read_task, call. rewrite Hp. cbn [bind run].
  rewrite (env_get_file st s _ _ Hst).
  cbn [lift bind status_code Nat.eqb negb resp_json body].
  rewrite decode_malformed. reflexivity.
Qed.

Lemma decode_task_path (data : json) (p : json) (t : dict) :
  decode_task b64decode decode_utf8 json_loads data p = Ok t ->
  dict_get t (lit "_path") = Some p.
Proof.
  unfold decode_task.
  destruct (subscript data (lit "content")) as [[| | | | b64 | |] | e]; try discriminate.
  destruct (b64decode b64) as [raw |]; [| discriminate].
  destruct (decode_utf8 raw) as [content |]; [| discriminate].
  destruct (json_loads content) as [task |]; [| discriminate].
  destruct (subscript data (lit "sha")); [| discriminate].
  destruct task; try discriminate.
  intros [= <-]. apply dict_get_set_same.
Qed.

(** A task that [read_task] returns carries the path it was read from. *)
Lemma read_task_returns (p : json) :
  returns (fun o => forall t, o = Some t -> dict_get t (lit "_path") = Some p)
    (read p).
Proof.
  unfold read_task, call. cbn [bind returns]. intros [resp | e]; [| exact I].
  cbn [lift bind]. destruct (negb (Nat.eqb (status_code resp) 200)).
  - cbn [returns]. discriminate.
  - apply returns_bind. intros data.
    destruct (decode_task b64decode decode_utf8 json_loads data p) as [t | e] eqn:E;
      cbn [lift bind returns]; [| exact I].
    intros t' [= <-]. exact (decode_task_path _ _ _ E).
Qed.

(** Processing a task deletes the file of that task and no other. *)
Lemma process_task_no_delete (t : dict) (p : json) :
  dict_get t (lit "_path") = Some p ->
  shown p <> task_path name ->
  emits (is_delete_of url) 0 (process_task cfg py_str t).
Proof.
  intros Hpath Hne. unfold process_task, field.
  apply emits_bind_0; [apply emits_lift | intros logged].
  apply emits_bind_0; [apply emits_lift | intros quoted].
  apply emits_bind_0; [apply emits_deliver; reflexivity | intros _].
  apply emits_bind_0; [apply emits_context; reflexivity | intros context].
  apply emits_bind_0; [apply emits_run_claude; reflexivity | intros output].
  apply emits_bind_0; [apply emits_deliver; reflexivity | intros _].
  cbn [subscript]. rewrite Hpath. cbn [lift bind].
  apply emits_bind_0; [apply emits_lift | intros sha].
  apply emits_bind_0; [| intro; apply emits_sync; reflexivity].
  unfold delete_task. apply emits_bind_0; [| intro; reflexivity].
  apply emits_call_0. unfold is_delete_of. cbn [log projT2].
  apply str_eqb_neq. intros H. apply Hne. exact (contents_url_inj _ _ _ H).
Qed.

Lemma keeps_poll_item (item : json) :
  kept (poll_item cfg b64decode decode_utf8 json_loads py_str item).
Proof.
  unfold poll_item.
  destruct (subscript item (lit "path")) as [p | e]; cbn [lift bind];
    [| apply keeps_raise].
  destruct (list_eq_dec N.eq_dec (shown p) (task_path name)) as [Heq | Hne].
  - intros st s Hst. rewrite run_bind, (read_malformed p st s Heq Hst).
    cbn [value final trace fst]. split; [exact Hst | reflexivity].
  - apply keeps_quiet.
    apply (emits_bind_returns _ _ _ _
             (emits_read_task cfg b64decode decode_utf8 json_loads py_str _
                (fun _ _ _ => eq_refl) p)
             (read_task_returns p)).
    intros [t |] Ht; [| reflexivity].
    destruct (nonempty t); [| reflexivity].
    exact (process_task_no_delete t p (Ht t eq_refl) Hne).
Qed.

Lemma keeps_poll_iteration :
  kept (poll_iteration cfg b64decode decode_utf8 json_loads py_str).
Proof.
  unfold poll_iteration. apply keeps_bind.
  - apply keeps_try. apply keeps_bind.
    + apply keeps_quiet, emits_list_pending. reflexivity.
    + intros pending. apply keeps_bind.
      * apply keeps_quiet. destruct (nonempty pending); [| reflexivity].
        apply emits_git_pull. reflexivity.
      * intros _. apply keeps_for_each, keeps_poll_item.
  - intros _. apply keeps_quiet, emits_call_0. reflexivity.
Qed.

Lemma keeps_poll_loop (n : nat) :
  kept (poll_loop cfg b64decode decode_utf8 json_loads py_str n).
Proof.
  induction n as [|n IH]; cbn [poll_loop].
  - intros st s Hst. split; [exact Hst | reflexivity].
  - apply keeps_bind; [apply keeps_poll_iteration | intros _; exact IH].
Qed.

End Malformed.

Section Listing.

Variable cfg : config.
Variable S : Type.
Variable rest : handler S.

Lemma json_files_listing (st : store) :
  json_files (map listing_entry st)
  = Ok (map listing_entry (filter (fun nf => endswith (fst nf) (lit ".json")) st)).
Proof.
  induction st as [|[n g] st IH]; [reflexivity |].
  cbn [map json_files filter fst]. rewrite IH.
  change (is_json_file (listing_entry (n, g))) with (Ok (endswith n (lit ".json"))).
  cbv iota. destruct (endswith n (lit ".json")); reflexivity.
Qed.

(** A task file of the store is among the pending tasks. *)
Lemma listed (name : str) (f : file) (st : store) (s : S) :
  find_file name st = Some f ->
  endswith name (lit ".json") = true ->
  exists items,
    value (run (with_store cfg S rest) (list_pending_tasks cfg) (st, s)) = Ok items
    /\ In (listing_entry (name, f)) items.
Proof.
  intros Hst Hjson. apply find_file_In in Hst.
  exists (map listing_entry (filter (fun nf => endswith (fst nf) (lit ".json")) st)).
  split.
  - unfold list_pending_tasks. rewrite run_bind, run_call.
    unfold with_store at 1 2 3. cbn [fst snd].
    rewrite strip_contents_url. unfold answer_get. rewrite str_eqb_refl.
    destruct st as [|nf st]; [contradiction |].
    cbn [fst snd value final status_code Nat.eqb negb].
    rewrite run_bind. cbn [resp_json body run value final].
    rewrite json_files_listing. reflexivity.
  - apply in_map, filter_In. split; [exact Hst | exact Hjson].
Qed.

End Listing.

(** A read that is answered with another status than 200 gives no task. *)
Lemma read_task_absent cfg b64decode decode_utf8 json_loads py_str
  (T : Type) (h : handler T) (t t' : T) (p : json) (resp : response) :
  h _ (HttpGet (Daemon.contents_url cfg (format_value py_str p))
         (Daemon.github_headers cfg) []) t
  = (Ok resp, t') ->
  status_code resp <> 200 ->
  value (run h (read_task cfg b64decode decode_utf8 json_loads py_str p) t) = Ok None.
Proof.
  intros Hh Hs. unfold read_task. rewrite run_bind, run_call, Hh.
  cbn [fst snd value final].
  apply Nat.eqb_neq in Hs. rewrite Hs. reflexivity.
Qed.

Section Caught.

Variable cfg : config.
Variable b64decode : str -> option bytes.
Variable decode_utf8 : bytes -> option str.
Variable json_loads : str -> option json.
Variable py_str : json -> str.
Variable S : Type.
Variable rest : handler S.

Hypothesis sleeps : forall secs s, fst (rest _ (Sleep secs) s) = Ok tt.

Lemma with_store_sleep (secs : Z) (ss : store * S) :
  fst (with_store cfg S rest _ (Sleep secs) ss) = fst (rest _ (Sleep secs) (snd ss)).
Proof. unfold with_store. destruct (rest _ _ _); reflexivity. Qed.

(** Whatever is raised in a turn of the loop is caught in that turn: the
    turn ends normally once its sleep is over. *)
Lemma poll_iteration_returns (ss : store * S) :
  value (run (with_store cfg S rest)
           (poll_iteration cfg b64decode decode_utf8 json_loads py_str) ss) = Ok tt.
Proof.
  unfold poll_iteration. rewrite run_bind.
  match goal with
  | |- context [run _ (try_except ?m _) _] =>
      destruct (run_try_final (with_store cfg S rest) m tt ss) as (_ & _ & [x Hx])
  end.
  rewrite Hx. cbn [value]. rewrite run_call. cbn [value].
  rewrite with_store_sleep. apply sleeps.
Qed.

Lemma poll_loop_returns (n : nat) (ss : store * S) :
  value (run (with_store cfg S rest)
           (poll_loop cfg b64decode decode_utf8 json_loads py_str n) ss) = Ok tt.
Proof.
  revert ss. induction n as [|n IH]; intros ss; cbn [poll_loop]; [reflexivity |].
  rewrite run_bind, poll_iteration_returns. cbn [value]. apply IH.
Qed.

End Caught.

(** C7: a task file whose content is not well-formed JSON.  Reading it
    raises the decoding error: it does not return an absent task, as a
    read answered with another status than 200 does.  The error is caught
    in the turn of the poll loop that meets it, so the loop goes on, turn
    after turn, for as long as its sleeps return; however many turns it
    takes, no DELETE is sent for the file, it stays in the store and it is
    listed again by the next poll. *)
Theorem C7_malformed_task_file
  (cfg : config) (b64decode : str -> option bytes)
  (decode_utf8 : bytes -> option str) (json_loads : str -> option json)
  (py_str : json -> str)
  (S : Type) (rest : handler S) (name : str) (f : file)
  (st : store) (s : S) (n : nat) :
  find_file name st = Some f ->
  endswith name (lit ".json") = true ->
  (exists raw content,
      b64decode (file_content f) = Some raw
      /\ decode_utf8 raw = Some content
      /\ json_loads content = None) ->
  value (run (with_store cfg S rest)
           (read_task cfg b64decode decode_utf8 json_loads py_str
              (JStr (task_path name))) (st, s))
  = Err (error JSONDecodeError)
  /\ ((forall secs s0, fst (rest _ (Sleep secs) s0) = Ok tt) ->
      value (run (with_store cfg S rest)
               (poll_loop cfg b64decode decode_utf8 json_loads py_str n) (st, s))
      = Ok tt)
  /\ count (is_delete_of (Daemon.contents_url cfg (task_path name)))
       (trace (run (with_store cfg S rest)
                 (poll_loop cfg b64decode decode_utf8 json_loads py_str n) (st, s))) = 0
  /\ find_file name
       (fst (final (run (with_store cfg S rest)
                      (poll_loop cfg b64decode decode_utf8 json_loads py_str n)
                      (st, s))))
     = Some f
  /\ (exists items,
         value (run (with_store cfg S rest) (list_pending_tasks cfg)
                  (final (run (with_store cfg S rest)
                            (poll_loop cfg b64decode decode_utf8 json_loads py_str n)
                            (st, s))))
         = Ok items
         /\ In (listing_entry (name, f)) items)
  /\ (forall (T : Type) (h : handler T) (t t' : T) (p : json) (resp : response),
         h _ (HttpGet (Daemon.contents_url cfg (format_value py_str p))
                (Daemon.github_headers cfg) []) t
         = (Ok resp, t') ->
         status_code resp <> 200 ->
         value (run h (read_task cfg b64decode decode_utf8 json_loads py_str p) t)
         = Ok None).
Proof.
  intros Hst Hjson Hbad.
  destruct (keeps_poll_loop cfg b64decode decode_utf8 json_loads py_str S rest name f
              Hbad n st s Hst) as [Hkept Hnone].
  split.
  { rewrite (read_malformed cfg b64decode decode_utf8 json_loads py_str S rest name f
               Hbad (JStr (task_path name)) st s eq_refl Hst). reflexivity. }
  split.
  { intros Hsleep. apply poll_loop_returns. exact Hsleep. }
  split; [exact Hnone |]. split; [exact Hkept |]. split.
  - destruct (final (run (with_store cfg S rest)
                       (poll_loop cfg b64decode decode_utf8 json_loads py_str n)
                       (st, s)))
      as [st' s'].
    apply listed; assumption.
  - apply read_task_absent.
Qed.

Lemma sample_file_malformed :
  exists raw content,
    sample_b64decode (file_content broken_file) = Some raw
    /\ sample_decode_utf8 raw = Some content
    /\ sample_json_loads content = None.
Proof. exists (ascii_bytes (lit "{")), (lit "{"). repeat split. Qed.

(** The file bad.json holds an opening brace, which is not JSON.  Reading
    it does not return an absent task: it raises the decoding error.
    Three turns of the loop end normally and leave the file where it
    is. *)
Lemma C7_malformed_witness :
  value (run (with_store sample_config unit quiet)
           (read_task sample_config sample_b64decode sample_decode_utf8
              sample_json_loads sample_str (JStr (task_path (lit "bad.json"))))
           (sample_store, tt))
  = Err (error JSONDecodeError)
  /\ value (run (with_store sample_config unit quiet)
              (poll_loop sample_config sample_b64decode sample_decode_utf8
                 sample_json_loads sample_str 3) (sample_store, tt))
     = Ok tt
  /\ find_file (lit "bad.json")
       (fst (final (run (with_store sample_config unit quiet)
                      (poll_loop sample_config sample_b64decode sample_decode_utf8
                         sample_json_loads sample_str 3) (sample_store, tt))))
     = Some broken_file.
Proof.
  destruct (C7_malformed_task_file sample_config sample_b64decode sample_decode_utf8
              sample_json_loads sample_str unit quiet (lit "bad.json") broken_file
              sample_store tt 3
              eq_refl eq_refl sample_file_malformed) as (Hread & Hloop & _ & Hkept & _).
  split; [exact Hread |]. split; [| exact Hkept].
  apply Hloop. reflexivity.
Defined.

Import Calls.

(* ================================================================= *)
(** * Further properties of the code *)

(** ** Bounds, order and absence of exceptions *)

Lemma at_most_of_emits {A} P (n : nat) (m : prog A) : emits P n m -> at_most P n m.
Proof.
  revert n. induction m as [x | e | X ev k IH]; intros n Hm; simpl in *; auto.
  destruct (P (log ev)).
  - destruct n as [|n]; [contradiction |]. intros r. apply IH, Hm.
  - intros r. apply IH, Hm.
Qed.

Lemma at_most_mono {A} P (n n' : nat) (m : prog A) :
  n <= n' -> at_most P n m -> at_most P n' m.
Proof.
  revert n n'. induction m as [x | e | X ev k IH]; intros n n' Hle Hm; simpl in *; auto.
  destruct (P (log ev)).
  - destruct n as [|n]; [contradiction |]. destruct n' as [|n']; [lia |].
    intros r. apply (IH r n n'); [lia | apply Hm].
  - intros r. apply (IH r n n'); [lia | apply Hm].
Qed.

Lemma at_most_bind {A B} P (a b : nat) (m : prog A) (f : A -> prog B) :
  at_most P a m -> (forall x, at_most P b (f x)) -> at_most P (a + b) (bind m f).
Proof.
  revert a. induction m as [x | e | X ev k IH]; intros a Hm Hf; simpl in *.
  - apply (at_most_mono P b); [lia | apply Hf].
  - exact I.
  - destruct (P (log ev)).
    + destruct a as [|a]; [contradiction |]. intros r. apply IH; auto.
    + intros r. apply IH; auto.
Qed.

Lemma at_most_try {A} P (a b : nat) (m : prog A) (h : exn -> prog A) :
  at_most P a m -> (forall e, at_most P b (h e)) -> at_most P (a + b) (try_except m h).
Proof.
  revert a. induction m as [x | e | X ev k IH]; intros a Hm Hh; simpl in *.
  - exact I.
  - apply (at_most_mono P b); [lia | apply Hh].
  - destruct (P (log ev)).
    + destruct a as [|a]; [contradiction |]. intros r. apply IH; auto.
    + intros r. apply IH; auto.
Qed.

Lemma at_most_run {A S} P (h : handler S) (n : nat) (m : prog A) (s : S) :
  at_most P n m -> count P (trace (run h m s)) <= n.
Proof.
  revert n s. induction m as [x | e | X ev k IH]; intros n s Hm; simpl in *.
  - apply Nat.le_0_l.
  - apply Nat.le_0_l.
  - destruct (h X ev s) as [r s']. simpl. rewrite count_cons.
    destruct (P (log ev)).
    + destruct n as [|n]; [contradiction |]. specialize (IH r n s' (Hm r)). lia.
    + specialize (IH r n s' (Hm r)). lia.
Qed.

Lemma every_of_emits {A} (P : entry -> bool) (Q : entry -> Prop) (m : prog A) :
  (forall e, P e = false -> Q e) -> emits P 0 m -> every Q m.
Proof.
  intros HQ. induction m as [x | e | X ev k IH]; intros Hm; simpl in *; auto.
  destruct (P (log ev)) eqn:E; [contradiction |]. split; [apply HQ, E |].
  intros r. apply IH, Hm.
Qed.

Lemma every_bind {A B} (Q : entry -> Prop) (m : prog A) (f : A -> prog B) :
  every Q m -> (forall x, every Q (f x)) -> every Q (bind m f).
Proof.
  induction m as [x | e | X ev k IH]; intros Hm Hf; simpl in *; auto.
  destruct Hm as [Hev Hk]. split; [exact Hev |]. intros r. apply IH; auto.
Qed.

Lemma every_run {A S} (Q : entry -> Prop) (h : handler S) (m : prog A) (s : S) :
  every Q m -> Forall Q (trace (run h m s)).
Proof.
  revert s. induction m as [x | e | X ev k IH]; intros s Hm; simpl in *.
  - constructor.
  - constructor.
  - destruct (h X ev s) as [r s']. simpl. destruct Hm as [Hev Hk].
    constructor; [exact Hev | apply IH, Hk].
Qed.

Lemma safe_bind {A B} (m : prog A) (f : A -> prog B) :
  safe m -> (forall x, safe (f x)) -> safe (bind m f).
Proof.
  induction m as [x | e | X ev k IH]; intros Hm Hf; simpl in *; auto.
Qed.

Lemma safe_run {A S} (h : handler S) (m : prog A) (s : S) :
  safe m -> exists a, value (run h m s) = Ok a.
Proof.
  revert s. induction m as [x | e | X ev k IH]; intros s Hm; simpl in *.
  - eexists; reflexivity.
  - contradiction.
  - destruct (h X ev s) as [r s']. simpl. apply IH, Hm.
Qed.

Lemma after_of_only {A} P Q (m : prog A) :
  emits (fun e => negb (Q e)) 0 m -> after P Q m.
Proof.
  induction m as [x | e | X ev k IH]; intros Hm; simpl in *; auto.
  destruct (negb (Q (log ev))); [contradiction |].
  destruct (P (log ev)); [exact Hm |]. intros r. apply IH, Hm.
Qed.

Lemma after_bind_pre {A B} P Q (m : prog A) (f : A -> prog B) :
  emits P 0 m -> (forall x, after P Q (f x)) -> after P Q (bind m f).
Proof.
  induction m as [x | e | X ev k IH]; intros Hm Hf; simpl in *; auto.
  destruct (P (log ev)); [contradiction |]. intros r. apply IH; auto.
Qed.

Lemma after_bind_post {A B} P Q (m : prog A) (f : A -> prog B) :
  after P Q m -> (forall x, emits (fun e => negb (Q e)) 0 (f x)) ->
  after P Q (bind m f).
Proof.
  induction m as [x | e | X ev k IH]; intros Hm Hf; simpl in *; auto.
  - apply after_of_only, Hf.
  - destruct (P (log ev)).
    + intros r. apply emits_bind_0; auto.
    + intros r. apply IH; auto.
Qed.

Lemma only_run {A S} Q (h : handler S) (m : prog A) (s : S) :
  emits (fun e => negb (Q e)) 0 m -> forallb Q (trace (run h m s)) = true.
Proof.
  revert s. induction m as [x | e | X ev k IH]; intros s Hm; simpl in *; auto.
  destruct (h X ev s) as [r s']. simpl.
  destruct (Q (log ev)); simpl in *; [apply IH, Hm | contradiction].
Qed.

Lemma after_run {A S} P Q (h : handler S) (m : prog A) (s : S) pre e post :
  after P Q m ->
  trace (run h m s) = pre ++ e :: post -> P e = true -> forallb Q post = true.
Proof.
  revert s pre. induction m as [x | e' | X ev k IH]; intros s pre Hm Ht HP; simpl in *.
  - destruct pre; discriminate.
  - destruct pre; discriminate.
  - destruct (h X ev s) as [r s']. simpl in Ht.
    destruct pre as [|a pre]; simpl in Ht; injection Ht as Ha Ht.
    + subst e. rewrite HP in Hm. rewrite <- Ht. apply only_run, Hm.
    + destruct (P (log ev)).
      * pose proof (only_run Q h (k r) s' (Hm r)) as Hall.
        rewrite Ht, forallb_app in Hall. apply andb_prop in Hall as [_ Hall].
        simpl in Hall. apply andb_prop in Hall as [_ Hall]. exact Hall.
      * apply (IH r s' pre (Hm r) Ht HP).
Qed.

(** ** The daemon: one task *)

Lemma returns_run {A S} (Q : A -> Prop) (h : handler S) (m : prog A) (s : S) (a : A) :
  returns Q m -> value (run h m s) = Ok a -> Q a.
Proof.
  revert s. induction m as [x | e | X ev k IH]; intros s Hm Hv; simpl in *.
  - injection Hv as <-. exact Hm.
  - discriminate.
  - destruct (h X ev s) as [r s']. simpl in Hv. exact (IH r s' (Hm r) Hv).
Qed.

Section DaemonCalls.

Variable cfg : config.
Variable py_str : json -> str.

(** A call that is neither a GET, a subprocess, a DELETE nor a POST is
    not made by [process_task]. *)
Lemma emits_process_task P (task : dict) :
  (forall u h p, P (log (HttpGet u h p)) = false) ->
  (forall a c t, P (log (SubprocessRun a c t)) = false) ->
  (forall u h p, P (log (HttpDelete u h p)) = false) ->
  (forall u h p, P (log (HttpPost u h p)) = false) ->
  emits P 0 (process_task cfg py_str task).
Proof.
  intros P_get P_run P_delete P_post. unfold process_task, field.
  apply emits_bind_0; [apply emits_lift | intros logged].
  apply emits_bind_0; [apply emits_lift | intros quoted].
  apply emits_bind_0; [apply emits_deliver, P_post | intros _].
  apply emits_bind_0; [apply emits_context, P_get | intros context].
  apply emits_bind_0; [apply emits_run_claude, P_run | intros output].
  apply emits_bind_0; [apply emits_deliver, P_post | intros _].
  apply emits_completion; assumption.
Qed.

Lemma git_call (P : entry -> bool) (args : list str) :
  P (log (SubprocessRun (lit "git" :: args) (WORKSPACE_DIR cfg) 30)) = false ->
  emits P 0 (_run_git cfg args).
Proof.
  intros HP. unfold _run_git, call. cbn [bind try_except emits]. rewrite HP.
  intros [r | e]; reflexivity.
Qed.

Lemma is_git_call (args : list str) :
  negb (is_git (WORKSPACE_DIR cfg)
          (log (SubprocessRun (lit "git" :: args) (WORKSPACE_DIR cfg) 30))) = false.
Proof.
  unfold is_git. cbn [log projT2]. rewrite !str_eqb_refl. reflexivity.
Qed.

(** Every call of the two git routines is a git command in the workspace. *)
Lemma sync_only_git :
  emits (fun e => negb (is_git (WORKSPACE_DIR cfg) e)) 0 (sync_workspace_to_github cfg).
Proof.
  unfold sync_workspace_to_github.
  repeat first [apply git_call, is_git_call | emits_step].
Qed.

Lemma sync_no_agent_run : emits is_agent_run 0 (sync_workspace_to_github cfg).
Proof.
  unfold sync_workspace_to_github.
  repeat first [apply git_call; reflexivity | emits_step].
Qed.

Lemma run_git_safe (args : list str) : safe (_run_git cfg args).
Proof. unfold _run_git, call. cbn. intros [r | e]; exact I. Qed.

Lemma run_git_once P (args : list str) :
  at_most P 1 (_run_git cfg args).
Proof.
  unfold _run_git, call. cbn [bind try_except at_most].
  destruct (P _); intros [r | e]; exact I.
Qed.

End DaemonCalls.

Import Samples.

Section OneTask.

Variable cfg : config.
Variable py_str : json -> str.

Lemma process_task_deletes_once (task : dict) :
  emits is_delete 1 (process_task cfg py_str task).
Proof.
  unfold process_task, field.
  apply (emits_bind _ 0 1); [apply emits_lift | intros logged].
  apply (emits_bind _ 0 1); [apply emits_lift | intros quoted].
  apply (emits_bind _ 0 1); [apply emits_deliver; reflexivity | intros _].
  apply (emits_bind _ 0 1); [apply emits_context; reflexivity | intros context].
  apply (emits_bind _ 0 1); [apply emits_run_claude; reflexivity | intros output].
  apply (emits_bind _ 0 1); [apply emits_deliver; reflexivity | intros _].
  apply (emits_bind _ 0 1); [apply emits_lift | intros path].
  apply (emits_bind _ 0 1); [apply emits_lift | intros sha].
  apply (emits_bind _ 1 0); [| intros _; apply emits_sync; reflexivity].
  unfold delete_task. apply (emits_bind _ 1 0); [| intros _; reflexivity].
  apply emits_call_1. reflexivity.
Qed.

Lemma process_task_runs_agent_once (task : dict) :
  emits is_agent_run 1 (process_task cfg py_str task).
Proof.
  unfold process_task, field.
  apply (emits_bind _ 0 1); [apply emits_lift | intros logged].
  apply (emits_bind _ 0 1); [apply emits_lift | intros quoted].
  apply (emits_bind _ 0 1); [apply emits_deliver; reflexivity | intros _].
  apply (emits_bind _ 0 1); [apply emits_context; reflexivity | intros context].
  apply (emits_bind _ 1 0).
  { unfold run_claude. destruct (get_or task _ _); try exact I.
    unfold call. cbn [bind try_except emits is_agent_run log projT2].
    change (str_eqb (lit "-p") (lit "-p")) with true. cbv iota.
    intros [r | e]; cbn [lift bind try_except].
    - destruct (Z.eqb (returncode r) 0); reflexivity.
    - destruct (exn_cls e); cbn; auto. }
  intros output.
  apply emits_bind_0; [apply emits_deliver; reflexivity | intros _].
  apply emits_bind_0; [apply emits_lift | intros path].
  apply emits_bind_0; [apply emits_lift | intros sha].
  apply emits_bind_0; [| intros _; apply sync_no_agent_run].
  unfold delete_task. apply emits_bind_0; [| intros _; reflexivity].
  apply emits_call_0. reflexivity.
Qed.

Lemma process_task_order (task : dict) :
  after is_delete (is_git (WORKSPACE_DIR cfg)) (process_task cfg py_str task).
Proof.
  unfold process_task, field.
  apply after_bind_pre; [apply emits_lift | intros logged].
  apply after_bind_pre; [apply emits_lift | intros quoted].
  apply after_bind_pre; [apply emits_deliver; reflexivity | intros _].
  apply after_bind_pre; [apply emits_context; reflexivity | intros context].
  apply after_bind_pre; [apply emits_run_claude; reflexivity | intros output].
  apply after_bind_pre; [apply emits_deliver; reflexivity | intros _].
  apply after_bind_pre; [apply emits_lift | intros path].
  apply after_bind_pre; [apply emits_lift | intros sha].
  apply after_bind_post; [| intros _; apply sync_only_git].
  unfold delete_task, call. cbn [bind after is_delete log projT2].
  intros [r | e]; reflexivity.
Qed.

Lemma process_task_delete_target (task : dict) (path sha : json) :
  dict_get task (lit "_path") = Some path ->
  dict_get task (lit "_sha") = Some sha ->
  every (fun e => forall u p, deleted e = Some (u, p) ->
                  u = Daemon.contents_url cfg (format_value py_str path)
                  /\ p = JDict [(lit "message",
                                 JStr (lit "Task completed: " ++ format_value py_str path));
                                (lit "sha", sha);
                                (lit "branch", JStr (GITHUB_BRANCH cfg))])
    (process_task cfg py_str task).
Proof.
  intros Hpath Hsha. unfold process_task, field.
  assert (Hq : forall A (m : prog A), emits is_delete 0 m ->
               every (fun e => forall u p, deleted e = Some (u, p) ->
                  u = Daemon.contents_url cfg (format_value py_str path)
                  /\ p = JDict [(lit "message",
                                 JStr (lit "Task completed: " ++ format_value py_str path));
                                (lit "sha", sha);
                                (lit "branch", JStr (GITHUB_BRANCH cfg))]) m).
  { intros A m. apply every_of_emits. intros [X ev] He u p.
    unfold is_delete, deleted in *. cbn [projT2] in *.
    destruct ev; discriminate. }
  apply every_bind; [apply Hq, emits_lift | intros logged].
  apply every_bind; [apply Hq, emits_lift | intros quoted].
  apply every_bind; [apply Hq, emits_deliver; reflexivity | intros _].
  apply every_bind; [apply Hq, emits_context; reflexivity | intros context].
  apply every_bind; [apply Hq, emits_run_claude; reflexivity | intros output].
  apply every_bind; [apply Hq, emits_deliver; reflexivity | intros _].
  cbn [subscript]. rewrite Hpath, Hsha. cbn [lift bind].
  apply every_bind; [| intros _; apply Hq, emits_sync; reflexivity].
  unfold delete_task, call. cbn [bind every deleted log projT2]. split.
  - intros u p [= <- <-]. split; reflexivity.
  - intros [r | e]; exact I.
Qed.

End OneTask.

(** X1: a task is deleted through one DELETE at most, sent to the path the
    task was read from and carrying the revision that was read with it;
    when the processing runs to its end the DELETE has been sent. *)
Theorem X1_task_deletes_its_own_file
  (cfg : config) (py_str : json -> str) (task : dict) (path sha : json)
  (S : Type) (h : handler S) (s : S) :
  dict_get task (lit "_path") = Some path ->
  dict_get task (lit "_sha") = Some sha ->
  count is_delete (trace (run h (process_task cfg py_str task) s)) <= 1
  /\ (value (run h (process_task cfg py_str task) s) = Ok tt ->
      count is_delete (trace (run h (process_task cfg py_str task) s)) = 1)
  /\ Forall (fun e => forall u p, deleted e = Some (u, p) ->
                u = Daemon.contents_url cfg (format_value py_str path)
                /\ p = JDict [(lit "message",
                               JStr (lit "Task completed: " ++ format_value py_str path));
                              (lit "sha", sha);
                              (lit "branch", JStr (GITHUB_BRANCH cfg))])
       (trace (run h (process_task cfg py_str task) s)).
Proof.
  intros Hpath Hsha.
  destruct (emits_run is_delete h 1 _ s (process_task_deletes_once cfg py_str task))
    as [Hle Heq].
  split; [exact Hle |]. split; [intros Hv; exact (Heq tt Hv) |].
  apply every_run, process_task_delete_target; assumption.
Qed.

Lemma X1_task_deletes_its_own_file_witness :
  count is_delete
    (trace (run quiet (process_task sample_config sample_str sample_task) tt)) = 1
  /\ Forall (fun e => forall u p, deleted e = Some (u, p) ->
                u = Daemon.contents_url sample_config (lit "tasks/3f2b8c1e.json")
                /\ p = JDict [(lit "message",
                               JStr (lit "Task completed: tasks/3f2b8c1e.json"));
                              (lit "sha", JStr (lit "9b2d"));
                              (lit "branch", JStr (lit "main"))])
       (trace (run quiet (process_task sample_config sample_str sample_task) tt)).
Proof.
  destruct (X1_task_deletes_its_own_file sample_config sample_str sample_task
              (JStr (lit "tasks/3f2b8c1e.json")) (JStr (lit "9b2d")) unit quiet tt
              eq_refl eq_refl) as (_ & Hone & Hall).
  split; [apply Hone; reflexivity | exact Hall].
Defined.

(** X2: once the DELETE of a task has been sent, [process_task] makes
    nothing but git calls in the workspace: the acknowledgement and the
    result are posted before the task file is removed. *)
Theorem X2_delivery_precedes_deletion
  (cfg : config) (py_str : json -> str) (task : dict)
  (S : Type) (h : handler S) (s : S) (pre post : list entry) (e : entry) :
  trace (run h (process_task cfg py_str task) s) = pre ++ e :: post ->
  is_delete e = true ->
  forallb (is_git (WORKSPACE_DIR cfg)) post = true
  /\ count is_post post = 0.
Proof.
  intros Ht He.
  pose proof (after_run _ _ h _ s pre e post (process_task_order cfg py_str task) Ht He)
    as Hgit.
  split; [exact Hgit |].
  clear Ht. induction post as [|x post IH]; [reflexivity |].
  cbn [forallb] in Hgit. apply andb_prop in Hgit as [Hx Hgit].
  rewrite count_cons, (IH Hgit).
  destruct x as [X ev]. destruct ev; try discriminate. reflexivity.
Qed.

Lemma X2_delivery_precedes_deletion_witness :
  forallb (is_git (lit "/srv/workspace"))
    (skipn 4 (trace (run quiet (process_task sample_config sample_str sample_task) tt)))
  = true
  /\ count is_post
       (skipn 4 (trace (run quiet (process_task sample_config sample_str sample_task) tt)))
     = 0.
Proof.
  apply (X2_delivery_precedes_deletion sample_config sample_str sample_task unit quiet tt
           (firstn 3 (trace (run quiet
                               (process_task sample_config sample_str sample_task) tt)))
           (skipn 4 (trace (run quiet
                              (process_task sample_config sample_str sample_task) tt)))
           (log (HttpDelete
                   (Daemon.contents_url sample_config (lit "tasks/3f2b8c1e.json"))
                   (Daemon.github_headers sample_config)
                   (JDict [(lit "message",
                            JStr (lit "Task completed: tasks/3f2b8c1e.json"));
                           (lit "sha", JStr (lit "9b2d"));
                           (lit "branch", JStr (lit "main"))])))).
  - reflexivity.
  - reflexivity.
Defined.


(** X4: with no bot token configured, a task without a callback URL is
    processed in silence: nothing is posted and the thread is not fetched,
    yet the agent runs and the task file is deleted. *)
Theorem X4_no_token_no_callback_is_silent
  (cfg : config) (py_str : json -> str) (task : dict)
  (S : Type) (h : handler S) (s : S) :
  SLACK_BOT_TOKEN cfg = [] ->
  truthy (get_or task (lit "response_url") (JStr [])) = false ->
  count is_post (trace (run h (process_task cfg py_str task) s)) = 0
  /\ count is_get (trace (run h (process_task cfg py_str task) s)) = 0
  /\ (value (run h (process_task cfg py_str task) s) = Ok tt ->
      count is_agent_run (trace (run h (process_task cfg py_str task) s)) = 1
      /\ count is_delete (trace (run h (process_task cfg py_str task) s)) = 1).
Proof.
  intros Htoken Hurl.
  assert (Hquiet : forall P,
             (forall a c t, P (log (SubprocessRun a c t)) = false) ->
             (forall u hd p, P (log (HttpDelete u hd p)) = false) ->
             emits P 0 (process_task cfg py_str task)).
  { intros P P_run P_delete. unfold process_task, field.
    assert (Hdeliver : forall text,
               emits P 0 (deliver cfg (get_or task (lit "response_url") (JStr []))
                            (get_or task (lit "channel_id") (JStr []))
                            (get_or task (lit "thread_ts") (JStr [])) text)).
    { intros text. unfold deliver, post_to_slack. rewrite Hurl, Htoken.
      destruct (truthy (get_or task (lit "channel_id") _)); exact eq_refl. }
    apply emits_bind_0; [apply emits_lift | intros logged].
    apply emits_bind_0; [apply emits_lift | intros quoted].
    apply emits_bind_0; [apply Hdeliver | intros _].
    apply emits_bind_0.
    { destruct (truthy (get_or task (lit "thread_ts") _) && truthy _)%bool;
        [| exact eq_refl].
      unfold fetch_thread_history. rewrite Htoken. cbn [nonempty negb bind].
      apply emits_thread_context. }
    intros context.
    apply emits_bind_0; [apply emits_run_claude, P_run | intros output].
    apply emits_bind_0; [apply Hdeliver | intros _].
    apply emits_completion; assumption. }
  split; [apply emits_never, Hquiet; reflexivity |].
  split; [apply emits_never, Hquiet; reflexivity |].
  intros Hv. split.
  - exact (proj2 (emits_run is_agent_run h 1 _ s
                    (process_task_runs_agent_once cfg py_str task)) tt Hv).
  - exact (proj2 (emits_run is_delete h 1 _ s
                    (process_task_deletes_once cfg py_str task)) tt Hv).
Qed.

Lemma X4_no_token_no_callback_is_silent_witness :
  count is_post
    (trace (run quiet (process_task tokenless_config sample_str event_task) tt)) = 0
  /\ count is_delete
       (trace (run quiet (process_task tokenless_config sample_str event_task) tt)) = 1.
Proof.
  destruct (X4_no_token_no_callback_is_silent tokenless_config sample_str event_task
              unit quiet tt eq_refl eq_refl) as (Hpost & _ & Hend).
  split; [exact Hpost | apply Hend; reflexivity].
Defined.

(** ** The acknowledgement and the result

    A run also has a history: its calls with the answers they got.  It
    tells which answer of the agent a result was made of. *)

Lemma history_trace {S A} (h : handler S) (m : prog A) (s : S) :
  map asked (history h m s) = trace (run h m s).
Proof.
  revert s. induction m as [x | e | X ev k IH]; intros s; cbn [history run]; try reflexivity.
  destruct (h X ev s) as [r s']. cbn [map trace]. rewrite IH. reflexivity.
Qed.

Lemma history_bind {S A B} (h : handler S) (m : prog A) (f : A -> prog B) (s : S) :
  history h (bind m f) s
  = history h m s
    ++ match value (run h m s) with
       | Ok a => history h (f a) (final (run h m s))
       | Err _ => []
       end.
Proof.
  revert s. induction m as [x | e | X ev k IH]; intros s; cbn [bind history run].
  - reflexivity.
  - reflexivity.
  - destruct (h X ev s) as [r s']. cbn [value final app]. rewrite IH. reflexivity.
Qed.

Lemma answers_app {B} (f : exchange -> option B) (a b : list exchange) :
  answers f (a ++ b) = answers f a ++ answers f b.
Proof. apply flat_map_app. Qed.

Lemma agent_answer_run (x : exchange) (r : result completed) :
  agent_answer x = Some r -> is_agent_run (asked x) = true.
Proof.
  destruct x as [X [ev a]]. unfold agent_answer, is_agent_run, asked.
  cbn [projT2 fst snd log].
  destruct ev; try discriminate.
  destruct argv as [|a0 [|flag [|a2 [|a3 argv]]]]; try discriminate.
  destruct (str_eqb flag (lit "-p")); [reflexivity | discriminate].
Qed.

(** Where no call is an agent run there is no answer of the agent. *)
Lemma answers_none (H : list exchange) :
  count is_agent_run (map asked H) = 0 -> answers agent_answer H = [].
Proof.
  induction H as [|x H IH]; [reflexivity |].
  cbn [map]. rewrite count_cons. intros Hc. cbn [answers flat_map].
  destruct (agent_answer x) as [r |] eqn:E.
  - apply agent_answer_run in E. rewrite E in Hc. discriminate.
  - cbn [app]. apply IH. lia.
Qed.

Lemma filter_none {A} (P : A -> bool) (l : list A) :
  List.length (filter P l) = 0 -> filter P l = [].
Proof. destruct (filter P l); [reflexivity | discriminate]. Qed.

(** The outcome of a composed run that returns. *)
Lemma run_bind_ok {S A B} (h : handler S) (m : prog A) (f : A -> prog B) (s : S) (b : B) :
  value (run h (bind m f) s) = Ok b ->
  exists a,
    value (run h m s) = Ok a
    /\ value (run h (f a) (final (run h m s))) = Ok b
    /\ trace (run h (bind m f) s)
       = trace (run h m s) ++ trace (run h (f a) (final (run h m s)))
    /\ history h (bind m f) s
       = history h m s ++ history h (f a) (final (run h m s)).
Proof.
  rewrite run_bind, history_bind.
  destruct (value (run h m s)) as [a | e]; cbn [value trace]; [| discriminate].
  intros Hv. exists a. auto.
Qed.

Section Delivered.

Variable cfg : config.
Variable py_str : json -> str.
Variable S : Type.
Variable h : handler S.

Lemma quiet_posts {A} (m : prog A) (s : S) :
  emits is_post 0 m -> filter is_post (trace (run h m s)) = [].
Proof. intros H. apply filter_none. apply (emits_never is_post h m s H). Qed.

Lemma quiet_agent {A} (m : prog A) (s : S) :
  emits is_agent_run 0 m -> answers agent_answer (history h m s) = [].
Proof.
  intros H. apply answers_none. rewrite history_trace.
  apply (emits_never is_agent_run h m s H).
Qed.

(** One run of [run_claude]: one call, and the text made of its answer. *)
Lemma run_claude_run (prompt context : str) (s : S) :
  exists r,
    value (run h (run_claude cfg (JStr prompt) context) s) = agent_reply cfg r
    /\ answers agent_answer (history h (run_claude cfg (JStr prompt) context) s) = [r].
Proof.
  unfold run_claude, call. cbn [bind try_except run history].
  destruct (h _ _ s) as [r s']. exists r. split.
  - destruct r as [c | e]; cbn [lift bind try_except run value agent_reply].
    + destruct (Z.eqb (returncode c) 0); reflexivity.
    + destruct (exn_cls e); reflexivity.
  - cbn [answers flat_map agent_answer answered projT2 fst snd].
    change (str_eqb (lit "-p") (lit "-p")) with true. cbv iota. cbn [app].
    replace (history h _ s') with (@nil exchange); [reflexivity |].
    destruct r as [c | e]; cbn [lift bind try_except].
    + destruct (Z.eqb (returncode c) 0); reflexivity.
    + destruct (exn_cls e); reflexivity.
Qed.

Lemma completion_no_agent_run (task : dict) :
  emits is_agent_run 0 (path <- lift (subscript (JDict task) (lit "_path")) ;;
                        sha <- lift (subscript (JDict task) (lit "_sha")) ;;
                        delete_task cfg py_str path sha ;;
                        sync_workspace_to_github cfg).
Proof.
  apply emits_bind_0; [apply emits_lift | intros path].
  apply emits_bind_0; [apply emits_lift | intros sha].
  apply emits_bind_0; [| intros _; apply sync_no_agent_run].
  unfold delete_task. apply emits_bind_0; [| intros _; reflexivity].
  apply emits_call_0. reflexivity.
Qed.

(** The texts a delivery posts: the text itself when the task has a
    callback URL, or a channel and the daemon a token, and nothing
    otherwise. *)
Lemma deliver_posted (response_url channel_id thread_ts : json) (text : str) (s : S) :
  value (run h (deliver cfg response_url channel_id thread_ts text) s) = Ok tt ->
  map posted_text
    (filter is_post (trace (run h (deliver cfg response_url channel_id thread_ts text) s)))
  = if (truthy response_url
        || (truthy channel_id && nonempty (SLACK_BOT_TOKEN cfg)))%bool
    then [Some text] else [].
Proof.
  unfold deliver. destruct (truthy response_url); cbn [orb].
  - unfold respond_via_url. destruct (as_str response_url) as [url | e];
      cbn [lift bind]; [| discriminate].
    intros _. unfold call. cbn [bind run]. destruct (h _ _ s) as [r s'].
    cbn [trace]. destruct r; reflexivity.
  - destruct (truthy channel_id); cbn [andb]; [| reflexivity].
    unfold post_to_slack. destruct (nonempty (SLACK_BOT_TOKEN cfg)); cbn [negb];
      [| reflexivity].
    intros _. unfold call. cbn [bind run]. destruct (h _ _ s) as [r s'].
    cbn [trace filter is_post log projT2 map].
    rewrite quiet_posts by (destruct r; emits_zero).
    unfold posted_text. cbn [log projT2 app dict_get].
    change (str_eqb (lit "channel") (lit "text")) with false. cbv iota.
    rewrite str_eqb_refl. reflexivity.
Qed.

(** With a callback URL a delivery is one POST to it. *)
Lemma deliver_callback (url : str) (channel_id thread_ts : json) (text : str) (s : S) :
  url <> [] ->
  trace (run h (deliver cfg (JStr url) channel_id thread_ts text) s)
  = [log (HttpPost url []
            (JDict [(lit "response_type", JStr (lit "in_channel"));
                    (lit "text", JStr text)]))].
Proof.
  intros Hurl. apply nonempty_true in Hurl.
  unfold deliver, respond_via_url, call. cbn [truthy]. rewrite Hurl.
  cbn [as_str lift bind run]. destruct (h _ _ s) as [r s']. cbn [trace].
  destruct r; reflexivity.
Qed.

(** A task that is processed to the end: its prompt is text, the agent
    was run once, and the posts are those of the acknowledgement followed
    by those of the result, which is the answer of the agent, translated
    and truncated. *)
Lemma process_task_delivery (task : dict) (s : S) :
  value (run h (process_task cfg py_str task) s) = Ok tt ->
  exists (p : str) (r : result completed) (out : str) (s' : S),
    get_or task (lit "prompt") (JStr []) = JStr p
    /\ answers agent_answer (history h (process_task cfg py_str task) s) = [r]
    /\ agent_reply cfg r = Ok out
    /\ value (run h (deliver cfg (get_or task (lit "response_url") (JStr []))
                       (get_or task (lit "channel_id") (JStr []))
                       (get_or task (lit "thread_ts") (JStr []))
                       (lit "Processing: `" ++ firstn 80 p ++ lit "`...")) s) = Ok tt
    /\ value (run h (deliver cfg (get_or task (lit "response_url") (JStr []))
                       (get_or task (lit "channel_id") (JStr []))
                       (get_or task (lit "thread_ts") (JStr []))
                       (truncate_output (markdown_to_slack out))) s') = Ok tt
    /\ filter is_post (trace (run h (process_task cfg py_str task) s))
       = filter is_post
           (trace (run h (deliver cfg (get_or task (lit "response_url") (JStr []))
                            (get_or task (lit "channel_id") (JStr []))
                            (get_or task (lit "thread_ts") (JStr []))
                            (lit "Processing: `" ++ firstn 80 p ++ lit "`...")) s))
         ++ filter is_post
              (trace (run h (deliver cfg (get_or task (lit "response_url") (JStr []))
                               (get_or task (lit "channel_id") (JStr []))
                               (get_or task (lit "thread_ts") (JStr []))
                               (truncate_output (markdown_to_slack out))) s')).
Proof.
  unfold process_task, field.
  set (prompt := get_or task (lit "prompt") (JStr [])).
  set (url := get_or task (lit "response_url") (JStr [])).
  set (channel := get_or task (lit "channel_id") (JStr [])).
  set (thread := get_or task (lit "thread_ts") (JStr [])).
  destruct (slice prompt 60) as [logged | e] eqn:E60; cbn [lift bind]; [| discriminate].
  destruct (slice prompt 80) as [shown | e] eqn:E80; cbn [lift bind]; [| discriminate].
  intros Hv.
  apply run_bind_ok in Hv as ([] & Hv1 & Hv & Ht1 & Hh1).
  rewrite Ht1, Hh1. clear Ht1 Hh1.
  set (s1 := final (run h (deliver cfg url channel thread _) s)) in *.
  apply run_bind_ok in Hv as (context & Hv2 & Hv & Ht2 & Hh2).
  rewrite Ht2, Hh2. clear Ht2 Hh2.
  set (s2 := final (run h _ s1)) in *.
  apply run_bind_ok in Hv as (output & Hv3 & Hv & Ht3 & Hh3).
  rewrite Ht3, Hh3. clear Ht3 Hh3.
  set (s3 := final (run h _ s2)) in *.
  apply run_bind_ok in Hv as ([] & Hv4 & Hv & Ht4 & Hh4).
  rewrite Ht4, Hh4. clear Ht4 Hh4.
  set (s4 := final (run h _ s3)) in *.
  destruct prompt as [| | | | p | |] eqn:Ep; try discriminate Hv3.
  cbn [slice] in E80. injection E80 as <-. cbn [format_value] in *.
  destruct (run_claude_run p context s2) as (r & Hr & Ha).
  rewrite Hv3 in Hr.
  exists p, r, output, s3.
  split; [reflexivity |]. split.
  { rewrite !answers_app, Ha.
    rewrite (quiet_agent _ s) by (apply emits_deliver; reflexivity).
    rewrite (quiet_agent _ s1) by (apply emits_context; reflexivity).
    rewrite (quiet_agent _ s3) by (apply emits_deliver; reflexivity).
    rewrite (quiet_agent _ s4) by (apply completion_no_agent_run).
    reflexivity. }
  split; [symmetry; exact Hr |].
  split; [exact Hv1 |]. split; [exact Hv4 |].
  rewrite !filter_app.
  rewrite (quiet_posts _ s1) by (apply emits_context; reflexivity).
  rewrite (quiet_posts _ s2) by (apply emits_run_claude; reflexivity).
  rewrite (quiet_posts _ s4) by (apply emits_completion; reflexivity).
  rewrite app_nil_r. reflexivity.
Qed.

End Delivered.

Lemma filter_filter_post (url : str) (t : list entry) :
  filter (is_post_to url) (filter is_post t) = filter (is_post_to url) t.
Proof.
  induction t as [|e t IH]; [reflexivity |]. cbn [filter].
  destruct (is_post e) eqn:E; cbn [filter]; rewrite IH.
  - reflexivity.
  - replace (is_post_to url e) with false; [reflexivity |].
    destruct e as [X ev]. unfold is_post, is_post_to in *. cbn [projT2] in *.
    destruct ev; try reflexivity; discriminate.
Qed.

(** C3 (amended): while one task that carries a callback URL is processed,
    that URL is posted to at most twice.  The first post is the
    acknowledgement, which quotes the first 80 characters of the prompt.
    When the processing runs to its end there are exactly two posts: the
    acknowledgement, and then the result, which is the answer the agent
    gave in this run, translated and truncated. *)
Theorem C3_callback_posted_twice
  (cfg : config) (py_str : json -> str) (task : dict) (url : str)
  (S : Type) (h : handler S) (s : S) :
  get_or task (lit "response_url") (JStr []) = JStr url ->
  url <> [] ->
  count (is_post_to url) (trace (run h (process_task cfg py_str task) s)) <= 2
  /\ (forall first others,
        filter (is_post_to url) (trace (run h (process_task cfg py_str task) s))
        = first :: others ->
        exists shown,
          slice (get_or task (lit "prompt") (JStr [])) 80 = Ok shown
          /\ first
             = log (HttpPost url []
                      (JDict [(lit "response_type", JStr (lit "in_channel"));
                              (lit "text",
                               JStr (lit "Processing: `" ++ format_value py_str shown
                                     ++ lit "`..."))])))
  /\ (value (run h (process_task cfg py_str task) s) = Ok tt ->
      exists (p : str) (r : result completed) (out : str),
        get_or task (lit "prompt") (JStr []) = JStr p
        /\ answers agent_answer (history h (process_task cfg py_str task) s) = [r]
        /\ agent_reply cfg r = Ok out
        /\ filter (is_post_to url) (trace (run h (process_task cfg py_str task) s))
           = [log (HttpPost url []
                     (JDict [(lit "response_type", JStr (lit "in_channel"));
                             (lit "text",
                              JStr (lit "Processing: `" ++ firstn 80 p ++ lit "`..."))]));
              log (HttpPost url []
                     (JDict [(lit "response_type", JStr (lit "in_channel"));
                             (lit "text",
                              JStr (truncate_output (markdown_to_slack out)))]))]).
Proof.
  intros Hurl Hset.
  split; [| split].
  - exact (proj1 (emits_run (is_post_to url) h 2 _ s
                    (process_task_posts_twice cfg url Hset py_str task Hurl))).
  - intros first others. unfold process_task, field. rewrite Hurl.
    destruct (slice (get_or task (lit "prompt") _) 60) as [logged | e];
      cbn [lift bind]; [| discriminate].
    destruct (slice (get_or task (lit "prompt") _) 80) as [shown | e];
      cbn [lift bind]; [| discriminate].
    rewrite run_bind.
    pose proof (deliver_callback cfg S h url
                  (get_or task (lit "channel_id") (JStr []))
                  (get_or task (lit "thread_ts") (JStr []))
                  (lit "Processing: `" ++ format_value py_str shown ++ lit "`...")
                  s Hset) as Hack.
    assert (Hhead : forall rest,
               filter (is_post_to url)
                 ([log (HttpPost url []
                          (JDict [(lit "response_type", JStr (lit "in_channel"));
                                  (lit "text",
                                   JStr (lit "Processing: `"
                                         ++ format_value py_str shown
                                         ++ lit "`..."))]))] ++ rest)
               = first :: others ->
               first = log (HttpPost url []
                              (JDict [(lit "response_type", JStr (lit "in_channel"));
                                      (lit "text",
                                       JStr (lit "Processing: `"
                                             ++ format_value py_str shown
                                             ++ lit "`..."))]))).
    { intros rest. cbn [app filter]. unfold is_post_to at 1. cbn [log projT2].
      rewrite str_eqb_refl. intros [= <- _]. reflexivity. }
    destruct (value (run h (deliver cfg _ _ _ _) s)); cbn [trace]; rewrite Hack.
    + intros H. exists shown. split; [reflexivity | exact (Hhead _ H)].
    + intros H. exists shown. split; [reflexivity |].
      apply (Hhead []). exact H.
  - intros Hv.
    destruct (process_task_delivery cfg py_str S h task s Hv)
      as (p & r & out & s' & Hp & Hr & Hout & _ & _ & Hposts).
    exists p, r, out. split; [exact Hp |]. split; [exact Hr |]. split; [exact Hout |].
    rewrite <- filter_filter_post, Hposts. rewrite Hurl, !deliver_callback by exact Hset.
    cbn [filter is_post log projT2 app]. unfold is_post_to. cbn [log projT2].
    rewrite str_eqb_refl. reflexivity.
Qed.

Lemma C3_callback_witness :
  count (is_post_to sample_url)
    (trace (run quiet (process_task sample_config sample_str sample_task) tt)) <= 2
  /\ exists (p : str) (r : result completed) (out : str),
       get_or sample_task (lit "prompt") (JStr []) = JStr p
       /\ answers agent_answer
            (history quiet (process_task sample_config sample_str sample_task) tt) = [r]
       /\ agent_reply sample_config r = Ok out
       /\ filter (is_post_to sample_url)
            (trace (run quiet (process_task sample_config sample_str sample_task) tt))
          = [log (HttpPost sample_url []
                    (JDict [(lit "response_type", JStr (lit "in_channel"));
                            (lit "text",
                             JStr (lit "Processing: `" ++ firstn 80 p ++ lit "`..."))]));
             log (HttpPost sample_url []
                    (JDict [(lit "response_type", JStr (lit "in_channel"));
                            (lit "text",
                             JStr (truncate_output (markdown_to_slack out)))]))].
Proof.
  destruct (C3_callback_posted_twice sample_config sample_str sample_task sample_url
              unit quiet tt eq_refl) as (Hle & _ & Hend).
  - discriminate.
  - split; [exact Hle | apply Hend; reflexivity].
Defined.

(** The sample task carries a callback URL; its processing runs to the end
    and posts to that URL twice, not at most once: the acknowledgement and
    the answer of the agent. *)
Lemma C3_counterexample :
  get_or sample_task (lit "response_url") (JStr []) = JStr sample_url
  /\ value (run quiet (process_task sample_config sample_str sample_task) tt) = Ok tt
  /\ count (is_post_to sample_url)
       (trace (run quiet (process_task sample_config sample_str sample_task) tt)) = 2
  /\ map posted_text
       (filter (is_post_to sample_url)
          (trace (run quiet (process_task sample_config sample_str sample_task) tt)))
     = [Some (lit "Processing: `Summarize the README`..."); Some (lit "done")].
Proof. repeat split; vm_compute; reflexivity. Qed.

(** C6 (amended): the text delivered as the result of a task is the answer
    of the agent, stripped and translated to Slack markup, and then
    truncated: a translated text longer than the budget of 3900 characters
    is cut to its first 3900 characters followed by the marker, a shorter
    one is delivered as it is, and the delivered text is never longer than
    4000 characters; nor is any other message posted for a task whose
    prompt is text. *)
Theorem C6_truncation (translated : str) :
  (BUDGET < List.length translated ->
     truncate_output translated = firstn BUDGET translated ++ MARKER)
  /\ (List.length translated <= BUDGET -> truncate_output translated = translated)
  /\ List.length (truncate_output translated) <= SLACK_LIMIT
  /\ (forall (cfg : config) (py_str : json -> str) (task : dict) (prompt : str)
             (S : Type) (h : handler S) (s : S),
         get_or task (lit "prompt") (JStr []) = JStr prompt ->
         count (oversized SLACK_LIMIT)
           (trace (run h (process_task cfg py_str task) s)) = 0)
  /\ (forall (cfg : config) (py_str : json -> str) (task : dict)
             (S : Type) (h : handler S) (s : S),
         value (run h (process_task cfg py_str task) s) = Ok tt ->
         exists (p : str) (r : result completed) (out : str),
           get_or task (lit "prompt") (JStr []) = JStr p
           /\ answers agent_answer (history h (process_task cfg py_str task) s) = [r]
           /\ agent_reply cfg r = Ok out
           /\ (forall c, r = Ok c -> returncode c = 0%Z -> out = strip (stdout c))
           /\ map posted_text
                (filter is_post (trace (run h (process_task cfg py_str task) s)))
              = if (truthy (get_or task (lit "response_url") (JStr []))
                    || (truthy (get_or task (lit "channel_id") (JStr []))
                        && nonempty (SLACK_BOT_TOKEN cfg)))%bool
                then [Some (lit "Processing: `" ++ firstn 80 p ++ lit "`...");
                      Some (truncate_output (markdown_to_slack out))]
                else []).
Proof.
  split; [| split; [| split; [| split]]].
  - intros Hlong. unfold truncate_output.
    apply Nat.ltb_lt in Hlong. rewrite Hlong. reflexivity.
  - intros Hshort. unfold truncate_output.
    apply Nat.ltb_ge in Hshort. rewrite Hshort. reflexivity.
  - apply truncate_output_length.
  - intros cfg py_str task prompt S h s Hprompt.
    apply emits_never, (process_task_within_limit cfg py_str task prompt Hprompt).
  - intros cfg py_str task S h s Hv.
    destruct (process_task_delivery cfg py_str S h task s Hv)
      as (p & r & out & s' & Hp & Hr & Hout & Hack & Hres & Hposts).
    exists p, r, out. split; [exact Hp |]. split; [exact Hr |]. split; [exact Hout |].
    split.
    { intros c -> Hrc. cbn [agent_reply] in Hout.
      apply Z.eqb_eq in Hrc. rewrite Hrc in Hout. injection Hout as <-. reflexivity. }
    rewrite Hposts, map_app.
    rewrite (deliver_posted cfg S h _ _ _ _ s Hack).
    rewrite (deliver_posted cfg S h _ _ _ _ s' Hres).
    destruct (_ || _)%bool; reflexivity.
Qed.

Lemma C6_truncation_witness :
  truncate_output (repeat 120%N 3901)
  = firstn BUDGET (repeat 120%N 3901) ++ MARKER
  /\ count (oversized SLACK_LIMIT)
       (trace (run quiet (process_task sample_config sample_str sample_task) tt)) = 0
  /\ exists (p : str) (r : result completed) (out : str),
       get_or sample_task (lit "prompt") (JStr []) = JStr p
       /\ answers agent_answer
            (history quiet (process_task sample_config sample_str sample_task) tt) = [r]
       /\ agent_reply sample_config r = Ok out
       /\ (forall c, r = Ok c -> returncode c = 0%Z -> out = strip (stdout c))
       /\ map posted_text
            (filter is_post
               (trace (run quiet (process_task sample_config sample_str sample_task) tt)))
          = [Some (lit "Processing: `" ++ firstn 80 p ++ lit "`...");
             Some (truncate_output (markdown_to_slack out))].
Proof.
  destruct (C6_truncation (repeat 120%N 3901)) as (Hlong & _ & _ & Hposts & Hresult).
  split; [| split].
  - apply Hlong. rewrite repeat_length. unfold BUDGET. lia.
  - apply (Hposts sample_config sample_str sample_task (lit "Summarize the README")).
    reflexivity.
  - apply (Hresult sample_config sample_str sample_task unit quiet tt). reflexivity.
Defined.

(** An answer of the agent on which the claim fails.  It has 3901
    characters, more than the budget; translated it has 3899, and that is
    what is delivered: not the first 3900 characters of the answer, and
    without the marker. *)
Lemma C6_counterexample :
  List.length long_output = 3901
  /\ value (run long_answer (process_task sample_config sample_str sample_task) tt)
     = Ok tt
  /\ map posted_text
       (filter is_post
          (trace (run long_answer (process_task sample_config sample_str sample_task) tt)))
     = [Some (lit "Processing: `Summarize the README`...");
        Some (lit "*" ++ repeat 97%N 3897 ++ lit "*")]
  /\ str_eqb (lit "*" ++ repeat 97%N 3897 ++ lit "*")
       (firstn BUDGET long_output ++ MARKER) = false
  /\ endswith (lit "*" ++ repeat 97%N 3897 ++ lit "*") MARKER = false.
Proof.
  split; [vm_compute; reflexivity |].
  split; [vm_compute; reflexivity |].
  split; [vm_compute; reflexivity |].
  split; vm_compute; reflexivity.
Qed.

(** ** The agent and git *)

Lemma run_claude_value (cfg : config) (prompt context : str)
  (S : Type) (h : handler S) (s : S) :
  exists argv,
    value (run h (run_claude cfg (JStr prompt) context) s)
    = match fst (h _ (SubprocessRun argv (WORKSPACE_DIR cfg) (CLAUDE_TIMEOUT cfg)) s) with
      | Ok r =>
          if Z.eqb (returncode r) 0 then Ok (strip (stdout r))
          else Ok (lit "Error: Claude Code returned exit code "
                   ++ str_of_Z (returncode r) ++ nl ++ firstn 500 (stderr r))
      | Err e =>
          match exn_cls e with
          | TimeoutExpired =>
              Ok (lit "Error: Claude Code timed out ("
                  ++ str_of_Z (CLAUDE_TIMEOUT cfg) ++ lit "s limit)")
          | FileNotFoundError =>
              Ok (lit "Error: Claude Code CLI not found. Is it installed and in PATH?")
          | _ => Err e
          end
      end.
Proof.
  exists [CLAUDE_BIN cfg; lit "-p";
          if nonempty context
          then PROMPT_PREFIX ++ context ++ nl ++ lit "Latest request: " ++ prompt
          else PROMPT_PREFIX ++ prompt].
  unfold run_claude, call. cbn [bind try_except run].
  destruct (h _ _ s) as [[r | e] s']; cbn [fst lift bind try_except value run].
  - destruct (Z.eqb (returncode r) 0); reflexivity.
  - destruct (exn_cls e); reflexivity.
Qed.

(** X5: [run_claude] turns a timeout, a missing binary and a failing exit
    status of the agent into the text of the answer; it never raises the
    first two, and every other exception of the subprocess goes on to the
    caller. *)
Theorem X5_agent_failures_become_text
  (cfg : config) (prompt context : str) (S : Type) (h : handler S) (s : S) :
  (forall e, value (run h (run_claude cfg (JStr prompt) context) s) = Err e ->
             exn_cls e <> TimeoutExpired /\ exn_cls e <> FileNotFoundError)
  /\ (forall msg, (forall argv cwd t,
                     fst (h _ (SubprocessRun argv cwd t) s) = Err (Exn TimeoutExpired msg)) ->
        value (run h (run_claude cfg (JStr prompt) context) s)
        = Ok (lit "Error: Claude Code timed out ("
              ++ str_of_Z (CLAUDE_TIMEOUT cfg) ++ lit "s limit)"))
  /\ (forall msg, (forall argv cwd t,
                     fst (h _ (SubprocessRun argv cwd t) s) = Err (Exn FileNotFoundError msg)) ->
        value (run h (run_claude cfg (JStr prompt) context) s)
        = Ok (lit "Error: Claude Code CLI not found. Is it installed and in PATH?"))
  /\ (forall r, (forall argv cwd t, fst (h _ (SubprocessRun argv cwd t) s) = Ok r) ->
        returncode r <> 0%Z ->
        value (run h (run_claude cfg (JStr prompt) context) s)
        = Ok (lit "Error: Claude Code returned exit code "
              ++ str_of_Z (returncode r) ++ nl ++ firstn 500 (stderr r))).
Proof.
  destruct (run_claude_value cfg prompt context S h s) as [argv Hv].
  rewrite Hv. split; [| split; [| split]].
  - intros e. destruct (fst (h _ _ s)) as [r | e0]; [destruct (Z.eqb _ _); discriminate |].
    destruct (exn_cls e0) eqn:E; try discriminate;
      intros [= <-]; rewrite E; split; discriminate.
  - intros msg Hh. rewrite Hh. reflexivity.
  - intros msg Hh. rewrite Hh. reflexivity.
  - intros r Hh Hrc. rewrite Hh. apply Z.eqb_neq in Hrc. rewrite Hrc. reflexivity.
Qed.

Lemma X5_agent_failures_become_text_witness :
  value (run timing_out
           (run_claude sample_config (JStr (lit "Summarize the README")) []) tt)
  = Ok (lit "Error: Claude Code timed out (300s limit)").
Proof.
  apply (proj1 (proj2 (X5_agent_failures_become_text sample_config
                         (lit "Summarize the README") [] unit timing_out tt))
           (lit "timed out")).
  reflexivity.
Defined.

Section Git.

Variable cfg : config.

Lemma sync_safe : safe (sync_workspace_to_github cfg).
Proof.
  unfold sync_workspace_to_github.
  repeat first
    [ exact I
    | apply safe_bind; [apply run_git_safe | intro]
    | match goal with |- safe (if ?b then _ else _) => destruct b end ].
Qed.

Lemma git_pull_safe : safe (git_pull cfg).
Proof. unfold git_pull. apply safe_bind; [apply run_git_safe | intro; exact I]. Qed.

Lemma sync_at_most_six : at_most (fun _ => true) 6 (sync_workspace_to_github cfg).
Proof.
  unfold sync_workspace_to_github.
  apply (at_most_bind _ 1 5); [apply run_git_once | intros r1].
  destruct (negb _); [exact I |].
  apply (at_most_bind _ 1 4); [apply run_git_once | intros r2].
  destruct (Z.eqb _ _); [exact I |].
  apply (at_most_bind _ 1 3); [apply run_git_once | intros r3].
  destruct (negb _); [exact I |].
  apply (at_most_bind _ 1 2); [apply run_git_once | intros r4].
  destruct (negb _); [| exact I].
  apply (at_most_bind _ 1 1); [apply run_git_once | intros r5].
  apply (at_most_bind _ 1 0); [apply run_git_once | intros r6]. exact I.
Qed.

Lemma sync_at_most_two_pushes : at_most is_push 2 (sync_workspace_to_github cfg).
Proof.
  unfold sync_workspace_to_github.
  apply (at_most_bind _ 0 2);
    [apply at_most_of_emits, git_call; reflexivity | intros r1].
  destruct (negb _); [exact I |].
  apply (at_most_bind _ 0 2);
    [apply at_most_of_emits, git_call; reflexivity | intros r2].
  destruct (Z.eqb _ _); [exact I |].
  apply (at_most_bind _ 0 2);
    [apply at_most_of_emits, git_call; reflexivity | intros r3].
  destruct (negb _); [exact I |].
  apply (at_most_bind _ 1 1); [apply run_git_once | intros r4].
  destruct (negb _); [| exact I].
  apply (at_most_bind _ 0 1);
    [apply at_most_of_emits, git_call; reflexivity | intros r5].
  apply (at_most_bind _ 1 0); [apply run_git_once | intros r6]. exact I.
Qed.

End Git.

Lemma count_all (t : list entry) : count (fun _ => true) t = List.length t.
Proof. unfold count. induction t; simpl; congruence. Qed.

(** X6: the synchronisation of the workspace and the pull before a batch
    never raise, whatever git does; the synchronisation runs git in the
    workspace only, at most six commands, of which at most two are
    pushes. *)
Theorem X6_git_steps_never_raise (cfg : config) (S : Type) (h : handler S) (s : S) :
  value (run h (sync_workspace_to_github cfg) s) = Ok tt
  /\ value (run h (git_pull cfg) s) = Ok tt
  /\ forallb (is_git (WORKSPACE_DIR cfg))
       (trace (run h (sync_workspace_to_github cfg) s)) = true
  /\ List.length (trace (run h (sync_workspace_to_github cfg) s)) <= 6
  /\ count is_push (trace (run h (sync_workspace_to_github cfg) s)) <= 2.
Proof.
  split.
  { destruct (safe_run h _ s (sync_safe cfg)) as [[] Hv]. exact Hv. }
  split.
  { destruct (safe_run h _ s (git_pull_safe cfg)) as [[] Hv]. exact Hv. }
  split; [apply only_run, sync_only_git |].
  split.
  - rewrite <- count_all. apply at_most_run, sync_at_most_six.
  - apply at_most_run, sync_at_most_two_pushes.
Qed.

(** X7: when staging succeeds and nothing is staged (the cached diff exits
    with 0), the synchronisation stops after these two commands: it makes
    no commit and no push. *)
Theorem X7_nothing_staged_nothing_pushed
  (cfg : config) (S : Type) (h : handler S) (s s1 s2 : S) (r1 r2 : completed) :
  h _ (SubprocessRun [lit "git"; lit "add"; lit "-A"] (WORKSPACE_DIR cfg) 30) s
  = (Ok r1, s1) ->
  returncode r1 = 0%Z ->
  h _ (SubprocessRun [lit "git"; lit "diff"; lit "--cached"; lit "--quiet"]
         (WORKSPACE_DIR cfg) 30) s1
  = (Ok r2, s2) ->
  returncode r2 = 0%Z ->
  run h (sync_workspace_to_github cfg) s
  = {| value := Ok tt;
       final := s2;
       trace := [log (SubprocessRun [lit "git"; lit "add"; lit "-A"]
                        (WORKSPACE_DIR cfg) 30);
                 log (SubprocessRun [lit "git"; lit "diff"; lit "--cached"; lit "--quiet"]
                        (WORKSPACE_DIR cfg) 30)] |}.
Proof.
  intros H1 Hr1 H2 Hr2.
  unfold sync_workspace_to_github, _run_git, call.
  cbn [bind try_except run]. rewrite H1.
  cbn [lift bind try_except fst]. rewrite Hr1.
  cbn [Z.eqb negb bind try_except run]. rewrite H2.
  cbn [lift bind try_except fst]. rewrite Hr2. reflexivity.
Qed.

Lemma X7_nothing_staged_nothing_pushed_witness :
  List.length (trace (run quiet (sync_workspace_to_github sample_config) tt)) = 2.
Proof.
  rewrite (X7_nothing_staged_nothing_pushed sample_config unit quiet tt tt tt
             {| returncode := 0; stdout := lit "done"; stderr := [] |}
             {| returncode := 0; stdout := lit "done"; stderr := [] |}
             eq_refl eq_refl eq_refl eq_refl).
  reflexivity.
Defined.

(** ** The queue and the poll loop *)

Lemma json_files_named (l r : list json) :
  json_files l = Ok r ->
  Forall (fun item => exists name,
              subscript item (lit "name") = Ok (JStr name)
              /\ endswith name (lit ".json") = true) r
  /\ incl r l.
Proof.
  revert r. induction l as [|item l IH]; intros r; cbn [json_files].
  - intros [= <-]. split; [constructor | apply incl_refl].
  - unfold is_json_file.
    destruct (subscript item (lit "name")) as [[| | | | name | |] | e] eqn:E;
      try discriminate.
    destruct (json_files l) as [r' | e]; [| discriminate].
    destruct (IH r' eq_refl) as [Hall Hincl].
    destruct (endswith name (lit ".json")) eqn:En; intros [= <-].
    + split.
      * constructor; [exists name; rewrite E; auto | exact Hall].
      * intros x [-> | Hx]; [left; reflexivity | right; apply Hincl, Hx].
    + split; [exact Hall | intros x Hx; right; apply Hincl, Hx].
Qed.

(** X8: what [list_pending_tasks] returns are entries whose name ends in
    .json; a listing answered with a status other than 200, or whose body
    is not a list, gives no pending task rather than an error. *)
Theorem X8_pending_tasks_are_json_files
  (cfg : config) (S : Type) (h : handler S) (s : S) :
  (forall items, value (run h (list_pending_tasks cfg) s) = Ok items ->
     Forall (fun item => exists name,
                 subscript item (lit "name") = Ok (JStr name)
                 /\ endswith name (lit ".json") = true) items)
  /\ (forall resp, fst (h _ (HttpGet (Daemon.contents_url cfg TASKS_PATH)
                               (Daemon.github_headers cfg)
                               [(lit "ref", JStr (GITHUB_BRANCH cfg))]) s) = Ok resp ->
        status_code resp <> 200 \/
        (exists v, body resp = Some v /\ forall l, v <> JList l) ->
        value (run h (list_pending_tasks cfg) s) = Ok []).
Proof.
  split.
  - intros items. apply returns_run. unfold list_pending_tasks, call.
    cbn [bind returns]. intros [resp | e]; cbn [lift bind]; [| exact I].
    destruct (Nat.eqb (status_code resp) 404); [constructor |].
    destruct (negb _); [constructor |].
    unfold resp_json. destruct (body resp) as [v |]; cbn [bind]; [| exact I].
    destruct v; try (cbn; constructor).
    destruct (json_files l) as [r | e] eqn:E; cbn [lift returns]; [| exact I].
    exact (proj1 (json_files_named l r E)).
  - intros resp Hh Hresp. unfold list_pending_tasks. rewrite run_bind, run_call, Hh.
    cbn [value final].
    destruct (Nat.eqb (status_code resp) 404); [reflexivity |].
    destruct Hresp as [Hs | (v & Hb & Hv)].
    + apply Nat.eqb_neq in Hs. rewrite Hs. reflexivity.
    + destruct (negb _); [reflexivity |].
      rewrite run_bind. unfold resp_json. rewrite Hb. cbn [run value final].
      destruct v; try reflexivity. exfalso. exact (Hv l eq_refl).
Qed.

Lemma X8_pending_tasks_are_json_files_witness :
  Forall (fun item => exists name,
              subscript item (lit "name") = Ok (JStr name)
              /\ endswith name (lit ".json") = true)
    [listing_entry (lit "bad.json", broken_file)].
Proof.
  apply (proj1 (X8_pending_tasks_are_json_files sample_config (store * unit)
                  (with_store sample_config unit quiet) (sample_store, tt))).
  reflexivity.
Defined.

Section Poll.

Variable cfg : config.
Variable b64decode : str -> option bytes.
Variable decode_utf8 : bytes -> option str.
Variable json_loads : str -> option json.
Variable py_str : json -> str.

Local Abbreviation iteration :=
  (poll_iteration cfg b64decode decode_utf8 json_loads py_str).
Local Abbreviation loop := (poll_loop cfg b64decode decode_utf8 json_loads py_str).

Lemma emits_poll_item P (item : json) :
  (forall u h p, P (log (HttpGet u h p)) = false) ->
  (forall a c t, P (log (SubprocessRun a c t)) = false) ->
  (forall u h p, P (log (HttpDelete u h p)) = false) ->
  (forall u h p, P (log (HttpPost u h p)) = false) ->
  emits P 0 (poll_item cfg b64decode decode_utf8 json_loads py_str item).
Proof.
  intros P_get P_run P_delete P_post. unfold poll_item.
  apply emits_bind_0; [apply emits_lift | intros path].
  apply emits_bind_0; [apply emits_read_task, P_get | intros [t |]]; [| reflexivity].
  destruct (nonempty t); [| reflexivity].
  apply emits_process_task; assumption.
Qed.

(** What one turn does before it sleeps. *)
Lemma emits_poll_body P :
  (forall u h p, P (log (HttpGet u h p)) = false) ->
  (forall a c t, P (log (SubprocessRun a c t)) = false) ->
  (forall u h p, P (log (HttpDelete u h p)) = false) ->
  (forall u h p, P (log (HttpPost u h p)) = false) ->
  emits P 0 (try_except
               (pending <- list_pending_tasks cfg ;;
                (if nonempty pending then git_pull cfg else Ret tt) ;;
                for_each pending (poll_item cfg b64decode decode_utf8 json_loads py_str))
               (fun _ => Ret tt)).
Proof.
  intros P_get P_run P_delete P_post.
  apply emits_try_0; [| intros e; reflexivity].
  apply emits_bind_0; [apply emits_list_pending, P_get | intros pending].
  apply emits_bind_0.
  - destruct (nonempty pending); [apply emits_git_pull, P_run | reflexivity].
  - intros _. apply emits_for_each. intros item. apply emits_poll_item; assumption.
Qed.

Lemma poll_iteration_sleeps_once : emits is_sleep 1 iteration.
Proof.
  unfold poll_iteration. apply (emits_bind _ 0 1).
  - apply emits_poll_body; reflexivity.
  - intros _. apply emits_call_1. reflexivity.
Qed.

Lemma poll_loop_sleeps (n : nat) : emits is_sleep n (loop n).
Proof.
  induction n as [|n IH]; cbn [poll_loop]; [reflexivity |].
  apply (emits_bind _ 1 n); [apply poll_iteration_sleeps_once | intros _; exact IH].
Qed.

End Poll.

(** X9: whatever happens while the queue is polled (the listing fails, a
    task file cannot be read, the processing of a task raises), the turn
    ends with one sleep of the poll interval, and there is no other sleep:
    the loop never spins.  After [n] turns the loop has slept [n] times. *)
Theorem X9_every_turn_ends_with_a_sleep
  (cfg : config) (b64decode : str -> option bytes)
  (decode_utf8 : bytes -> option str) (json_loads : str -> option json)
  (py_str : json -> str) (S : Type) (h : handler S) (s : S) (n : nat) :
  (exists before,
      trace (run h (poll_iteration cfg b64decode decode_utf8 json_loads py_str) s)
      = before ++ [log (Sleep (POLL_INTERVAL cfg))]
      /\ count is_sleep before = 0)
  /\ count is_sleep
       (trace (run h (poll_loop cfg b64decode decode_utf8 json_loads py_str n) s)) <= n
  /\ (value (run h (poll_loop cfg b64decode decode_utf8 json_loads py_str n) s) = Ok tt ->
      count is_sleep
        (trace (run h (poll_loop cfg b64decode decode_utf8 json_loads py_str n) s)) = n).
Proof.
  split.
  - unfold poll_iteration. rewrite run_bind.
    match goal with
    | |- context [run h (try_except ?m ?k) s] =>
        destruct (run_try_final h m tt s) as (_ & _ & [x Hx]);
        exists (trace (run h (try_except m k) s))
    end.
    rewrite Hx. cbn [trace]. rewrite run_call. cbn [trace]. split; [reflexivity |].
    apply emits_never, emits_poll_body; reflexivity.
  - destruct (emits_run is_sleep h n _ s
                (poll_loop_sleeps cfg b64decode decode_utf8 json_loads py_str n))
      as [Hle Heq].
    split; [exact Hle | intros Hv; exact (Heq tt Hv)].
Qed.

(** ** A malformed file at the head of the queue *)

Section Blocked.

Variable cfg : config.
Variable b64decode : str -> option bytes.
Variable decode_utf8 : bytes -> option str.
Variable json_loads : str -> option json.
Variable py_str : json -> str.
Variable S : Type.
Variable rest : handler S.

Local Abbreviation env := (with_store cfg S rest).

(** Only a DELETE changes the store. *)
Lemma store_unchanged {A} (m : prog A) (st : store) (s : S) :
  emits is_delete 0 m -> fst (final (run env m (st, s))) = st.
Proof.
  revert st s. induction m as [x | e | X ev k IH]; intros st s Hm; [reflexivity .. |].
  cbn [emits] in Hm. cbn [run].
  destruct (env X ev (st, s)) as [r [st' s']] eqn:Henv. cbn [final].
  assert (Hst : st' = st).
  { unfold with_store in Henv. cbn [fst snd] in Henv.
    destruct ev as [u hs ps | u hs pl | u hs pl | u hs pl | argv cwd tmo | | | secs | j];
      try (destruct (rest _ _ s); injection Henv as _ <- _; reflexivity).
    - destruct (strip_prefix (Daemon.contents_url cfg []) u);
        [| destruct (rest _ _ s)]; injection Henv as _ <- _; reflexivity.
    - cbn in Hm. contradiction. }
  subst st'. apply IH.
  destruct (is_delete (log ev)); [contradiction | apply Hm].
Qed.

Variable name : str.
Variable f : file.
Variable queue : store.

Hypothesis head : hd_error queue = Some (name, f).
Hypothesis json_name : endswith name (lit ".json") = true.
Hypothesis malformed : exists raw content,
    b64decode (file_content f) = Some raw
    /\ decode_utf8 raw = Some content
    /\ json_loads content = None.

(** Run on the queue, [m] leaves it as it is, posts nothing and deletes
    nothing. *)
Local Abbreviation idle m :=
  (forall s, fst (final (run env m (queue, s))) = queue
             /\ count is_post (trace (run env m (queue, s))) = 0
             /\ count is_delete (trace (run env m (queue, s))) = 0).

Lemma idle_quiet {A} (m : prog A) :
  emits is_post 0 m -> emits is_delete 0 m -> idle m.
Proof.
  intros Hp Hd s. split; [apply store_unchanged, Hd |].
  split; apply emits_never; assumption.
Qed.

Lemma idle_bind {A B} (m : prog A) (k : A -> prog B) :
  idle m -> (forall x, idle (k x)) -> idle (bind m k).
Proof.
  intros Hm Hk s. rewrite run_bind. destruct (Hm s) as (Hq & Hp & Hd).
  destruct (value (run env m (queue, s))) as [a | e]; cbn [final trace]; [| auto].
  destruct (final (run env m (queue, s))) as [st' s']. cbn [fst] in Hq. subst st'.
  destruct (Hk a s') as (Hq' & Hp' & Hd').
  split; [exact Hq' |]. rewrite !count_app, Hp, Hd, Hp', Hd'. auto.
Qed.

Lemma idle_try {A} (m : prog A) (a : A) :
  idle m -> idle (try_except m (fun _ => Ret a)).
Proof.
  intros Hm s. destruct (run_try_final env m a (queue, s)) as (Hf & Ht & _).
  rewrite Hf, Ht. apply Hm.
Qed.

Lemma find_head : find_file name queue = Some f.
Proof.
  destruct queue as [|[n g] others]; [discriminate |].
  cbn in head. injection head as -> ->.
  cbn [find_file]. rewrite str_eqb_refl. reflexivity.
Qed.

Lemma pending_head :
  exists more,
    map listing_entry (filter (fun nf => endswith (fst nf) (lit ".json")) queue)
    = listing_entry (name, f) :: more.
Proof.
  destruct queue as [|[n g] others]; [discriminate |].
  cbn in head. injection head as -> ->.
  cbn [filter fst]. rewrite json_name. cbn [map]. eexists; reflexivity.
Qed.

Lemma run_listing (s : S) :
  run env (list_pending_tasks cfg) (queue, s)
  = {| value := Ok (map listing_entry
                      (filter (fun nf => endswith (fst nf) (lit ".json")) queue));
       final := (queue, s);
       trace := [log (HttpGet (Daemon.contents_url cfg TASKS_PATH)
                        (Daemon.github_headers cfg)
                        [(lit "ref", JStr (GITHUB_BRANCH cfg))])] |}.
Proof.
  assert (Hcall : env _ (HttpGet (Daemon.contents_url cfg TASKS_PATH)
                           (Daemon.github_headers cfg)
                           [(lit "ref", JStr (GITHUB_BRANCH cfg))]) (queue, s)
                  = (Ok {| status_code := 200;
                           body := Some (JList (map listing_entry queue)) |},
                     (queue, s))).
  { unfold with_store. cbn [fst snd]. rewrite strip_contents_url.
    unfold answer_get. rewrite str_eqb_refl.
    destruct queue; [discriminate | reflexivity]. }
  unfold list_pending_tasks, call. cbn [bind run]. rewrite Hcall.
  cbn [lift bind status_code Nat.eqb negb resp_json body].
  rewrite json_files_listing. reflexivity.
Qed.

(** The first task of the batch is the malformed file: reading it raises,
    and the batch ends there. *)
Lemma run_batch (more : list json) (s : S) :
  run env (for_each (listing_entry (name, f) :: more)
             (poll_item cfg b64decode decode_utf8 json_loads py_str)) (queue, s)
  = {| value := Err (error JSONDecodeError);
       final := (queue, s);
       trace := [log (HttpGet (Daemon.contents_url cfg (task_path name))
                        (Daemon.github_headers cfg) [])] |}.
Proof.
  cbn [for_each]. rewrite run_bind. unfold poll_item.
  change (subscript (listing_entry (name, f)) (lit "path"))
    with (@Ok json (JStr (task_path name))).
  cbn [lift bind]. rewrite run_bind.
  rewrite (read_malformed cfg b64decode decode_utf8 json_loads py_str S rest name f
             malformed (JStr (task_path name)) queue s eq_refl find_head).
  reflexivity.
Qed.

Lemma idle_body :
  idle (pending <- list_pending_tasks cfg ;;
        (if nonempty pending then git_pull cfg else Ret tt) ;;
        for_each pending (poll_item cfg b64decode decode_utf8 json_loads py_str)).
Proof.
  intros s. rewrite run_bind, run_listing. cbn [value final trace].
  destruct pending_head as [more ->]. cbn [nonempty].
  rewrite run_bind.
  destruct (idle_quiet (git_pull cfg)
              (emits_git_pull cfg _ (fun _ _ _ => eq_refl))
              (emits_git_pull cfg _ (fun _ _ _ => eq_refl)) s) as (Hq & Hp & Hd).
  destruct (value (run env (git_pull cfg) (queue, s))) as [[] | e]; cbn [final trace].
  - destruct (final (run env (git_pull cfg) (queue, s))) as [st' s'].
    cbn [fst] in Hq. subst st'. rewrite run_batch. cbn [final trace fst].
    split; [reflexivity |].
    cbn [app]. rewrite !count_cons, !count_app, Hp, Hd. auto.
  - split; [exact Hq |]. cbn [app]. rewrite !count_cons, Hp, Hd. auto.
Qed.

Lemma idle_iteration :
  idle (poll_iteration cfg b64decode decode_utf8 json_loads py_str).
Proof.
  unfold poll_iteration. apply idle_bind.
  - apply idle_try, idle_body.
  - intros _. apply idle_quiet; apply emits_call_0; reflexivity.
Qed.

Lemma idle_loop (n : nat) :
  idle (poll_loop cfg b64decode decode_utf8 json_loads py_str n).
Proof.
  induction n as [|n IH]; cbn [poll_loop].
  - intros s. repeat split.
  - apply idle_bind; [apply idle_iteration | intros _; exact IH].
Qed.

End Blocked.

(** X10: a task file that is not JSON and is listed first blocks the queue.
    Each turn stops at it, so however many turns the loop takes, the store
    stays as it is, no file is deleted and nothing is posted: the tasks
    listed after it are never answered. *)
Theorem X10_malformed_head_blocks_the_queue
  (cfg : config) (b64decode : str -> option bytes)
  (decode_utf8 : bytes -> option str) (json_loads : str -> option json)
  (py_str : json -> str) (S : Type) (rest : handler S)
  (name : str) (f : file) (queue : store) (s : S) (n : nat) :
  hd_error queue = Some (name, f) ->
  endswith name (lit ".json") = true ->
  (exists raw content,
      b64decode (file_content f) = Some raw
      /\ decode_utf8 raw = Some content
      /\ json_loads content = None) ->
  fst (final (run (with_store cfg S rest)
                (poll_loop cfg b64decode decode_utf8 json_loads py_str n) (queue, s)))
  = queue
  /\ count is_post
       (trace (run (with_store cfg S rest)
                 (poll_loop cfg b64decode decode_utf8 json_loads py_str n) (queue, s)))
     = 0
  /\ count is_delete
       (trace (run (with_store cfg S rest)
                 (poll_loop cfg b64decode decode_utf8 json_loads py_str n) (queue, s)))
     = 0.
Proof.
  intros Hhead Hname Hbad.
  exact (idle_loop cfg b64decode decode_utf8 json_loads py_str S rest name f queue
           Hhead Hname Hbad n s).
Qed.

Lemma X10_malformed_head_blocks_the_queue_witness :
  fst (final (run (with_store sample_config unit quiet)
                (poll_loop sample_config sample_b64decode sample_decode_utf8
                   sample_json_loads sample_str 3) (blocked_store, tt)))
  = blocked_store
  /\ count is_post
       (trace (run (with_store sample_config unit quiet)
                 (poll_loop sample_config sample_b64decode sample_decode_utf8
                    sample_json_loads sample_str 3) (blocked_store, tt)))
     = 0
  /\ count is_delete
       (trace (run (with_store sample_config unit quiet)
                 (poll_loop sample_config sample_b64decode sample_decode_utf8
                    sample_json_loads sample_str 3) (blocked_store, tt)))
     = 0.
Proof.
  exact (X10_malformed_head_blocks_the_queue sample_config sample_b64decode
           sample_decode_utf8 sample_json_loads sample_str unit quiet
           (lit "bad.json") broken_file blocked_store tt 3
           eq_refl eq_refl sample_file_malformed).
Defined.

(** ** Where the answers of a task go *)

Section Delivery.

Variable cfg : config.
Variable py_str : json -> str.

Lemma every_no_post {A} (Q : entry -> Prop) (m : prog A) :
  (forall e, is_post e = false -> Q e) -> emits is_post 0 m -> every Q m.
Proof. apply every_of_emits. Qed.

Lemma process_task_posts (Q : entry -> Prop) (task : dict) :
  (forall e, is_post e = false -> Q e) ->
  (forall text, every Q (deliver cfg (get_or task (lit "response_url") (JStr []))
                           (get_or task (lit "channel_id") (JStr []))
                           (get_or task (lit "thread_ts") (JStr [])) text)) ->
  every Q (process_task cfg py_str task).
Proof.
  intros HQ Hdeliver. unfold process_task, field.
  apply every_bind; [apply (every_no_post Q _ HQ), emits_lift | intros logged].
  apply every_bind; [apply (every_no_post Q _ HQ), emits_lift | intros quoted].
  apply every_bind; [apply Hdeliver | intros _].
  apply every_bind; [apply (every_no_post Q _ HQ), emits_context; reflexivity |
                     intros context].
  apply every_bind; [apply (every_no_post Q _ HQ), emits_run_claude; reflexivity |
                     intros output].
  apply every_bind; [apply Hdeliver | intros _].
  apply (every_no_post Q _ HQ), emits_completion; reflexivity.
Qed.

End Delivery.

(** X11: the acknowledgement and the result of a task go one way.  A task
    with a callback URL is answered on that URL alone, each time with an
    in_channel response; a task without one is answered through
    [chat.postMessage] alone, with a payload that holds the channel of the
    task, the text and, when the task has a thread, that thread; when it
    has none the payload has no thread_ts field. *)
Theorem X11_answers_go_one_way
  (cfg : config) (py_str : json -> str) (task : dict)
  (S : Type) (h : handler S) (s : S) :
  (forall url, get_or task (lit "response_url") (JStr []) = JStr url -> url <> [] ->
     Forall (fun e => forall u p, posted e = Some (u, p) ->
               u = url
               /\ exists text, p = JDict [(lit "response_type", JStr (lit "in_channel"));
                                          (lit "text", JStr text)])
       (trace (run h (process_task cfg py_str task) s)))
  /\ (truthy (get_or task (lit "response_url") (JStr [])) = false ->
      Forall (fun e => forall u p, posted e = Some (u, p) ->
                u = Daemon.SLACK_POST_MESSAGE
                /\ exists text,
                     p = JDict
                           ([(lit "channel", get_or task (lit "channel_id") (JStr []));
                             (lit "text", JStr text)]
                            ++ (if truthy (get_or task (lit "thread_ts") (JStr []))
                                then [(lit "thread_ts",
                                       get_or task (lit "thread_ts") (JStr []))]
                                else [])))
        (trace (run h (process_task cfg py_str task) s))).
Proof.
  assert (Hnone : forall (Q : str -> json -> Prop) e,
             is_post e = false -> forall u p, posted e = Some (u, p) -> Q u p).
  { intros Q [X ev] He u p. unfold is_post, posted in *. cbn [projT2] in *.
    destruct ev; discriminate. }
  split.
  - intros url Hurl Hset. apply every_run, process_task_posts.
    + intros e He. apply (Hnone (fun u p => u = url /\ _) e He).
    + intros text. unfold deliver. rewrite Hurl. apply nonempty_true in Hset.
      cbn [truthy]. rewrite Hset. unfold respond_via_url, call.
      cbn [as_str lift bind every posted log projT2]. split.
      * intros u p [= <- <-]. split; [reflexivity | exists text; reflexivity].
      * intros [r | e]; exact I.
  - intros Hurl. apply every_run, process_task_posts.
    + intros e He. apply (Hnone (fun u p => u = _ /\ _) e He).
    + intros text. unfold deliver. rewrite Hurl.
      destruct (truthy (get_or task (lit "channel_id") _)); [| exact I].
      unfold post_to_slack. destruct (negb _); [exact I |].
      unfold call. cbn [bind every posted log projT2]. split.
      * intros u p [= <- <-]. split; [reflexivity |]. exists text. reflexivity.
      * intros r. apply (every_of_emits is_post); [| destruct r; emits_zero].
        intros e He. apply (Hnone (fun u p => u = _ /\ _) e He).
Qed.

Lemma X11_answers_go_one_way_witness :
  Forall (fun e => forall u p, posted e = Some (u, p) ->
            u = sample_url
            /\ exists text, p = JDict [(lit "response_type", JStr (lit "in_channel"));
                                       (lit "text", JStr text)])
    (trace (run quiet (process_task sample_config sample_str sample_task) tt))
  /\ Forall (fun e => forall u p, posted e = Some (u, p) ->
               u = Daemon.SLACK_POST_MESSAGE
               /\ exists text,
                    p = JDict [(lit "channel", JStr (lit "C456"));
                               (lit "text", JStr text);
                               (lit "thread_ts", JStr (lit "1714564800.000100"))])
       (trace (run quiet (process_task sample_config sample_str event_task) tt))
  /\ Forall (fun e => forall u p, posted e = Some (u, p) ->
               u = Daemon.SLACK_POST_MESSAGE
               /\ exists text,
                    p = JDict [(lit "channel", JStr (lit "C456"));
                               (lit "text", JStr text)])
       (trace (run quiet (process_task sample_config sample_str channel_task) tt)).
Proof.
  split; [| split].
  - apply (proj1 (X11_answers_go_one_way sample_config sample_str sample_task
                    unit quiet tt) sample_url); [reflexivity | discriminate].
  - apply (proj2 (X11_answers_go_one_way sample_config sample_str event_task
                    unit quiet tt)). reflexivity.
  - apply (proj2 (X11_answers_go_one_way sample_config sample_str channel_task
                    unit quiet tt)). reflexivity.
Defined.

(** X12: a task file that is JSON but no usable task is treated like one
    that is not JSON.  When the content is not an object, reading it raises
    [TypeError]; when the prompt is null, a number or a boolean, processing
    raises [TypeError] before any call is made, so the file is not
    deleted. *)
Theorem X12_unusable_tasks_raise
  (cfg : config) (b64decode : str -> option bytes)
  (decode_utf8 : bytes -> option str) (json_loads : str -> option json)
  (py_str : json -> str) (S : Type) (h : handler S) (s : S) :
  (forall s' path sha data b64 raw content loaded,
      h _ (HttpGet (Daemon.contents_url cfg (format_value py_str path))
             (Daemon.github_headers cfg) []) s
      = (Ok {| status_code := 200; body := Some data |}, s') ->
      subscript data (lit "content") = Ok (JStr b64) ->
      subscript data (lit "sha") = Ok sha ->
      b64decode b64 = Some raw ->
      decode_utf8 raw = Some content ->
      json_loads content = Some loaded ->
      (forall d, loaded <> JDict d) ->
      value (run h (read_task cfg b64decode decode_utf8 json_loads py_str path) s)
      = Err (error TypeError))
  /\ (forall task,
        match get_or task (lit "prompt") (JStr []) with
        | JNull | JBool _ | JInt _ | JReal _ => True
        | _ => False
        end ->
        run h (process_task cfg py_str task) s
        = {| value := Err (error TypeError); final := s; trace := [] |}).
Proof.
  split.
  - intros s' path sha data b64 raw content loaded Hh Hcontent Hsha Hb Hu Hj Hno.
    unfold read_task. rewrite run_bind, run_call, Hh.
    cbn [fst snd value final status_code Nat.eqb negb].
    rewrite run_bind. cbn [resp_json body run value final].
    unfold decode_task. rewrite Hcontent, Hb, Hu, Hj, Hsha.
    destruct loaded; try reflexivity. exfalso. exact (Hno d eq_refl).
  - intros task Hprompt. unfold process_task, field.
    destruct (get_or task (lit "prompt") (JStr [])); try contradiction; reflexivity.
Qed.

Lemma X12_unusable_tasks_raise_witness :
  run quiet
    (process_task sample_config sample_str
       [(lit "task_id", JStr (lit "3f2b8c1e")); (lit "prompt", JNull);
        (lit "_sha", JStr (lit "9b2d")); (lit "_path", JStr (lit "tasks/3f2b8c1e.json"))])
    tt
  = {| value := Err (error TypeError); final := tt; trace := [] |}.
Proof.
  apply (proj2 (X12_unusable_tasks_raise sample_config sample_b64decode
                  sample_decode_utf8 sample_json_loads sample_str unit quiet tt)).
  exact I.
Defined.

(** ** Thread context *)

Lemma context_line_labelled (msg : json) (ls : list str) :
  context_line msg = Ok ls ->
  List.length ls <= 1 /\ Forall (fun l => role_labelled l = true) ls.
Proof.
  unfold context_line. destruct msg as [| | | | | | d]; try discriminate.
  destruct (get_or d (lit "text") (JStr [])) as [| | | | text | |]; try discriminate.
  destruct (nonempty (strip_mentions text)); [| intros [= <-]; split; [cbn; lia | constructor]].
  destruct (truthy (get_or d (lit "bot_id") JNull)).
  - intros [= <-]. split; [cbn; lia |]. constructor; [reflexivity | constructor].
  - destruct (negb _); intros [= <-]; (split; [cbn; lia |]).
    + constructor; [reflexivity | constructor].
    + constructor.
Qed.

Lemma context_lines_labelled (msgs : list json) (ls : list str) :
  context_lines msgs = Ok ls ->
  List.length ls <= List.length msgs /\ Forall (fun l => role_labelled l = true) ls.
Proof.
  revert ls. induction msgs as [|msg msgs IH]; intros ls; cbn [context_lines].
  - intros [= <-]. split; [cbn; lia | constructor].
  - destruct (context_line msg) as [here | e] eqn:E; [| discriminate].
    destruct (context_lines msgs) as [more | e]; [| discriminate].
    intros [= <-]. destruct (context_line_labelled _ _ E) as [Hl Hh].
    destruct (IH more eq_refl) as [Hl' Hm]. split.
    + rewrite length_app. cbn [List.length]. lia.
    + apply Forall_app. split; assumption.
Qed.

(** X13: the last message of a thread, which is the request being
    processed, has no part in the context: replacing it by any other value
    gives the same result. *)
Theorem X13_current_request_is_left_out (earlier : list json) (a b : json) :
  format_thread_context (earlier ++ [a]) = format_thread_context (earlier ++ [b]).
Proof.
  unfold format_thread_context. rewrite !removelast_last, !length_app. reflexivity.
Qed.

(** X14: a context that is not empty is the header line followed by one
    entry for some of the earlier messages, never more entries than there
    are earlier messages, each entry labelled Bot or User, and it ends
    with a newline. *)
Theorem X14_context_shape (messages : list json) (context : str) :
  format_thread_context messages = Ok context ->
  context = []
  \/ exists entries,
       entries <> []
       /\ List.length entries <= List.length messages - 1
       /\ Forall (fun entry => role_labelled entry = true) entries
       /\ context = join nl (HEADER :: entries) ++ nl.
Proof.
  unfold format_thread_context.
  destruct (Nat.leb (List.length messages) 1); [intros [= <-]; left; reflexivity |].
  destruct (context_lines (removelast messages)) as [more | e] eqn:E; [| discriminate].
  destruct (context_lines_labelled _ _ E) as [Hlen Hall].
  destruct more as [|l more]; cbn [List.length Nat.leb].
  - intros [= <-]. left. reflexivity.
  - intros [= <-]. right. exists (l :: more). split; [discriminate |].
    split; [| split; [exact Hall | reflexivity]].
    assert (Hr : List.length (removelast messages) = List.length messages - 1).
    { destruct messages as [|m ms] using rev_ind; [reflexivity |].
      rewrite removelast_last, length_app. cbn. lia. }
    rewrite <- Hr. exact Hlen.
Qed.

Lemma X14_context_shape_witness :
  lit "Previous conversation in this thread:" ++ nl
  ++ lit "Bot: Build finished" ++ nl ++ lit "User: and the tests?" ++ nl = []
  \/ exists entries,
       entries <> []
       /\ List.length entries <= List.length sample_thread - 1
       /\ Forall (fun entry => role_labelled entry = true) entries
       /\ lit "Previous conversation in this thread:" ++ nl
          ++ lit "Bot: Build finished" ++ nl ++ lit "User: and the tests?" ++ nl
          = join nl (HEADER :: entries) ++ nl.
Proof.
  apply (X14_context_shape sample_thread). vm_compute. reflexivity.
Defined.

(** ** The matcher on text that lacks what a pattern needs *)

Import Plain.

Lemma match_items_rep_nil g lo hi k rest bos n opens caps :
  match_items (Rep g lo hi k :: rest) [] bos n opens caps
  = if Nat.eqb lo 0 then match_items rest [] bos n opens caps else None.
Proof. reflexivity. Qed.

Lemma match_items_rep_cons g lo hi k rest x s bos n opens caps :
  match_items (Rep g lo hi k :: rest) (x :: s) bos n opens caps
  = let more := if (k x && room hi)%bool
                then match_items (Rep g (pred lo) (option_map pred hi) k :: rest)
                       s bos (S n) opens caps
                else None in
    let stop := if Nat.eqb lo 0
                then match_items rest (x :: s) bos n opens caps
                else None in
    if g then match more with Some r => Some r | None => stop end
    else match stop with Some r => Some r | None => more end.
Proof. destruct g; reflexivity. Qed.

Lemma match_items_close g rest s bos n opens caps :
  match_items (Close g :: rest) s bos n opens caps
  = match lookup g opens with
    | Some (n0, s0) => match_items rest s bos n opens ((g, firstn (n - n0) s0) :: caps)
    | None => None
    end.
Proof. reflexivity. Qed.

Lemma match_items_bol rest s bos n opens caps :
  match_items (Bol :: rest) s bos n opens caps
  = if (bos && Nat.eqb n 0)%bool then match_items rest s bos n opens caps else None.
Proof. reflexivity. Qed.

Lemma match_items_eol_nil rest bos n opens caps :
  match_items (Eol :: rest) [] bos n opens caps = match_items rest [] bos n opens caps.
Proof. reflexivity. Qed.

Lemma match_items_eol rest s bos n opens caps :
  match_items (Eol :: rest) s bos n opens caps = match_items rest s bos n opens caps
  \/ match_items (Eol :: rest) s bos n opens caps = None.
Proof.
  cbn [match_items]. destruct s as [|x [|y s]]; auto.
  - destruct x as [|p]; auto. do 4 (destruct p; auto).
  - destruct x as [|p]; auto. do 4 (destruct p; auto).
Qed.

Lemma match_items_needs (cls : char -> bool) (items : list item) :
  Exists (needs cls) items ->
  forall s bos n opens caps,
    (forall x, In x s -> cls x = false) ->
    match_items items s bos n opens caps = None.
Proof.
  induction items as [|it items IH]; intros HE; [inversion HE |].
  destruct it as [c | g lo hi k | g | g | |].
  - intros s bos n opens caps Hs. rewrite match_items_chr.
    destruct s as [|x s]; [reflexivity |].
    destruct (N.eqb_spec x c) as [-> | Hne]; [| reflexivity].
    inversion HE as [? ? Hn | ? ? Hrest]; subst.
    + cbn in Hn. rewrite (Hs c (or_introl eq_refl)) in Hn. discriminate.
    + apply IH; [exact Hrest | intros y Hy; apply Hs; right; exact Hy].
  - assert (Hor : Exists (needs cls) items
                  \/ (forall x, k x = true -> cls x = true)).
    { inversion HE as [? ? Hn | ? ? Hrest]; subst; [right; apply Hn | left; exact Hrest]. }
    assert (Hlo : Exists (needs cls) items \/ lo <> 0).
    { inversion HE as [? ? Hn | ? ? Hrest]; subst; [right; apply Hn | left; exact Hrest]. }
    clear HE. intros s. revert lo hi Hlo.
    induction s as [|x s IHs]; intros lo hi Hlo bos n opens caps Hs.
    + rewrite match_items_rep_nil. destruct (Nat.eqb_spec lo 0) as [-> | Hne]; [| reflexivity].
      destruct Hlo as [Hrest | Hlo]; [| contradiction]. apply IH; assumption.
    + rewrite match_items_rep_cons. cbv zeta.
      assert (Hstop : (if Nat.eqb lo 0
                       then match_items items (x :: s) bos n opens caps
                       else None) = None).
      { destruct (Nat.eqb_spec lo 0) as [-> | Hne]; [| reflexivity].
        destruct Hlo as [Hrest | Hlo]; [| contradiction]. apply IH; assumption. }
      assert (Hmore : (if (k x && room hi)%bool
                       then match_items (Rep g (pred lo) (option_map pred hi) k :: items)
                              s bos (S n) opens caps
                       else None) = None).
      { destruct (k x) eqn:Ek; [| reflexivity].
        destruct (room hi); [| reflexivity]. cbn [andb].
        destruct Hor as [Hrest | Hk].
        - apply IHs; [left; exact Hrest | intros y Hy; apply Hs; right; exact Hy].
        - specialize (Hk x Ek). rewrite (Hs x (or_introl eq_refl)) in Hk.
          discriminate. }
      rewrite Hstop, Hmore. destruct g; reflexivity.
  - intros s bos n opens caps Hs. rewrite match_items_open.
    inversion HE as [? ? Hn | ? ? Hrest]; subst; [contradiction |]. apply IH; assumption.
  - intros s bos n opens caps Hs. rewrite match_items_close.
    inversion HE as [? ? Hn | ? ? Hrest]; subst; [contradiction |].
    destruct (lookup g opens) as [[n0 s0] |]; [| reflexivity]. apply IH; assumption.
  - intros s bos n opens caps Hs. rewrite match_items_bol.
    inversion HE as [? ? Hn | ? ? Hrest]; subst; [contradiction |].
    destruct (bos && Nat.eqb n 0)%bool; [| reflexivity]. apply IH; assumption.
  - intros s bos n opens caps Hs.
    inversion HE as [? ? Hn | ? ? Hrest]; subst; [contradiction |].
    destruct (match_items_eol items s bos n opens caps) as [-> | ->];
      [apply IH; assumption | reflexivity].
Qed.

Lemma sub_loop_needs (cls : char -> bool) (items : list item) repl (s : str) bos :
  Exists (needs cls) items ->
  (forall x, In x s -> cls x = false) ->
  sub_loop items repl s bos 0 = s.
Proof.
  intros HE. revert bos. induction s as [|x s IH]; intros bos Hs.
  - cbn [sub_loop]. unfold match_at. rewrite (match_items_needs cls items HE); auto.
  - cbn [sub_loop]. unfold match_at. rewrite (match_items_needs cls items HE); auto.
    rewrite IH; [reflexivity | intros y Hy; apply Hs; right; exact Hy].
Qed.

Lemma split_loop_needs (cls : char -> bool) (items : list item) (s : str) bos :
  Exists (needs cls) items ->
  (forall x, In x s -> cls x = false) ->
  split_loop items s bos 0 = [s].
Proof.
  intros HE. revert bos. induction s as [|x s IH]; intros bos Hs; [reflexivity |].
  cbn [split_loop]. unfold match_at. rewrite (match_items_needs cls items HE); auto.
  rewrite IH; [reflexivity | intros y Hy; apply Hs; right; exact Hy].
Qed.

(** ** Lines *)

Lemma split_on_nonempty (sep : char) (s : str) : split_on sep s <> [].
Proof.
  induction s as [|c s IH]; cbn [split_on]; [discriminate |].
  destruct (N.eqb c sep); [discriminate |].
  destruct (split_on sep s); discriminate.
Qed.

(** Splitting at newlines and joining with newlines gives the text back. *)
Lemma join_split_on (s : str) : join nl (split_on 10%N s) = s.
Proof.
  induction s as [|c s IH]; [reflexivity |].
  cbn [split_on]. destruct (N.eqb_spec c 10) as [-> | Hne].
  - pose proof (split_on_nonempty 10%N s) as Hn.
    destruct (split_on 10%N s) as [|p ps]; [contradiction |].
    change (join nl ([] :: p :: ps)) with ([] ++ nl ++ join nl (p :: ps)).
    rewrite IH. reflexivity.
  - pose proof (split_on_nonempty 10%N s) as Hn.
    destruct (split_on 10%N s) as [|p ps]; [contradiction |].
    rewrite <- IH. destruct ps; reflexivity.
Qed.

Lemma split_on_In (sep : char) (s line : str) (x : char) :
  In line (split_on sep s) -> In x line -> In x s.
Proof.
  revert line. induction s as [|c s IH]; intros line; cbn [split_on].
  - intros [<- | []] [].
  - destruct (N.eqb c sep).
    + intros [<- | Hl] Hx; [destruct Hx | right; exact (IH _ Hl Hx)].
    + pose proof (split_on_nonempty sep s) as Hn.
      destruct (split_on sep s) as [|p ps]; [contradiction |].
      intros [<- | Hl] Hx.
      * destruct Hx as [<- | Hx]; [left; reflexivity | right].
        apply (IH p); [left; reflexivity | exact Hx].
      * right. apply (IH line); [right; exact Hl | exact Hx].
Qed.

Lemma split_on_one_line (s : str) : one_line s = true -> split_on 10%N s = [s].
Proof.
  unfold one_line. induction s as [|c s IH]; [reflexivity |].
  cbn [forallb split_on]. intros H. apply andb_prop in H as [Hc Hs].
  unfold dot, isnot in Hc. apply negb_true_iff in Hc.
  rewrite N.eqb_sym, Hc, (IH Hs). reflexivity.
Qed.

Lemma lstrip_In (s : str) (x : char) : In x (lstrip s) -> In x s.
Proof.
  induction s as [|c s IH]; cbn [lstrip]; [auto |].
  destruct (isspace c); [intros H; right; auto | auto].
Qed.

Lemma strip_In (s : str) (x : char) : In x (strip s) -> In x s.
Proof.
  unfold strip, rstrip. intros H. apply in_rev in H. apply lstrip_In in H.
  apply in_rev in H. apply lstrip_In in H. exact H.
Qed.

(** ** Plain text *)

Lemma needs_fence : Exists (needs markup_char) fence_re.
Proof. apply Exists_cons_tl, Exists_cons_hd. reflexivity. Qed.

Lemma needs_header : Exists (needs markup_char) header_re.
Proof.
  do 2 apply Exists_cons_tl. apply Exists_cons_hd. split; [discriminate |].
  intros x Hx. unfold just in Hx. apply N.eqb_eq in Hx. subst x. reflexivity.
Qed.

Lemma needs_rule : Exists (needs markup_char) rule_re.
Proof. apply Exists_cons_tl, Exists_cons_hd. reflexivity. Qed.

Lemma needs_bold_italic : Exists (needs markup_char) bold_italic_re.
Proof. apply Exists_cons_hd. reflexivity. Qed.

Lemma needs_bold : Exists (needs markup_char) bold_re.
Proof. apply Exists_cons_hd. reflexivity. Qed.

Lemma needs_link : Exists (needs markup_char) link_re.
Proof. apply Exists_cons_hd. reflexivity. Qed.

Lemma needs_image : Exists (needs markup_char) image_re.
Proof. apply Exists_cons_tl, Exists_cons_hd. reflexivity. Qed.

Lemma needs_strike : Exists (needs markup_char) strike_re.
Proof. apply Exists_cons_hd. reflexivity. Qed.

Lemma needs_bullet : Exists (needs markup_char) bullet_re.
Proof. do 4 apply Exists_cons_tl. apply Exists_cons_hd. reflexivity. Qed.

Lemma plain_In (s : str) :
  plain s = true -> forall x, In x s -> markup_char x = false.
Proof.
  unfold plain. rewrite forallb_forall. intros H x Hx.
  apply negb_true_iff, H, Hx.
Qed.

Lemma convert_line_plain (line : str) :
  (forall x, In x line -> markup_char x = false) -> convert_line line = line.
Proof.
  intros Hl. unfold convert_line, re_match, match_at, re_sub.
  rewrite (match_items_needs _ _ needs_header) by exact Hl.
  rewrite (match_items_needs _ _ needs_rule)
    by (intros x Hx; apply Hl, strip_In, Hx).
  cbn [option_map].
  rewrite (sub_loop_needs _ _ _ _ _ needs_bold_italic Hl).
  rewrite (sub_loop_needs _ _ _ _ _ needs_bold Hl).
  rewrite (sub_loop_needs _ _ _ _ _ needs_link Hl).
  rewrite (sub_loop_needs _ _ _ _ _ needs_image Hl).
  rewrite (sub_loop_needs _ _ _ _ _ needs_strike Hl).
  rewrite (match_items_needs _ _ needs_bullet) by exact Hl.
  reflexivity.
Qed.

Lemma convert_text_plain (part : str) :
  (forall x, In x part -> markup_char x = false) -> convert_text part = part.
Proof.
  intros Hp. unfold convert_text.
  rewrite (map_ext_in convert_line (fun l => l)).
  - rewrite map_id. apply join_split_on.
  - intros line Hline. apply convert_line_plain.
    intros x Hx. apply Hp. exact (split_on_In _ _ _ _ Hline Hx).
Qed.

(** X15: text that contains none of the characters the patterns look for
    (number sign, asterisk, hyphen, opening square bracket, tilde, backtick)
    is returned as it is, whatever its length and however many lines it
    has. *)
Theorem X15_plain_text_is_unchanged (text : str) :
  plain text = true -> markdown_to_slack text = text.
Proof.
  intros Hp. pose proof (plain_In text Hp) as Hin.
  unfold markdown_to_slack, re_split.
  rewrite (split_loop_needs _ _ _ _ needs_fence Hin).
  cbn [convert_parts Nat.odd concat]. rewrite app_nil_r.
  apply convert_text_plain, Hin.
Qed.

Lemma X15_plain_text_is_unchanged_witness :
  markdown_to_slack (lit "All 12 tests passed." ++ nl ++ lit "Nothing to do (yet)!")
  = lit "All 12 tests passed." ++ nl ++ lit "Nothing to do (yet)!".
Proof. apply X15_plain_text_is_unchanged. reflexivity. Defined.

(** ** Greedy repetition

    A greedy repetition that can take all of a run of characters of its
    class, and after which the rest of the pattern matches, takes them
    all. *)

Lemma rep_takes_all (k : char -> bool) (rest : list item) (p r : str)
  bos opens caps res :
  forall n lo hi,
    forallb k p = true ->
    match r with [] => True | y :: _ => k y = false end ->
    lo <= List.length p ->
    match hi with Some h => List.length p <= h | None => True end ->
    match_items rest r bos (n + List.length p) opens caps = Some res ->
    match_items (Rep true lo hi k :: rest) (p ++ r) bos n opens caps = Some res.
Proof.
  induction p as [|a p IH]; intros n lo hi Hp Hr Hlo Hhi Hrest.
  - cbn [List.length] in *. rewrite Nat.add_0_r in Hrest.
    assert (lo = 0) by lia. subst lo. cbn [app].
    destruct r as [|y r].
    + rewrite match_items_rep_nil. exact Hrest.
    + rewrite match_items_rep_cons. cbv zeta. rewrite Hr. cbn [andb Nat.eqb].
      exact Hrest.
  - cbn [forallb] in Hp. apply andb_prop in Hp as [Ha Hp].
    cbn [app]. rewrite match_items_rep_cons. cbv zeta. rewrite Ha.
    assert (Hroom : room hi = true).
    { destruct hi as [[|h] |]; cbn in *; [lia | reflexivity | reflexivity]. }
    rewrite Hroom. cbn [andb].
    rewrite (IH (S n) (pred lo) (option_map pred hi)); [reflexivity | exact Hp | exact Hr | | |].
    + cbn [List.length] in Hlo. lia.
    + destruct hi as [h |]; cbn [option_map]; [cbn [List.length] in Hhi; lia | exact I].
    + cbn [List.length] in Hrest. rewrite <- Hrest. f_equal. lia.
Qed.

Lemma sub_loop_skip items repl (p r : str) :
  sub_loop items repl (p ++ r) false (List.length p) = sub_loop items repl r false 0.
Proof.
  induction p as [|a p IH]; [reflexivity |].
  cbn [app List.length sub_loop]. exact IH.
Qed.

Lemma sub_loop_skip2 items repl (a b r : str) :
  sub_loop items repl (a ++ b ++ r) false (List.length a + List.length b)
  = sub_loop items repl r false 0.
Proof.
  rewrite app_assoc, <- length_app. apply sub_loop_skip.
Qed.

Lemma lstrip_spaces (ws s : str) :
  forallb isspace ws = true -> lstrip (ws ++ s) = lstrip s.
Proof.
  induction ws as [|c ws IH]; [reflexivity |].
  cbn [forallb app lstrip]. intros H. apply andb_prop in H as [Hc Hws].
  rewrite Hc. exact (IH Hws).
Qed.

Lemma lstrip_solid (x : char) (s : str) : isspace x = false -> lstrip (x :: s) = x :: s.
Proof. intros H. cbn [lstrip]. rewrite H. reflexivity. Qed.

Lemma forallb_rev {A} (f : A -> bool) (l : list A) :
  forallb f l = true -> forallb f (rev l) = true.
Proof.
  rewrite !forallb_forall. intros H x Hx. apply H, in_rev, Hx.
Qed.

Lemma rep_takes_rest (k : char -> bool) (rest : list item) (p : str)
  bos opens caps res n lo hi :
  forallb k p = true ->
  lo <= List.length p ->
  match hi with Some h => List.length p <= h | None => True end ->
  match_items rest [] bos (n + List.length p) opens caps = Some res ->
  match_items (Rep true lo hi k :: rest) p bos n opens caps = Some res.
Proof.
  intros Hp Hlo Hhi Hrest. rewrite <- (app_nil_r p) at 1.
  apply rep_takes_all; auto; exact I.
Qed.

Lemma isspace_not (c : char) (x : char) :
  isspace c = false -> isspace x = true -> N.eqb x c = false.
Proof.
  intros Hc Hx. destruct (N.eqb_spec x c) as [-> |]; [congruence | reflexivity].
Qed.

Lemma forallb_weaken {A} (f g : A -> bool) (l : list A) :
  (forall x, f x = true -> g x = true) -> forallb f l = true -> forallb g l = true.
Proof.
  intros H. rewrite !forallb_forall. auto.
Qed.

Lemma forallb3 {A} (f : A -> bool) (a b c : list A) :
  forallb f a = true -> forallb f b = true -> forallb f c = true ->
  forallb f (a ++ b ++ c) = true.
Proof. intros Ha Hb Hc. rewrite !forallb_app, Ha, Hb, Hc. reflexivity. Qed.

Lemma forallb_repeat {A} (f : A -> bool) (x : A) (n : nat) :
  f x = true -> forallb f (repeat x n) = true.
Proof. intros H. induction n; cbn; [reflexivity | rewrite H; exact IHn]. Qed.

Lemma no_fence_pieces (text : str) :
  no_backtick text = true -> re_split fence_re text = [text].
Proof.
  intros H. unfold re_split.
  apply (split_loop_needs (fun c => N.eqb c 96)).
  - apply Exists_cons_tl, Exists_cons_hd. reflexivity.
  - unfold no_backtick in H. rewrite forallb_forall in H.
    intros x Hx. apply negb_true_iff, H, Hx.
Qed.

(** A text of one line without a backtick is translated as its one line. *)
Lemma one_line_translation (text : str) :
  no_backtick text = true -> one_line text = true ->
  markdown_to_slack text = convert_line text.
Proof.
  intros Hb Hl. unfold markdown_to_slack. rewrite (no_fence_pieces text Hb).
  cbn [convert_parts Nat.odd concat]. rewrite app_nil_r.
  unfold convert_text. rewrite (split_on_one_line text Hl). reflexivity.
Qed.

(** ** Headings *)

Lemma header_match (level : nat) (gap title : str) :
  1 <= level <= 6 ->
  gap <> [] -> forallb isspace gap = true ->
  match title with t0 :: _ => isspace t0 = false | [] => False end ->
  one_line title = true ->
  exists caps,
    re_match header_re (repeat (ch "#") level ++ gap ++ title) = Some caps
    /\ group caps 2 = title.
Proof.
  intros Hlevel Hgap Hspaces Hfirst Hline.
  set (text := repeat (ch "#") level ++ gap ++ title).
  eexists. unfold re_match, match_at, header_re, plus.
  rewrite match_items_bol. cbn [andb Nat.eqb]. rewrite match_items_open.
  unfold text at 1.
  erewrite (rep_takes_all (just (ch "#"))); cycle 1.
  - apply forallb_repeat. reflexivity.
  - destruct gap as [|g0 gap']; [contradiction |]. cbn [app].
    cbn [forallb] in Hspaces. apply andb_prop in Hspaces as [Hg0 _].
    unfold just. rewrite N.eqb_sym. apply (isspace_not (ch "#") g0 eq_refl Hg0).
  - rewrite repeat_length. lia.
  - rewrite repeat_length. lia.
  - rewrite match_items_close. cbn [lookup Nat.eqb].
    erewrite (rep_takes_all isspace).
    + reflexivity.
    + exact Hspaces.
    + destruct title as [|t0 t']; [contradiction | exact Hfirst].
    + destruct gap; [contradiction | cbn; lia].
    + exact I.
    + rewrite match_items_open.
      erewrite (rep_takes_rest dot).
      * reflexivity.
      * exact Hline.
      * destruct title; [contradiction | cbn; lia].
      * exact I.
      * rewrite match_items_close. cbn [lookup Nat.eqb].
        rewrite match_items_eol_nil. reflexivity.
  - cbn [option_map snd]. split; [reflexivity |].
    cbn [group lookup Nat.eqb].
    replace (0 + List.length (repeat (ch "#") level) + List.length gap
             + List.length title
             - (0 + List.length (repeat (ch "#") level) + List.length gap))
      with (List.length title) by lia.
    apply firstn_all.
Qed.

(** X16: a line of one to six number signs, whitespace and a title that
    does not begin with whitespace is translated to the title between two
    asterisks, for any title of one line without a backtick. *)
Theorem X16_headings_become_bold (level : nat) (gap title : str) :
  1 <= level <= 6 ->
  gap <> [] ->
  forallb blank gap = true ->
  match title with t0 :: _ => isspace t0 = false | [] => False end ->
  one_line title = true ->
  no_backtick title = true ->
  markdown_to_slack (repeat (ch "#") level ++ gap ++ title)
  = lit "*" ++ title ++ lit "*".
Proof.
  intros Hlevel Hgap Hspaces Hfirst Hline Hback.
  assert (Hs : forallb isspace gap = true).
  { revert Hspaces. apply forallb_weaken. intros x Hx.
    apply andb_prop in Hx as [Hx _]. exact Hx. }
  assert (Hgl : one_line gap = true).
  { revert Hspaces. apply forallb_weaken. intros x Hx.
    apply andb_prop in Hx as [_ Hx]. exact Hx. }
  assert (Hgb : no_backtick gap = true).
  { revert Hs. apply forallb_weaken. intros x Hx.
    rewrite (isspace_not 96%N x eq_refl Hx). reflexivity. }
  rewrite one_line_translation.
  - unfold convert_line.
    destruct (header_match level gap title Hlevel Hgap Hs Hfirst Hline)
      as (caps & -> & ->).
    reflexivity.
  - apply forallb3; [apply forallb_repeat; reflexivity | exact Hgb | exact Hback].
  - apply forallb3; [apply forallb_repeat; reflexivity | exact Hgl | exact Hline].
Qed.

Lemma X16_headings_become_bold_witness :
  markdown_to_slack (lit "#### Release notes (v2)") = lit "*Release notes (v2)*".
Proof.
  apply (X16_headings_become_bold 4 (lit " ") (lit "Release notes (v2)"));
    try reflexivity; try discriminate.
  split; repeat constructor.
Defined.

(** ** Horizontal rules *)

Lemma strip_run (lead trail : str) (d : char) (n : nat) :
  forallb isspace lead = true -> forallb isspace trail = true ->
  isspace d = false -> 1 <= n ->
  strip (lead ++ repeat d n ++ trail) = repeat d n.
Proof.
  intros Hlead Htrail Hd Hn. unfold strip, rstrip.
  rewrite (lstrip_spaces lead _ Hlead).
  destruct n as [|n]; [lia |].
  change (repeat d (S n) ++ trail) with (d :: repeat d n ++ trail).
  rewrite (lstrip_solid d _ Hd).
  change (d :: repeat d n ++ trail) with (repeat d (S n) ++ trail).
  rewrite rev_app_distr, (lstrip_spaces (rev trail) _ (forallb_rev _ _ Htrail)).
  rewrite rev_repeat. change (repeat d (S n)) with (d :: repeat d n).
  rewrite (lstrip_solid d _ Hd). change (d :: repeat d n) with (repeat d (S n)).
  apply rev_repeat.
Qed.

Lemma rule_match (n : nat) :
  3 <= n -> re_match rule_re (repeat (ch "-") n) <> None.
Proof.
  intros Hn. destruct n as [|[|[|n]]]; try lia.
  unfold re_match, match_at, rule_re, plus.
  change (chars "--") with [Chr (ch "-"); Chr (ch "-")]. cbn [app].
  rewrite match_items_bol. cbn [andb Nat.eqb repeat].
  rewrite !match_items_chr, N.eqb_refl.
  erewrite (rep_takes_rest (just (ch "-")) _ (ch "-" :: repeat (ch "-") n)).
  - discriminate.
  - apply (forallb_repeat _ _ (S n)). reflexivity.
  - cbn; lia.
  - exact I.
  - rewrite match_items_eol_nil. reflexivity.
Qed.

(** X17: a line of three or more hyphens, with or without whitespace around
    them, is translated to the empty line. *)
Theorem X17_rules_become_empty_lines (lead trail : str) (n : nat) :
  3 <= n ->
  forallb blank lead = true ->
  forallb blank trail = true ->
  markdown_to_slack (lead ++ repeat (ch "-") n ++ trail) = [].
Proof.
  intros Hn Hlead Htrail.
  assert (Hsp : forall ws, forallb blank ws = true ->
                forallb isspace ws = true /\ one_line ws = true
                /\ no_backtick ws = true
                /\ forallb (fun c => negb (N.eqb c 35)) ws = true).
  { intros ws H. repeat split; revert H; apply forallb_weaken; intros x Hx;
      apply andb_prop in Hx as [Hs Hnl]; auto;
      [rewrite (isspace_not 96%N x eq_refl Hs) | rewrite (isspace_not 35%N x eq_refl Hs)];
      reflexivity. }
  destruct (Hsp lead Hlead) as (Hl1 & Hl2 & Hl3 & Hl4).
  destruct (Hsp trail Htrail) as (Ht1 & Ht2 & Ht3 & Ht4).
  rewrite one_line_translation.
  - unfold convert_line.
    replace (re_match header_re (lead ++ repeat (ch "-") n ++ trail)) with (@None captures).
    + rewrite (strip_run lead trail (ch "-") n Hl1 Ht1 eq_refl); [| lia].
      destruct (re_match rule_re (repeat (ch "-") n)) eqn:E; [reflexivity |].
      exfalso. exact (rule_match n Hn E).
    + symmetry. unfold re_match, match_at.
      rewrite (match_items_needs (fun c => N.eqb c 35)); [reflexivity | |].
      * do 2 apply Exists_cons_tl. apply Exists_cons_hd. split; [discriminate |].
        intros x Hx. unfold just in Hx. rewrite N.eqb_sym. exact Hx.
      * assert (Hall : forallb (fun c => negb (N.eqb c 35))
                         (lead ++ repeat (ch "-") n ++ trail) = true).
        { apply forallb3; [exact Hl4 | apply forallb_repeat; reflexivity | exact Ht4]. }
        rewrite forallb_forall in Hall. intros x Hx. apply negb_true_iff, Hall, Hx.
  - apply forallb3; [exact Hl3 | apply forallb_repeat; reflexivity | exact Ht3].
  - apply forallb3; [exact Hl2 | apply forallb_repeat; reflexivity | exact Ht2].
Qed.

Lemma X17_rules_become_empty_lines_witness :
  markdown_to_slack (lit "  -----  ") = [].
Proof.
  apply (X17_rules_become_empty_lines (lit "  ") (lit "  ") 5); [lia | | ]; reflexivity.
Defined.

(** ** Mentions *)

(** X18: a mention at the start of a text is removed together with the
    whitespace after it; what is left, when it holds no other opening
    angle bracket, is the rest of the text, stripped. *)
Theorem X18_leading_mention_is_removed (id gap rest : str) :
  id <> [] ->
  forallb upper_or_digit id = true ->
  forallb isspace gap = true ->
  match rest with r0 :: _ => isspace r0 = false | [] => True end ->
  forallb (fun c => negb (N.eqb c 60)) rest = true ->
  strip_mentions (lit "<@" ++ id ++ lit ">" ++ gap ++ rest) = strip rest.
Proof.
  intros Hid Hclass Hgap Hfirst Hrest.
  unfold strip_mentions, re_sub. f_equal.
  change (lit "<@" ++ id ++ lit ">" ++ gap ++ rest)
    with (ch "<" :: (ch "@" :: id) ++ (ch ">" :: gap) ++ rest).
  cbn [sub_loop].
  assert (Hm : match_at mention_re
                 (ch "<" :: (ch "@" :: id) ++ (ch ">" :: gap) ++ rest) true
               = Some (S (List.length (ch "@" :: id) + List.length (ch ">" :: gap)), [])).
  { unfold match_at, mention_re, plus, star.
    change (chars "<@") with [Chr (ch "<"); Chr (ch "@")].
    change (chars ">") with [Chr (ch ">")].
    cbn [app]. rewrite !match_items_chr, !N.eqb_refl.
    erewrite (rep_takes_all upper_or_digit).
    - reflexivity.
    - exact Hclass.
    - reflexivity.
    - destruct id; [contradiction | cbn; lia].
    - exact I.
    - rewrite match_items_chr, N.eqb_refl.
      erewrite (rep_takes_all isspace).
      + reflexivity.
      + exact Hgap.
      + destruct rest; [exact I | exact Hfirst].
      + lia.
      + exact I.
      + cbn [match_items List.length]. f_equal. f_equal. lia. }
  rewrite Hm. cbv beta iota. rewrite sub_loop_skip2. cbn [app].
  apply (sub_loop_needs (fun c => N.eqb c 60)).
  - apply Exists_cons_hd. reflexivity.
  - rewrite forallb_forall in Hrest. intros x Hx. apply negb_true_iff, Hrest, Hx.
Qed.

Lemma X18_leading_mention_is_removed_witness :
  strip_mentions (lit "<@U0123ABC>  deploy the site ") = lit "deploy the site".
Proof.
  refine (X18_leading_mention_is_removed (lit "U0123ABC") (lit "  ")
            (lit "deploy the site ") _ _ _ _ _); try reflexivity.
  discriminate.
Defined.

(** ** The worker: the webhook route *)

Lemma at_most_lift {A} P n (r : result A) : at_most P n (lift r).
Proof. destruct r; exact I. Qed.

Lemma at_most_call {X} P (ev : event X) : at_most P 1 (call ev).
Proof. unfold call. cbn. destruct (P _); intros r; apply at_most_lift. Qed.

Section Route.

Variable float_of_str : str -> option pyfloat.
Variable encode_utf8 : str -> bytes.
Variable decode_utf8 : bytes -> option str.
Variable hmac_sha256_hexdigest : bytes -> bytes -> str.
Variable json_loads : bytes -> option json.
Variable parse_qs : str -> list (str * list str).
Variable secret : str.

Local Abbreviation verify :=
  (verify_slack_signature float_of_str encode_utf8 decode_utf8
     hmac_sha256_hexdigest secret).
Local Abbreviation events :=
  (slack_events float_of_str encode_utf8 decode_utf8
     hmac_sha256_hexdigest json_loads parse_qs secret).

Lemma slash_at_most_one P (payload : dict) : at_most P 1 (handle_slash_command payload).
Proof.
  unfold handle_slash_command.
  apply (at_most_bind _ 0 1); [apply at_most_lift | intros text].
  apply (at_most_bind _ 1 0); [apply at_most_call | intros _; exact I].
Qed.

Lemma events_at_most_one P (now : pyfloat) (req : request) : at_most P 1 (events now req).
Proof.
  unfold slack_events.
  apply (at_most_bind _ 0 1); [apply at_most_lift | intros ok].
  destruct (negb ok); [exact I |].
  destruct (contains _ _).
  - destruct (decode_utf8 _); [apply slash_at_most_one | exact I].
  - destruct (json_loads _) as [payload |]; [| exact I].
    apply (at_most_bind _ 0 1); [apply at_most_lift | intros type].
    destruct (is_str type _).
    { apply (at_most_bind _ 0 1); [apply at_most_lift | intros c; exact I]. }
    destruct (is_str type _); [| exact I].
    apply (at_most_bind _ 0 1); [apply at_most_lift | intros event].
    apply (at_most_bind _ 0 1); [apply at_most_lift | intros bot_id].
    apply (at_most_bind _ 0 1); [apply at_most_lift | intros subtype].
    destruct (_ || _)%bool; [exact I |].
    apply (at_most_bind _ 1 0); [apply at_most_call | intros _; exact I].
Qed.

Lemma events_only_schedule (now : pyfloat) (req : request) :
  emits (fun e => negb (is_create_task e)) 0 (events now req).
Proof. unfold slack_events, handle_slash_command. emits_zero. Qed.

End Route.

(** X19: handling one request makes no call of its own to GitHub or to
    Slack: all the route does besides answering is to schedule at most one
    background job. *)
Theorem X19_route_schedules_at_most_one_job
  (float_of_str : str -> option pyfloat) (encode_utf8 : str -> bytes)
  (decode_utf8 : bytes -> option str) (hmac_sha256_hexdigest : bytes -> bytes -> str)
  (json_loads : bytes -> option json) (parse_qs : str -> list (str * list str))
  (secret : str) (now : pyfloat) (req : request) (S : Type) (h : handler S) (s : S) :
  List.length
    (trace (run h (slack_events float_of_str encode_utf8 decode_utf8
                     hmac_sha256_hexdigest json_loads parse_qs secret now req) s)) <= 1
  /\ forallb is_create_task
       (trace (run h (slack_events float_of_str encode_utf8 decode_utf8
                        hmac_sha256_hexdigest json_loads parse_qs secret now req) s))
     = true.
Proof.
  split.
  - rewrite <- count_all. apply at_most_run, events_at_most_one.
  - apply only_run, events_only_schedule.
Qed.

(** X20: with a secret configured, a request whose timestamp header is
    missing or is not a number, or for which the difference between the
    current time and the timestamp, computed in double precision, exceeds
    300, as it does whenever the two are 301 seconds or more apart, is
    answered with status 401 and the text Invalid signature, and nothing
    else is done with it. *)
Theorem X20_unverified_requests_get_401
  (float_of_str : str -> option pyfloat) (encode_utf8 : str -> bytes)
  (decode_utf8 : bytes -> option str) (hmac_sha256_hexdigest : bytes -> bytes -> str)
  (json_loads : bytes -> option json) (parse_qs : str -> list (str * list str))
  (secret : str) (now : pyfloat) (req : request) :
  secret <> [] ->
  float_of_str (header (x_slack_request_timestamp req)) = None
  \/ (exists t,
        float_of_str (header (x_slack_request_timestamp req)) = Some t
        /\ (stale now t = true
            \/ (is_double now = true /\ is_double t = true
                /\ (301 <= seconds_apart now t)%Q))) ->
  slack_events float_of_str encode_utf8 decode_utf8 hmac_sha256_hexdigest
    json_loads parse_qs secret now req
  = Ret (TextReply 401 (lit "Invalid signature")).
Proof.
  intros Hsecret Hts. apply nonempty_true in Hsecret.
  unfold slack_events, verify_slack_signature. rewrite Hsecret. cbn [negb].
  destruct Hts as [-> | (t & -> & Hfar)]; [reflexivity |].
  rewrite (stale_if_far _ _ Hfar). reflexivity.
Qed.

Lemma X20_unverified_requests_get_401_witness :
  slack_events sample_float ascii_bytes sample_decode_utf8 sample_hmac
    sample_json_loads_bytes sample_parse_qs sample_secret
    (float_of_int 1531421000) bot_request
  = Ret (TextReply 401 (lit "Invalid signature")).
Proof.
  apply X20_unverified_requests_get_401.
  - discriminate.
  - right. exists (float_of_int 1531420618). split; [reflexivity |].
    right. split; [reflexivity |]. split; [reflexivity |].
    vm_compute. discriminate.
Defined.

(** X21: a verified JSON request of type url_verification is answered with
    its own challenge, and a request of that type without a challenge
    raises [KeyError]. *)
Theorem X21_handshake_echoes_the_challenge
  (float_of_str : str -> option pyfloat) (encode_utf8 : str -> bytes)
  (decode_utf8 : bytes -> option str) (hmac_sha256_hexdigest : bytes -> bytes -> str)
  (json_loads : bytes -> option json) (parse_qs : str -> list (str * list str))
  (secret : str) (now : pyfloat) (req : request) (payload : dict) :
  verify_slack_signature float_of_str encode_utf8 decode_utf8 hmac_sha256_hexdigest
    secret now (req_body req) (header (x_slack_request_timestamp req))
    (header (x_slack_signature req)) = Ok true ->
  contains FORM_ENCODED (header (content_type req)) = false ->
  json_loads (req_body req) = Some (JDict payload) ->
  get_or payload (lit "type") JNull = JStr (lit "url_verification") ->
  slack_events float_of_str encode_utf8 decode_utf8 hmac_sha256_hexdigest
    json_loads parse_qs secret now req
  = match dict_get payload (lit "challenge") with
    | Some challenge => Ret (JsonReply (JDict [(lit "challenge", challenge)]))
    | None => Raise (error KeyError)
    end.
Proof.
  intros Hv Hform Hjson Htype. unfold slack_events.
  rewrite Hv. cbn [lift bind negb]. rewrite Hform, Hjson.
  cbn [py_get lift bind]. rewrite Htype. cbn [is_str]. rewrite str_eqb_refl.
  cbn [subscript]. destruct (dict_get payload (lit "challenge")); reflexivity.
Qed.

Lemma X21_handshake_echoes_the_challenge_witness :
  slack_events sample_float ascii_bytes sample_decode_utf8 sample_hmac
    sample_json_loads_challenge sample_parse_qs [] sample_now challenge_request
  = Ret (JsonReply
           (JDict [(lit "challenge",
                    JStr (lit "3eZbrw1aBm2rZgRNFdxV2595E9CY3gmdALWMmHkvFXO7tYXAYM8P"))])).
Proof.
  exact (X21_handshake_echoes_the_challenge sample_float ascii_bytes sample_decode_utf8
           sample_hmac sample_json_loads_challenge sample_parse_qs [] sample_now
           challenge_request
           [(lit "token", JStr (lit "Jhj5dZrVaK7ZwHHjRyZWjbDl"));
            (lit "challenge",
             JStr (lit "3eZbrw1aBm2rZgRNFdxV2595E9CY3gmdALWMmHkvFXO7tYXAYM8P"));
            (lit "type", JStr (lit "url_verification"))]
           eq_refl eq_refl eq_refl eq_refl).
Defined.

(** ** Signatures that are not accepted *)

Section Rejected.

Variable float_of_str : str -> option pyfloat.
Variable encode_utf8 : str -> bytes.
Variable decode_utf8 : bytes -> option str.
Variable hmac_sha256_hexdigest : bytes -> bytes -> str.
Variable secret : str.

Hypothesis secret_set : secret <> [].
Hypothesis encode_app :
  forall a b, encode_utf8 (a ++ b) = encode_utf8 a ++ encode_utf8 b.
Hypothesis encode_decode :
  forall b s, decode_utf8 b = Some s -> encode_utf8 s = b.
Hypothesis hexdigest_ascii :
  forall k m, is_ascii (hmac_sha256_hexdigest k m) = true.

Local Abbreviation verify :=
  (verify_slack_signature float_of_str encode_utf8 decode_utf8
     hmac_sha256_hexdigest secret).
Local Abbreviation signed :=
  (slack_signature encode_utf8 hmac_sha256_hexdigest secret).

(** Once the replay check is passed, the signature is compared with the
    digest of the timestamp and the raw body. *)
Lemma verify_compares (now : pyfloat) (body : bytes) (timestamp signature text : str)
  (t : pyfloat) :
  float_of_str timestamp = Some t -> stale now t = false ->
  decode_utf8 body = Some text ->
  verify now body timestamp signature
  = compare_digest (signed timestamp body) signature.
Proof.
  intros Hts Hfresh Hbody.
  assert (Hsec : nonempty secret = true) by (apply nonempty_true; exact secret_set).
  unfold verify_slack_signature. rewrite Hsec. cbn [negb].
  rewrite Hts, Hfresh, Hbody.
  rewrite !encode_app, (encode_decode _ _ Hbody). reflexivity.
Qed.

Lemma signed_ascii (timestamp : str) (body : bytes) :
  is_ascii (signed timestamp body) = true.
Proof. unfold slack_signature. rewrite is_ascii_app, hexdigest_ascii. reflexivity. Qed.

(** X22: with a secret configured, a timestamp that is not a number is
    rejected; a fresh request (one that passes the replay test, as every
    request within 300 seconds of the current time does) whose signature
    is not the digest of its timestamp and body is rejected when the
    signature is ASCII text, and raises [TypeError] when it is not. *)
Theorem X22_wrong_signatures_are_rejected
  (now : pyfloat) (body : bytes) (timestamp signature : str) :
  (float_of_str timestamp = None -> verify now body timestamp signature = Ok false)
  /\ (forall t text,
        float_of_str timestamp = Some t ->
        stale now t = false
        \/ (is_double now = true /\ is_double t = true
            /\ (seconds_apart now t <= 300)%Q) ->
        decode_utf8 body = Some text ->
        signature <> signed timestamp body ->
        verify now body timestamp signature
        = if is_ascii signature then Ok false else Err (error TypeError)).
Proof.
  split.
  - intros Hts.
    assert (Hsec : nonempty secret = true) by (apply nonempty_true; exact secret_set).
    unfold verify_slack_signature. rewrite Hsec, Hts. reflexivity.
  - intros t text Hts Hnear Hbody Hsig.
    rewrite (verify_compares now body timestamp signature text t Hts
               (fresh_if_near _ _ Hnear) Hbody).
    unfold compare_digest. rewrite signed_ascii. cbn [andb].
    destruct (is_ascii signature); [| reflexivity].
    assert (Hne : str_eqb (signed timestamp body) signature = false).
    { apply str_eqb_neq. congruence. }
    rewrite Hne. reflexivity.
Qed.

Lemma stale_nan (now : pyfloat) : stale now S754_nan = false.
Proof. destruct now; reflexivity. Qed.

(** X23: a timestamp that [float] reads as not-a-number passes the replay
    check at any time: the comparison with 300 is false for it, so the
    request is accepted whenever its signature is right. *)
Theorem X23_nan_timestamp_is_never_stale
  (now : pyfloat) (body : bytes) (timestamp text : str) :
  float_of_str timestamp = Some S754_nan ->
  decode_utf8 body = Some text ->
  verify now body timestamp (signed timestamp body) = Ok true.
Proof.
  intros Hts Hbody.
  rewrite (verify_compares now body timestamp _ text S754_nan Hts (stale_nan now) Hbody).
  unfold compare_digest. rewrite signed_ascii, str_eqb_refl. reflexivity.
Qed.

End Rejected.

Lemma X22_wrong_signatures_are_rejected_witness :
  verify_slack_signature sample_float ascii_bytes sample_decode_utf8 sample_hmac
    sample_secret sample_now sample_body (lit "yesterday") (lit "v0=00")
  = Ok false
  /\ verify_slack_signature sample_float ascii_bytes sample_decode_utf8 sample_hmac
       sample_secret sample_now sample_body (lit "1531420618") (lit "v0=00")
     = Ok false.
Proof.
  destruct (X22_wrong_signatures_are_rejected sample_float ascii_bytes
              sample_decode_utf8 sample_hmac sample_secret sample_secret_set
              ascii_bytes_app ascii_bytes_decode sample_hmac_ascii
              sample_now sample_body (lit "yesterday") (lit "v0=00")) as [Hbad _].
  destruct (X22_wrong_signatures_are_rejected sample_float ascii_bytes
              sample_decode_utf8 sample_hmac sample_secret sample_secret_set
              ascii_bytes_app ascii_bytes_decode sample_hmac_ascii
              sample_now sample_body (lit "1531420618") (lit "v0=00")) as [_ Hwrong].
  split; [apply Hbad; reflexivity |].
  apply (Hwrong sample_now (lit "token=xyz&command=%2Fclaude&text=help")).
  - reflexivity.
  - right. split; [reflexivity |]. split; [reflexivity |].
    vm_compute. discriminate.
  - reflexivity.
  - discriminate.
Defined.

Lemma X23_nan_timestamp_is_never_stale_witness :
  verify_slack_signature sample_float_nan ascii_bytes sample_decode_utf8 sample_hmac
    sample_secret sample_now sample_body (lit "nan")
    (slack_signature ascii_bytes sample_hmac sample_secret (lit "nan") sample_body)
  = Ok true.
Proof.
  apply (X23_nan_timestamp_is_never_stale sample_float_nan ascii_bytes
           sample_decode_utf8 sample_hmac sample_secret sample_secret_set
           ascii_bytes_app ascii_bytes_decode sample_hmac_ascii
           sample_now sample_body (lit "nan")
           (lit "token=xyz&command=%2Fclaude&text=help")); reflexivity.
Defined.

(** ** The worker: replies and the task file *)

Section Replies.

Variable str_lower : str -> str.
Variable json_dumps : json -> str.
Variable b64encode : str -> str.
Variable self : JobHandler.

Lemma respond_at_most_one channel_id text response_url thread_ts :
  at_most is_post 1 (_respond self channel_id text response_url thread_ts).
Proof.
  unfold _respond. destruct (truthy response_url).
  - apply (at_most_bind _ 0 1); [apply at_most_lift | intros url].
    apply (at_most_bind _ 1 0); [apply at_most_call | intros _; exact I].
  - destruct (_ && _)%bool; [| exact I].
    apply (at_most_bind _ 1 0); [apply at_most_call | intros resp].
    apply at_most_of_emits. emits_zero.
Qed.

Lemma write_file_no_post path content message :
  emits is_post 0 (write_file b64encode (github self) path content message).
Proof. unfold write_file, _get_file_sha. emits_zero. Qed.

Lemma dispatch_at_most_one text user_id channel_id response_url thread_ts :
  at_most is_post 1
    (dispatch str_lower json_dumps b64encode self text
       user_id channel_id response_url thread_ts).
Proof.
  unfold dispatch.
  destruct (one_of _ _); [apply respond_at_most_one |].
  destruct (one_of _ _); [apply respond_at_most_one |].
  unfold _dispatch_to_daemon.
  apply (at_most_bind _ 0 1);
    [apply at_most_of_emits, emits_call_0; reflexivity | intros uuid].
  apply (at_most_bind _ 0 1);
    [apply at_most_of_emits, emits_call_0; reflexivity | intros created_at].
  apply (at_most_bind _ 0 1);
    [apply at_most_of_emits, write_file_no_post | intros ok].
  destruct ok; [exact I | apply respond_at_most_one].
Qed.

(** Without a callback URL a reply goes to [chat.postMessage]. *)
Lemma respond_in_channel channel_id text thread_ts :
  emits (is_post_elsewhere Worker.SLACK_POST_MESSAGE) 0
    (_respond self channel_id text (JStr []) thread_ts).
Proof.
  unfold _respond. cbn [truthy nonempty].
  destruct (_ && _)%bool; [| reflexivity].
  apply emits_bind_0; [| intros resp; emits_zero].
  apply emits_call_0. unfold is_post_elsewhere, is_post, is_post_to.
  cbn [log projT2]. rewrite str_eqb_refl. reflexivity.
Qed.

Lemma handle_event_in_channel (event : json) :
  emits (is_post_elsewhere Worker.SLACK_POST_MESSAGE) 0
    (handle_event str_lower json_dumps b64encode self event).
Proof.
  unfold handle_event. destruct event; try exact I.
  apply emits_bind_0; [apply emits_lift | intros text].
  unfold dispatch.
  destruct (one_of _ _); [apply respond_in_channel |].
  destruct (one_of _ _); [apply respond_in_channel |].
  unfold _dispatch_to_daemon.
  apply emits_bind_0; [apply emits_call_0; reflexivity | intros uuid].
  apply emits_bind_0; [apply emits_call_0; reflexivity | intros created_at].
  apply emits_bind_0.
  - unfold write_file, _get_file_sha. emits_zero.
  - intros ok. destruct ok; [reflexivity | apply respond_in_channel].
Qed.

End Replies.

(** X24: a dispatch sends at most one message to Slack, whichever way it
    goes; and the job started for an event, which has no callback URL,
    posts to [chat.postMessage] and nowhere else. *)
Theorem X24_one_reply_per_dispatch
  (str_lower : str -> str) (json_dumps : json -> str) (b64encode : str -> str)
  (self : JobHandler) (S : Type) (h : handler S) (s : S) :
  (forall text user_id channel_id response_url thread_ts,
      count is_post
        (trace (run h (dispatch str_lower json_dumps b64encode self text
                         user_id channel_id response_url thread_ts) s)) <= 1)
  /\ (forall event,
        count (is_post_elsewhere Worker.SLACK_POST_MESSAGE)
          (trace (run h (handle_event str_lower json_dumps b64encode self event) s)) = 0).
Proof.
  split.
  - intros. apply at_most_run, dispatch_at_most_one.
  - intros. apply emits_never, handle_event_in_channel.
Qed.

Lemma endswith_app (s p : str) : endswith (s ++ p) p = true.
Proof.
  unfold endswith. rewrite rev_app_distr.
  induction (rev p) as [|a l IH]; [reflexivity |].
  cbn [startswith app]. rewrite N.eqb_refl. exact IH.
Qed.

Lemma not_a_put (Q : str -> json -> Prop) (e : entry) :
  is_put e = false -> forall u p, put e = Some (u, p) -> Q u p.
Proof.
  destruct e as [X ev]. unfold is_put, put. cbn [projT2].
  destruct ev; discriminate.
Qed.

Lemma no_put_run {A S} (Q : str -> json -> Prop) (h : handler S) (m : prog A) (s : S) :
  emits is_put 0 m ->
  Forall (fun e => forall u p, put e = Some (u, p) -> Q u p) (trace (run h m s)).
Proof.
  intros Hm. apply every_run, (every_of_emits is_put); [| exact Hm].
  intros e He. apply not_a_put, He.
Qed.

Section TaskFile.

Variable str_lower : str -> str.
Variable json_dumps : json -> str.
Variable b64encode : str -> str.
Variable self : JobHandler.
Variable text : str.
Variables user_id channel_id response_url thread_ts : json.
Variable S : Type.
Variable h : handler S.

(** [write_file] makes its PUT with the revision its lookup returned. *)
Lemma write_file_put (path content message : str) (s : S) :
  Forall (fun e => forall u p, put e = Some (u, p) ->
            exists sha,
              value (run h (_get_file_sha (github self) path) s) = Ok sha
              /\ u = Worker.contents_url (github self) path
              /\ p = JDict ([(lit "message", JStr message);
                             (lit "content", JStr (b64encode content));
                             (lit "branch", JStr (branch (github self)))]
                            ++ (if truthy sha then [(lit "sha", sha)] else [])))
    (trace (run h (write_file b64encode (github self) path content message) s)).
Proof.
  unfold write_file. rewrite run_bind.
  destruct (value (run h (_get_file_sha _ _) s)) as [sha | e] eqn:Hsha; cbn [trace].
  2:{ apply no_put_run. unfold _get_file_sha. emits_zero. }
  apply Forall_app. split.
  - apply no_put_run. unfold _get_file_sha. emits_zero.
  - rewrite run_bind, run_call. cbn [value trace].
    destruct (fst (h _ _ _)); cbn [run trace app]; (constructor; [| constructor]);
      intros u p [= <- <-]; exists sha; repeat split; reflexivity.
Qed.

Variable s : S.

(** The record [_dispatch_to_daemon] writes for the identifier [uuid] at
    the time [created_at]. *)
Local Abbreviation task_record uuid created_at :=
  (JDict [(lit "task_id", JStr (firstn 8 uuid));
          (lit "prompt", JStr text);
          (lit "requested_by", user_id);
          (lit "channel_id", channel_id);
          (lit "thread_ts", thread_ts);
          (lit "response_url", response_url);
          (lit "created_at", JStr created_at)]).

(** Every PUT of a dispatch is the one of [write_file], made with the
    answers the run got to its first calls: the identifier, the time and
    the lookup of the file. *)
Lemma dispatch_put :
  Forall (fun e => forall u p, put e = Some (u, p) ->
            exists uuid created_at sha,
              fst (h _ Uuid4 s) = Ok uuid
              /\ fst (h _ UtcNowIso (snd (h _ Uuid4 s))) = Ok created_at
              /\ value (run h (_get_file_sha (github self)
                                 (lit "tasks/" ++ firstn 8 uuid ++ lit ".json"))
                          (snd (h _ UtcNowIso (snd (h _ Uuid4 s))))) = Ok sha
              /\ u = Worker.contents_url (github self)
                       (lit "tasks/" ++ firstn 8 uuid ++ lit ".json")
              /\ p = JDict ([(lit "message",
                              JStr (lit "Task " ++ firstn 8 uuid ++ lit ": "
                                    ++ firstn 50 text));
                             (lit "content",
                              JStr (b64encode (json_dumps (task_record uuid created_at))));
                             (lit "branch", JStr (branch (github self)))]
                            ++ (if truthy sha then [(lit "sha", sha)] else [])))
    (trace (run h (dispatch str_lower json_dumps b64encode self text
                     user_id channel_id response_url thread_ts) s)).
Proof.
  unfold dispatch.
  destruct (one_of _ _); [apply no_put_run, respond_emits; reflexivity |].
  destruct (one_of _ _); [apply no_put_run, respond_emits; reflexivity |].
  unfold _dispatch_to_daemon, call. cbn [bind run].
  destruct (h _ Uuid4 s) as [[uuid | e] s1]; cbn [fst snd lift bind run trace];
    [| constructor; [apply not_a_put; reflexivity | constructor]].
  constructor; [apply not_a_put; reflexivity |].
  destruct (h _ UtcNowIso s1) as [[created_at | e] s2]; cbn [fst snd lift bind run trace];
    [| constructor; [apply not_a_put; reflexivity | constructor]].
  constructor; [apply not_a_put; reflexivity |].
  assert (Hput := write_file_put
                    (lit "tasks/" ++ firstn 8 uuid ++ lit ".json")
                    (json_dumps (task_record uuid created_at))
                    (lit "Task " ++ firstn 8 uuid ++ lit ": " ++ firstn 50 text) s2).
  assert (Hput' : Forall (fun e => forall u p, put e = Some (u, p) ->
            exists uuid0 created_at0 sha,
              Ok uuid = Ok uuid0
              /\ Ok created_at = Ok created_at0
              /\ value (run h (_get_file_sha (github self)
                                 (lit "tasks/" ++ firstn 8 uuid0 ++ lit ".json")) s2)
                 = Ok sha
              /\ u = Worker.contents_url (github self)
                       (lit "tasks/" ++ firstn 8 uuid0 ++ lit ".json")
              /\ p = JDict ([(lit "message",
                              JStr (lit "Task " ++ firstn 8 uuid0 ++ lit ": "
                                    ++ firstn 50 text));
                             (lit "content",
                              JStr (b64encode
                                      (json_dumps (task_record uuid0 created_at0))));
                             (lit "branch", JStr (branch (github self)))]
                            ++ (if truthy sha then [(lit "sha", sha)] else [])))
            (trace (run h (write_file b64encode (github self)
                             (lit "tasks/" ++ firstn 8 uuid ++ lit ".json")
                             (json_dumps (task_record uuid created_at))
                             (lit "Task " ++ firstn 8 uuid ++ lit ": " ++ firstn 50 text))
                      s2))).
  { eapply Forall_impl; [| exact Hput]. cbv beta.
    intros e He u p Hup. destruct (He u p Hup) as (sha & H1 & H2 & H3).
    exists uuid, created_at, sha. auto. }
  rewrite run_bind.
  destruct (value (run h (write_file _ _ _ _ _) s2)) as [ok | e]; cbn [trace];
    [| exact Hput'].
  apply Forall_app. split; [exact Hput' |].
  apply no_put_run.
  destruct ok; [reflexivity | apply respond_emits; reflexivity].
Qed.

End TaskFile.

(** X25: every file the dispatcher writes goes to the tasks directory of
    the repository, under the first eight characters of the identifier
    the run drew, followed by the extension .json; an entry of that name
    is one the daemon keeps when it lists the directory. *)
Theorem X25_task_files_are_where_the_daemon_looks
  (str_lower : str -> str) (json_dumps : json -> str) (b64encode : str -> str)
  (self : JobHandler) (text : str) (user_id channel_id response_url thread_ts : json)
  (S : Type) (h : handler S) (s : S) :
  Forall (fun e => forall u p, put e = Some (u, p) ->
            exists uuid,
              fst (h _ Uuid4 s) = Ok uuid
              /\ u = Worker.contents_url (github self)
                       (task_path (firstn 8 uuid ++ lit ".json"))
              /\ forall item,
                   subscript item (lit "name")
                   = Ok (JStr (firstn 8 uuid ++ lit ".json")) ->
                   is_json_file item = Ok true)
    (trace (run h (dispatch str_lower json_dumps b64encode self text
                     user_id channel_id response_url thread_ts) s)).
Proof.
  eapply Forall_impl;
    [| exact (dispatch_put str_lower json_dumps b64encode self text
                user_id channel_id response_url thread_ts S h s)].
  cbv beta. intros e He u p Hup.
  destruct (He u p Hup) as (uuid & created_at & sha & Huuid & _ & _ & Hu & _).
  exists uuid. split; [exact Huuid |]. split; [exact Hu |].
  intros item Hitem. unfold is_json_file. rewrite Hitem, endswith_app. reflexivity.
Qed.

(** X26: a slash command with no text is acknowledged as help, and the
    job it schedules answers with the help text. *)
Theorem X26_empty_command_is_help
  (str_lower : str -> str) (json_dumps : json -> str) (b64encode : str -> str)
  (self : JobHandler) (payload : dict) :
  text_of payload = Ok [] ->
  str_lower [] = [] ->
  handle_slash_command payload
  = (call (CreateTask (DispatchJob []
                         (get_or payload (lit "user_id") (JStr (lit "unknown")))
                         (get_or payload (lit "channel_id") (JStr []))
                         (get_or payload (lit "response_url") (JStr []))
                         (JStr []))) ;;
     Ret (JsonReply
            (JDict [(lit "response_type", JStr (lit "ephemeral"));
                    (lit "text", JStr (lit "Got it: `help`" ++ nl
                                       ++ lit "Working on it..."))])))
  /\ background str_lower json_dumps b64encode self
       (DispatchJob []
          (get_or payload (lit "user_id") (JStr (lit "unknown")))
          (get_or payload (lit "channel_id") (JStr []))
          (get_or payload (lit "response_url") (JStr []))
          (JStr []))
     = _respond self (get_or payload (lit "channel_id") (JStr [])) _handle_help
         (get_or payload (lit "response_url") (JStr [])) (JStr []).
Proof.
  intros Htext Hlower. split.
  - unfold handle_slash_command. rewrite Htext. reflexivity.
  - unfold background, dispatch. rewrite Hlower. reflexivity.
Qed.

Lemma X26_empty_command_is_help_witness :
  background ascii_lower sample_json_dumps sample_b64encode sample_handler
    (DispatchJob [] (JStr (lit "U123")) (JStr (lit "C456")) (JStr sample_url) (JStr []))
  = _respond sample_handler (JStr (lit "C456")) _handle_help (JStr sample_url) (JStr []).
Proof.
  exact (proj2 (X26_empty_command_is_help ascii_lower sample_json_dumps sample_b64encode
                  sample_handler
                  (form_payload [(lit "command", [lit "/claude"]);
                                 (lit "user_id", [lit "U123"]);
                                 (lit "channel_id", [lit "C456"]);
                                 (lit "response_url", [sample_url])])
                  eq_refl eq_refl)).
Defined.

Lemma form_payload_get (before after : list (str * list str)) (key : str)
  (values : list str) :
  (forall kv, In kv before -> str_eqb (fst kv) key = false) ->
  dict_get (form_payload (before ++ (key, values) :: after)) key
  = Some (match values with [x] => JStr x | v => JList (map JStr v) end).
Proof.
  intros Hb. unfold form_payload. induction before as [|kv before IH]; cbn [app map dict_get fst snd].
  - rewrite str_eqb_refl. destruct values as [|x [|y vs]]; reflexivity.
  - rewrite (Hb kv (or_introl eq_refl)). apply IH.
    intros kv' Hkv'. apply Hb. right. exact Hkv'.
Qed.

(** X27: a form in which the text field occurs more than once gives the
    payload a list where the handler strips a string: the slash command
    raises [AttributeError] and schedules nothing. *)
Theorem X27_repeated_text_field_raises
  (before after : list (str * list str)) (first second : str) (more : list str) :
  (forall kv, In kv before -> str_eqb (fst kv) (lit "text") = false) ->
  handle_slash_command
    (form_payload (before ++ (lit "text", first :: second :: more) :: after))
  = Raise (error AttributeError).
Proof.
  intros Hb. unfold handle_slash_command, text_of, get_or.
  rewrite (form_payload_get before after (lit "text") _ Hb). reflexivity.
Qed.

Lemma X27_repeated_text_field_raises_witness :
  handle_slash_command
    (form_payload [(lit "command", [lit "/claude"]);
                   (lit "text", [lit "status"; lit "help"])])
  = Raise (error AttributeError).
Proof.
  apply (X27_repeated_text_field_raises [(lit "command", [lit "/claude"])] []
           (lit "status") (lit "help") []).
  intros kv [<- | []]. reflexivity.
Defined.

(** X28: an event whose text is empty once the mentions are stripped (a
    bare mention of the bot, say) is answered with the help text, in the
    thread of the event when it has one and else under the message
    itself. *)
Theorem X28_bare_mention_gets_help
  (str_lower : str -> str) (json_dumps : json -> str) (b64encode : str -> str)
  (self : JobHandler) (event : dict) (text : str) :
  get_or event (lit "text") (JStr []) = JStr text ->
  strip_mentions (strip text) = [] ->
  str_lower [] = [] ->
  handle_event str_lower json_dumps b64encode self (JDict event)
  = _respond self (get_or event (lit "channel") (JStr [])) _handle_help (JStr [])
      (if truthy (get_or event (lit "thread_ts") JNull)
       then get_or event (lit "thread_ts") JNull
       else get_or event (lit "ts") (JStr [])).
Proof.
  intros Htext Hstrip Hlower. unfold handle_event, text_of. rewrite Htext.
  cbn [truthy]. destruct text as [|c text].
  - cbn [nonempty lift bind]. unfold dispatch.
    change (strip_mentions []) with (@nil char). rewrite Hlower. reflexivity.
  - cbn [nonempty lift bind]. rewrite Hstrip. unfold dispatch.
    rewrite Hlower. reflexivity.
Qed.

Lemma X28_bare_mention_gets_help_witness :
  handle_event ascii_lower sample_json_dumps sample_b64encode sample_handler
    (JDict [(lit "type", JStr (lit "app_mention"));
            (lit "text", JStr (lit "<@U0123ABC> "));
            (lit "channel", JStr (lit "C456"));
            (lit "ts", JStr (lit "1714564800.000100"))])
  = _respond sample_handler (JStr (lit "C456")) _handle_help (JStr [])
      (JStr (lit "1714564800.000100")).
Proof.
  exact (X28_bare_mention_gets_help ascii_lower sample_json_dumps sample_b64encode
           sample_handler
           [(lit "type", JStr (lit "app_mention"));
            (lit "text", JStr (lit "<@U0123ABC> "));
            (lit "channel", JStr (lit "C456"));
            (lit "ts", JStr (lit "1714564800.000100"))]
           (lit "<@U0123ABC> ") eq_refl eq_refl eq_refl).
Defined.

(** ** What is written and what is read *)

(** X29: the file a dispatch writes holds, base64 encoded, the JSON text of
    a record with the first eight characters of the identifier the run
    drew as task id, the text as prompt, the requester, the channel, the
    thread, the callback URL and the time the run read as creation time;
    the commit message quotes at most fifty characters of the text; and
    the revision that the lookup of the file returned in this run is sent
    along exactly when it is truthy. *)
Theorem X29_task_file_content
  (str_lower : str -> str) (json_dumps : json -> str) (b64encode : str -> str)
  (self : JobHandler) (text : str) (user_id channel_id response_url thread_ts : json)
  (S : Type) (h : handler S) (s : S) :
  Forall (fun e => forall u p, put e = Some (u, p) ->
            exists uuid created_at sha,
              fst (h _ Uuid4 s) = Ok uuid
              /\ fst (h _ UtcNowIso (snd (h _ Uuid4 s))) = Ok created_at
              /\ value (run h (_get_file_sha (github self)
                                 (lit "tasks/" ++ firstn 8 uuid ++ lit ".json"))
                          (snd (h _ UtcNowIso (snd (h _ Uuid4 s))))) = Ok sha
              /\ p = JDict ([(lit "message",
                              JStr (lit "Task " ++ firstn 8 uuid ++ lit ": "
                                    ++ firstn 50 text));
                             (lit "content",
                              JStr (b64encode
                                      (json_dumps
                                         (JDict [(lit "task_id", JStr (firstn 8 uuid));
                                                 (lit "prompt", JStr text);
                                                 (lit "requested_by", user_id);
                                                 (lit "channel_id", channel_id);
                                                 (lit "thread_ts", thread_ts);
                                                 (lit "response_url", response_url);
                                                 (lit "created_at", JStr created_at)]))));
                             (lit "branch", JStr (branch (github self)))]
                            ++ (if truthy sha then [(lit "sha", sha)] else [])))
    (trace (run h (dispatch str_lower json_dumps b64encode self text
                     user_id channel_id response_url thread_ts) s)).
Proof.
  eapply Forall_impl;
    [| exact (dispatch_put str_lower json_dumps b64encode self text
                user_id channel_id response_url thread_ts S h s)].
  cbv beta. intros e He u p Hup.
  destruct (He u p Hup) as (uuid & created_at & sha & Huuid & Htime & Hsha & _ & Hp).
  exists uuid, created_at, sha. auto.
Qed.

Lemma dict_get_set_other (d : dict) (k k' : str) (v : json) :
  k <> k' -> dict_get (dict_set d k v) k' = dict_get d k'.
Proof.
  intros Hne. induction d as [|[k0 v0] d IH]; cbn [dict_set dict_get].
  - apply str_eqb_neq in Hne. rewrite Hne. reflexivity.
  - destruct (str_eqb k0 k) eqn:E; cbn [dict_get].
    + apply str_eqb_eq in E. subst k0. apply str_eqb_neq in Hne. rewrite Hne. reflexivity.
    + destruct (str_eqb k0 k'); [reflexivity | exact IH].
Qed.

(** X30: a task read from a file that holds a JSON object is that object
    with two fields set, the revision of the file under _sha and the path
    it was read from under _path; every other field is as it was
    written. *)
Theorem X30_read_task_adds_revision_and_path
  (cfg : config) (b64decode : str -> option bytes)
  (decode_utf8 : bytes -> option str) (json_loads : str -> option json)
  (py_str : json -> str) (S : Type) (h : handler S) (s s' : S)
  (path sha data : json) (b64 content : str) (raw : bytes) (task : dict) :
  h _ (HttpGet (Daemon.contents_url cfg (format_value py_str path))
         (Daemon.github_headers cfg) []) s
  = (Ok {| status_code := 200; body := Some data |}, s') ->
  subscript data (lit "content") = Ok (JStr b64) ->
  subscript data (lit "sha") = Ok sha ->
  b64decode b64 = Some raw ->
  decode_utf8 raw = Some content ->
  json_loads content = Some (JDict task) ->
  exists t,
    value (run h (read_task cfg b64decode decode_utf8 json_loads py_str path) s)
    = Ok (Some t)
    /\ dict_get t (lit "_sha") = Some sha
    /\ dict_get t (lit "_path") = Some path
    /\ forall key, key <> lit "_sha" -> key <> lit "_path" ->
                   dict_get t key = dict_get task key.
Proof.
  intros Hh Hcontent Hsha Hb Hu Hj.
  exists (dict_set (dict_set task (lit "_sha") sha) (lit "_path") path).
  split.
  - unfold read_task. rewrite run_bind, run_call, Hh.
    cbn [fst snd value final status_code Nat.eqb negb].
    rewrite run_bind. cbn [resp_json body run value final].
    unfold decode_task. rewrite Hcontent, Hb, Hu, Hj, Hsha. reflexivity.
  - split; [| split].
    + rewrite dict_get_set_other by discriminate. apply dict_get_set_same.
    + apply dict_get_set_same.
    + intros key H1 H2.
      rewrite !dict_get_set_other by congruence. reflexivity.
Qed.

Lemma X30_read_task_adds_revision_and_path_witness :
  exists t,
    value (run (with_store sample_config unit quiet)
             (read_task sample_config sample_b64decode sample_decode_utf8
                sample_json_loads sample_str (JStr (task_path (lit "ok.json"))))
             (blocked_store, tt))
    = Ok (Some t)
    /\ dict_get t (lit "_sha") = Some (JStr (lit "52e1"))
    /\ dict_get t (lit "_path") = Some (JStr (task_path (lit "ok.json")))
    /\ forall key, key <> lit "_sha" -> key <> lit "_path" ->
                   dict_get t key = dict_get [] key.
Proof.
  exact (X30_read_task_adds_revision_and_path sample_config sample_b64decode
           sample_decode_utf8 sample_json_loads sample_str (store * unit)
           (with_store sample_config unit quiet) (blocked_store, tt) (blocked_store, tt)
           (JStr (task_path (lit "ok.json"))) (JStr (lit "52e1"))
           (file_entry (lit "ok.json")
              {| file_sha := lit "52e1"; file_content := lit "e30=" |})
           (lit "e30=") (lit "{}") (ascii_bytes (lit "{}")) []
           eq_refl eq_refl eq_refl eq_refl eq_refl eq_refl).
Defined.
